(** * Emotet configuration parser (modules/processing/parsers/mwcp/parsers/Emotet.py)

    A shallow embedding of the Python 2 parser: the byte-level helpers
    ([struct], slicing, [socket.inet_ntoa]), the YARA rule and [yara_scan],
    [xor_data], [extract_emotet_rsakey] and the driver [Emotet.run], followed
    by the properties of the extraction.

    Python 2 [str] buffers are lists of bytes, Python integers are [Z],
    exceptions are values of [exn] carried by [outcome], and the reporter is
    the list of the [add_metadata] calls made so far. *)

From Stdlib Require Import ZArith String Ascii Lia Bool DecimalString List.
From Stdlib.Strings Require Import Byte.
Import ListNotations.

Open Scope string_scope.
Open Scope list_scope.
Open Scope Z_scope.

(** ** Exceptions and outcomes *)

Inductive exn : Type :=
| struct_error
| socket_error
| PEFormatError
| ValueError
| IndexError
| ZeroDivisionError
| NameError (name : string)
| UnboundLocalError (name : string).

(** The result of evaluating a piece of Python: a value, a raised exception,
    or (for the [while] loops, which are run with a fuel) no answer yet. *)
Inductive outcome (A : Type) : Type :=
| Ok (a : A)
| Raise (e : exn)
| OutOfFuel.

Arguments Ok {A} a.
Arguments Raise {A} e.
Arguments OutOfFuel {A}.

Definition obind {A B : Type} (c : outcome A) (k : A -> outcome B) : outcome B :=
  match c with
  | Ok a => k a
  | Raise e => Raise e
  | OutOfFuel => OutOfFuel
  end.

Notation "'let?' x ':=' c 'in' k" := (obind c (fun x => k))
  (at level 10, x name, c at level 200, k at level 200).

(** ** Bytes, slices and the [struct] module *)

Definition bytes : Type := list byte.

Definition ord (b : byte) : Z := Z.of_N (Byte.to_N b).

Definition byte_of_Z (z : Z) : byte :=
  match Byte.of_N (Z.to_N (z mod 256)) with
  | Some b => b
  | None => x00
  end.

(** [chr(i)] raises ValueError outside [range(256)]. *)
Definition chr (z : Z) : outcome byte :=
  if (0 <=? z) && (z <? 256) then Ok (byte_of_Z z) else Raise ValueError.

Definition len {A : Type} (s : list A) : Z := Z.of_nat (length s).

(** Python's normalisation of one slice index against a sequence of length
    [n]: a negative index counts from the end, and the result is clipped to
    [0..n]. *)
Definition slice_index (n i : Z) : Z :=
  if i <? 0 then Z.max 0 (i + n) else Z.min i n.

(** [s[a:b]]: never raises, yields the (possibly empty, possibly short)
    stretch between the two normalised indices. *)
Definition py_slice {A : Type} (s : list A) (a b : Z) : list A :=
  let lo := slice_index (len s) a in
  let hi := slice_index (len s) b in
  firstn (Z.to_nat (hi - lo)) (skipn (Z.to_nat lo) s).

(** [seq[i]] for a non-negative literal index. *)
Definition getitem {A : Type} (s : list A) (i : nat) : outcome A :=
  match nth_error s i with
  | Some a => Ok a
  | None => Raise IndexError
  end.

(** Little-endian value of a byte string. *)
Fixpoint le_decode (s : bytes) : Z :=
  match s with
  | [] => 0
  | b :: t => ord b + 256 * le_decode t
  end.

Definition to_signed (bits v : Z) : Z :=
  if v <? 2 ^ (bits - 1) then v else v - 2 ^ bits.

(** The [struct] formats the parser uses.  The native formats ['I'], ['i'],
    ['h'], ['H'], ['b'] hold a single item, so no padding is involved; the
    native byte order is taken to be little-endian, the order of the hosts
    the parser runs on. *)
Inductive struct_fmt : Type :=
| fmt_I      (* 'I'  unsigned 32 *)
| fmt_ltI    (* '<I' unsigned 32, little-endian *)
| fmt_i      (* 'i'  signed 32 *)
| fmt_H      (* 'H'  unsigned 16 *)
| fmt_h      (* 'h'  signed 16 *)
| fmt_b.     (* 'b'  signed 8 *)

Definition calcsize (f : struct_fmt) : nat :=
  match f with
  | fmt_I | fmt_ltI | fmt_i => 4
  | fmt_H | fmt_h => 2
  | fmt_b => 1
  end%nat.

Definition fmt_signed (f : struct_fmt) : bool :=
  match f with
  | fmt_i | fmt_h | fmt_b => true
  | _ => false
  end.

(** [struct.unpack(fmt, s)[0]]: struct.error unless [s] has exactly the
    size of the format. *)
Definition struct_unpack (f : struct_fmt) (s : bytes) : outcome Z :=
  if Nat.eqb (length s) (calcsize f) then
    Ok (if fmt_signed f
        then to_signed (8 * Z.of_nat (calcsize f)) (le_decode s)
        else le_decode s)
  else Raise struct_error.

Definition in_uint32 (v : Z) : bool := (0 <=? v) && (v <? 2 ^ 32).

(** [struct.pack('<I', v)] *)
Definition struct_pack_ltI (v : Z) : outcome bytes :=
  if in_uint32 v then
    Ok [byte_of_Z v; byte_of_Z (Z.shiftr v 8);
        byte_of_Z (Z.shiftr v 16); byte_of_Z (Z.shiftr v 24)]
  else Raise struct_error.

(** [struct.pack('!L', v)]: network (big-endian) order. *)
Definition struct_pack_netL (v : Z) : outcome bytes :=
  if in_uint32 v then
    Ok [byte_of_Z (Z.shiftr v 24); byte_of_Z (Z.shiftr v 16);
        byte_of_Z (Z.shiftr v 8); byte_of_Z v]
  else Raise struct_error.

(** [str(i)] for an integer. *)
Definition str (z : Z) : string := NilZero.string_of_int (Z.to_int z).

(** [socket.inet_ntoa(packed)] *)
Definition inet_ntoa (packed : bytes) : outcome string :=
  match packed with
  | [a; b; c; d] =>
      Ok (str (ord a) ++ "." ++ str (ord b) ++ "." ++ str (ord c) ++ "." ++ str (ord d))%string
  | _ => Raise socket_error
  end.

(** Truth value of a Python string. *)
Definition truthy (s : string) : bool :=
  match s with
  | EmptyString => false
  | _ => true
  end.

(** ** The YARA rule *)

(** Tokens of a YARA hex string: a byte, the wildcard [??], a jump [[lo-hi]]. *)
Inductive hex_token : Type :=
| HB (b : byte)
| HW
| HJ (lo hi : nat).

Definition hex_string : Type := list hex_token.

(** Does the hex string match a prefix of [s]? *)
Fixpoint match_here (p : hex_string) (s : bytes) : bool :=
  match p with
  | [] => true
  | HB b :: p' =>
      match s with
      | c :: s' => Byte.eqb b c && match_here p' s'
      | [] => false
      end
  | HW :: p' =>
      match s with
      | _ :: s' => match_here p' s'
      | [] => false
      end
  | HJ lo hi :: p' =>
      existsb (fun k => Nat.leb k (length s) && match_here p' (skipn k s))
              (seq lo (S hi - lo))
  end.

(** The least number of bytes a match of the hex string covers. *)
Fixpoint min_length (p : hex_string) : nat :=
  match p with
  | [] => 0
  | HB _ :: p' => S (min_length p')
  | HW :: p' => S (min_length p')
  | HJ lo _ :: p' => lo + min_length p'
  end.

(** Offsets (counted from [i]) at which the hex string matches, ascending. *)
Fixpoint match_offsets (p : hex_string) (s : bytes) (i : Z) : list Z :=
  match s with
  | [] => []
  | _ :: s' => (if match_here p s then [i] else []) ++ match_offsets p s' (i + 1)
  end.

Definition hex (l : list byte) : hex_string := map HB l.
Definition any (n : nat) : hex_string := repeat HW n.

Definition snippet1 : hex_string :=
  hex [xff; x15] ++ any 4 ++ hex [x83; xc4; x0c; x68; x40; x00; x00; xf0; x6a; x18].

Definition snippet2 : hex_string :=
  hex [x6a; x13; x68; x01; x00; x01; x00; xff; x15] ++ any 4 ++ hex [x85; xc0].

Definition snippet3 : hex_string :=
  hex [x83; x3d] ++ any 4 ++ hex [x00; xc7; x05] ++ any 8 ++ hex [xc7; x05] ++ any 8
  ++ hex [x74; x0a; x51; xe8] ++ any 4 ++ hex [x83; xc4; x04; xc3; x33; xc0; xc3].

Definition snippet4 : hex_string :=
  hex [x33; xc0; xc7; x05] ++ any 8 ++ hex [xc7; x05] ++ any 8 ++ hex [xa3] ++ any 4
  ++ hex [xa3] ++ any 19 ++ hex [x00; x40; xa3] ++ any 4 ++ hex [x83; x3c; xc5] ++ any 4
  ++ hex [x00; x75; xf0; x51; xe8] ++ any 4 ++ hex [x83; xc4; x04; xc3].

Definition snippet5 : hex_string :=
  hex [x8b; xe5; x5d; xc3; xb8] ++ any 4 ++ hex [xa3] ++ any 4 ++ hex [xa3] ++ any 4
  ++ hex [x33; xc0; x21; x05] ++ any 4 ++ hex [xa3] ++ any 4 ++ hex [x39; x05] ++ any 4
  ++ hex [x74; x18; x40; xa3] ++ any 4 ++ hex [x83; x3c; xc5] ++ any 4
  ++ hex [x00; x75; xf0; x51; xe8] ++ any 4 ++ hex [x59; xc3].

Definition snippet6 : hex_string :=
  hex [x33; xc0; x21; x05] ++ any 4 ++ hex [xa3] ++ any 4 ++ hex [x39; x05] ++ any 4
  ++ hex [x74; x18; x40; xa3] ++ any 4 ++ hex [x83; x3c; xc5] ++ any 4
  ++ hex [x00; x75; xf0; x51; xe8] ++ any 4 ++ hex [x59; xc3].

Definition snippet7 : hex_string :=
  hex [x8b; x48] ++ any 1 ++ hex [xc7] ++ [HJ 5 6] ++ hex [xc7; x40] ++ any 5
  ++ hex [xc7] ++ any 2 ++ hex [x00; x00; x00] ++ [HJ 0 1] ++ hex [x83; x3c; xcd] ++ any 4
  ++ hex [x00; x74; x0e; x41; x89; x48] ++ any 1 ++ hex [x83; x3c; xcd] ++ any 4
  ++ hex [x00; x75; xf2].

Definition ref_rsa : hex_string :=
  hex [x6a; x00; x6a; x01; xff; x76] ++ any 1 ++ hex [x8b; x46] ++ any 1
  ++ hex [xff; xd0; x85; xc0; x74] ++ any 1 ++ hex [x8d; x4d] ++ any 1 ++ hex [xe8]
  ++ [HJ 4 4] ++ hex [x8d; x45] ++ any 1 ++ hex [xb9] ++ [HJ 4 4] ++ hex [x8d; x55] ++ any 1
  ++ hex [x89; x45] ++ any 1 ++ hex [xe8].

(** The [strings:] section of [rule_source], in order of definition. *)
Definition rule_strings : list (string * hex_string) :=
  [("$snippet1", snippet1); ("$snippet2", snippet2); ("$snippet3", snippet3);
   ("$snippet4", snippet4); ("$snippet5", snippet5); ("$snippet6", snippet6);
   ("$snippet7", snippet7); ("$ref_rsa", ref_rsa)].

Definition present (p : hex_string) (data : bytes) : bool :=
  match match_offsets p data 0 with
  | [] => false
  | _ => true
  end.

(** [uint16(0) == 0x5A4D] *)
Definition mz_header (data : bytes) : bool :=
  match data with
  | a :: b :: _ => (ord a + 256 * ord b) =? 23117
  | _ => false
  end.

(** The [condition:] of the rule; [and] binds tighter than [or]. *)
Definition rule_condition (data : bytes) : bool :=
  (mz_header data && (present snippet1 data && present snippet2 data))
  || present snippet3 data || present snippet4 data || present snippet5 data
  || present snippet6 data || present snippet7 data || present ref_rsa data.

(** [match.strings] of the rule's match: one [(offset, identifier)] item per
    string match (the matched data, third component, is not used by the
    parser).  The items of one identifier come in ascending offset. *)
Definition match_strings (data : bytes) : list (Z * string) :=
  flat_map (fun '(id, p) => map (fun o => (o, id)) (match_offsets p data 0))
           rule_strings.

(** [yara_rules.match(data)]: the list of matching rules, here at most the
    one rule, represented by its [strings]. *)
Definition yara_match (data : bytes) : list (list (Z * string)) :=
  if rule_condition data then [match_strings data] else [].

(** [yara_scan(raw_data, rule_name)].  The function returns either [None]
    (by falling off its end) or the one-entry dictionary
    [{rule_name: offset}]; that dictionary is represented by its offset. *)
Definition yara_scan (raw_data : bytes) (rule_name : string) : option Z :=
  match yara_match raw_data with
  | strings :: _ =>
      match find (fun item => String.eqb (snd item) rule_name) strings with
      | Some item => Some (fst item)
      | None => None
      end
  | [] => None
  end.

(** ** [xor_data] *)

(** The loop of [xor_data] from index [i] on: [data[i]] is combined with
    [key[i % l]].  An empty key makes [i % l] raise ZeroDivisionError. *)
Fixpoint xor_data_from (i : nat) (data key : bytes) : outcome bytes :=
  match data with
  | [] => Ok []
  | d :: rest =>
      match length key with
      | O => Raise ZeroDivisionError
      | l =>
          let? k := getitem key (i mod l) in
          let? c := chr (Z.lxor (ord d) (ord k)) in
          let? decoded := xor_data_from (S i) rest key in
          Ok (c :: decoded)
      end
  end.

Definition xor_data (data key : bytes) : outcome bytes := xor_data_from 0 data key.

(** The masking as the specification words it: byte [i] of the data is
    XORed with byte [i mod 4] of the four key bytes.  Compared with
    [xor_data] in [xor_data_spec]. *)
Fixpoint xor_mask_from (i : nat) (data key : bytes) : bytes :=
  match data with
  | [] => []
  | d :: rest =>
      byte_of_Z (Z.lxor (ord d) (ord (nth (i mod 4) key x00)))
        :: xor_mask_from (S i) rest key
  end.

Definition xor_mask (data key : bytes) : bytes := xor_mask_from 0 data key.

(** ** Collaborators: the PE reader, the DER decoder, the reporter *)

(** What the parser uses of a [pefile.PE] object: [OPTIONAL_HEADER.ImageBase]
    and [get_offset_from_rva], which raises PEFormatError ([None]) for an RVA
    it cannot map. *)
Record PE : Type := {
  ImageBase : Z;
  get_offset_from_rva : Z -> option Z
}.

Definition pe_offset (pe : PE) (rva : Z) : outcome Z :=
  match get_offset_from_rva pe rva with
  | Some off => Ok off
  | None => Raise PEFormatError
  end.

(** [RSA.construct((n, e))]; the exported key stands for its PEM text. *)
Record RSAKey : Type := { modulus : Z; exponent : Z }.

(** One [reporter.add_metadata] call. *)
Inductive metadata : Type :=
| address (value : string)             (* add_metadata('address', value) *)
| other_RSA_public_key (key : RSAKey). (* add_metadata('other', {'RSA public key': ...}) *)

(** The reporter: the calls received so far, oldest first. *)
Definition reporter : Type := list metadata.

(** Computations that report metadata and may raise. *)
Definition M (A : Type) : Type := reporter -> reporter * outcome A.

Definition ret {A : Type} (a : A) : M A := fun r => (r, Ok a).

Definition lift {A : Type} (c : outcome A) : M A := fun r => (r, c).

Definition bind {A B : Type} (c : M A) (k : A -> M B) : M B :=
  fun r =>
    match c r with
    | (r', Ok a) => k a r'
    | (r', Raise e) => (r', Raise e)
    | (r', OutOfFuel) => (r', OutOfFuel)
    end.

Notation "x <- c ;; k" := (bind c (fun x => k))
  (at level 61, c at next level, right associativity).
Notation "c ;; k" := (bind c (fun _ => k))
  (at level 61, right associativity).

Definition add_metadata (m : metadata) : M unit := fun r => (r ++ [m], Ok tt).

(** Reading a local variable that an earlier statement may have left
    unbound. *)
Definition load_fast {A : Type} (name : string) (v : option A) : outcome A :=
  match v with
  | Some a => Ok a
  | None => Raise (UnboundLocalError name)
  end.

(** The names bound at module level by the imports, assignments and
    definitions of Emotet.py. *)
Definition module_globals : list string :=
  ["Parser"; "struct"; "socket"; "pefile"; "yara"; "os"; "re"; "asn1"; "RSA";
   "rule_source"; "MAX_IP_STRING_SIZE"; "yara_scan"; "xor_data";
   "extract_emotet_rsakey"; "Emotet"].

Definition load_global (name : string) : bool :=
  existsb (String.eqb name) module_globals.

(** Is the exception an instance of the class of that name? *)
Definition isinstance (e : exn) (cls : string) : bool :=
  match e with
  | PEFormatError => String.eqb cls "PEFormatError"
  | _ => false
  end.

(** [try: body  except cls as err: handler].  When [body] raises, the
    expression [cls] is evaluated to match the exception against it; a name
    that is bound nowhere makes that evaluation raise NameError in place of
    the exception being handled. *)
Definition try_except {A : Type} (body : M A) (cls : string) (handler : M A) : M A :=
  fun r =>
    match body r with
    | (r', Raise e) =>
        if load_global cls then
          if isinstance e cls then handler r' else (r', Raise e)
        else (r', Raise (NameError cls))
    | res => res
    end.

(** [try: body  except: handler] *)
Definition try_except_all {A : Type} (body : M A) (handler : M A) : M A :=
  fun r =>
    match body r with
    | (r', Raise _) => handler r'
    | res => res
    end.

(** ** [extract_emotet_rsakey] *)

(** The regular expression [\x30[\x00-\xff]{100}\x02\x03\x01\x00\x01\x00\x00]. *)
Definition pub_pattern : hex_string :=
  hex [x30] ++ any 100 ++ hex [x02; x03; x01; x00; x01; x00; x00].

(** [re.findall(...)[0]] when there is a match: the leftmost match, 108 bytes. *)
Fixpoint pub_first_match (filedata : bytes) : option bytes :=
  match filedata with
  | [] => None
  | _ :: rest =>
      if match_here pub_pattern filedata then Some (firstn 108 filedata)
      else pub_first_match rest
  end.

Section Driver.

(** [pefile.PE(data=..., fast_load=False)]; [None] when it raises
    PEFormatError. *)
Variable pefile_PE : bytes -> option PE.

(** [asn1.DerSequence().decode(blob)] followed by reading the sequence's
    items; [None] when decoding raises ValueError. *)
Variable DerSequence_decode : bytes -> option (list Z).

(** The signature locator; [yara_scan] in the parser. *)
Variable scan : bytes -> string -> option Z.

Definition der_decode (blob : bytes) : outcome (list Z) :=
  match DerSequence_decode blob with
  | Some items => Ok items
  | None => Raise ValueError
  end.

(** [RSA.construct((seq[0], seq[1]))] on the decoded blob. *)
Definition der_key (blob : bytes) : outcome RSAKey :=
  let? seq := der_decode blob in
  let? n := getitem seq 0 in
  let? e := getitem seq 1 in
  Ok {| modulus := n; exponent := e |}.

Definition extract_emotet_rsakey (filedata : bytes) : outcome (option RSAKey) :=
  match pub_first_match filedata with
  | Some m =>
      let pub_key := py_slice m 0 106 in
      let? k := der_key pub_key in
      Ok (Some k)
  | None => Ok None
  end.

(** *** The record loops *)

(** Fuel that lets a record loop starting at [off] run to its end: every
    record read needs [off] below the buffer's length, and [off] grows by
    8. *)
Definition loop_fuel (filebuf : bytes) (off : Z) : nat :=
  S (Z.to_nat (len filebuf - off)).

(** The body shared by both loops: render the record at [off] with the
    port read in format [port_fmt]. *)
Definition render_record (filebuf : bytes) (off ip : Z) (port_fmt : struct_fmt)
  : outcome (string * string) :=
  let? packed := struct_pack_netL ip in
  let? c2_address := inet_ntoa packed in
  let? p := struct_unpack port_fmt (py_slice filebuf (off + 4) (off + 6)) in
  Ok (c2_address, str p).

(** The [while ip:] loop of the [$c2list] branch, entered with [ip]
    already read at [ips_offset]. *)
Fixpoint c2list_loop (fuel : nat) (filebuf : bytes) (ips_offset ip : Z) : M unit :=
  match fuel with
  | O => lift OutOfFuel
  | S fuel' =>
      if ip =? 0 then ret tt
      else
        rec <- lift (render_record filebuf ips_offset ip fmt_h) ;;
        let '(c2_address, port) := rec in
        (if truthy c2_address && truthy port
         then add_metadata (address (c2_address ++ ":" ++ port))
         else ret tt) ;;
        let ips_offset := ips_offset + 8 in
        ip <- lift (struct_unpack fmt_I (py_slice filebuf ips_offset (ips_offset + 4))) ;;
        c2list_loop fuel' filebuf ips_offset ip
  end.

(** The [$c2list] branch, up to its [return]. *)
Definition c2list_branch (filebuf : bytes) (ips_offset : Z) : M unit :=
  ip <- lift (struct_unpack fmt_I (py_slice filebuf ips_offset (ips_offset + 4))) ;;
  c2list_loop (loop_fuel filebuf ips_offset) filebuf ips_offset ip.

(** The [while 1:] loop of the [$snippet3] .. [$snippet7] branches;
    [c2_list_offset] is unbound ([None]) when the translation above it was
    skipped by its handler. *)
Fixpoint snippet_loop (fuel : nat) (filebuf : bytes) (c2_list_offset : option Z)
  : M unit :=
  match fuel with
  | O => lift OutOfFuel
  | S fuel' =>
      match (let? off := load_fast "c2_list_offset" c2_list_offset in
             let? ip := struct_unpack fmt_ltI (py_slice filebuf off (off + 4)) in
             Ok (off, ip)) with
      | Raise _ => ret tt                                  (* except: break *)
      | OutOfFuel => lift OutOfFuel
      | Ok (off, ip) =>
          if ip =? 0 then ret tt                           (* break *)
          else
            rec <- lift (render_record filebuf off ip fmt_H) ;;
            let '(c2_address, port) := rec in
            if truthy c2_address && truthy port
            then add_metadata (address (c2_address ++ ":" ++ port)) ;;
                 snippet_loop fuel' filebuf (Some (off + 8))
            else ret tt                                    (* break *)
      end
  end.

(** [try: c2_list_offset = pe.get_offset_from_rva(c2_list_rva)
     except PEFormatError as err: pass], then the loop. *)
Definition decode_c2_list (pe : PE) (filebuf : bytes) (c2_list_rva : option Z) : M unit :=
  c2_list_offset <-
    try_except
      (rva <- lift (load_fast "c2_list_rva" c2_list_rva) ;;
       off <- lift (pe_offset pe rva) ;;
       ret (Some off))
      "PEFormatError"
      (ret None) ;;
  let fuel := match c2_list_offset with
              | Some off => loop_fuel filebuf off
              | None => 1%nat
              end in
  snippet_loop fuel filebuf c2_list_offset.

(** *** The list-discovery variants *)

(** The RVA computed by the [$snippet4] .. [$snippet7] branches. *)
Definition list_rva (c2_list_va image_base : Z) : Z :=
  if c2_list_va - image_base >? 0x20000
  then Z.land c2_list_va 0xffff
  else c2_list_va - image_base.

(** What the [$snippet3] branch leaves in [c2_list_rva]: its first arm
    assigns the masked value to [c2_list_va], so [c2_list_rva] stays
    unbound there. *)
Definition snippet3_rva (c2_list_va image_base : Z) : option Z :=
  if c2_list_va - image_base >? 0x20000
  then None
  else Some (c2_list_va - image_base).

Definition snippet3_branch (pe : PE) (filebuf : bytes) (c2list_va_offset : Z) : M unit :=
  c2_list_va <- lift (struct_unpack fmt_i
                        (py_slice filebuf (c2list_va_offset + 2) (c2list_va_offset + 6))) ;;
  decode_c2_list pe filebuf (snippet3_rva c2_list_va (ImageBase pe)).

(** The [$snippet4], [$snippet5], [$snippet6] branches differ in the
    distance [d] from the anchor to the pointer: 8, 5 and 15. *)
Definition snippet_branch (d : Z) (pe : PE) (filebuf : bytes) (c2list_va_offset : Z)
  : M unit :=
  c2_list_va <- lift (struct_unpack fmt_i
                        (py_slice filebuf (c2list_va_offset + d) (c2list_va_offset + d + 4))) ;;
  decode_c2_list pe filebuf (Some (list_rva c2_list_va (ImageBase pe))).

Definition snippet7_branch (pe : PE) (filebuf : bytes) (c2list_va_offset : Z) : M unit :=
  hb <- lift (struct_unpack fmt_b
                (py_slice filebuf (c2list_va_offset + 29) (c2list_va_offset + 30))) ;;
  let delta := if hb =? 0 then 26 else 26 + 1 in
  snippet_branch delta pe filebuf c2list_va_offset.

(** The chain of [else:] arms below the [$c2list] test. *)
Definition fallback_lists (pe : PE) (filebuf : bytes) : M unit :=
  match scan filebuf "$snippet3" with
  | Some a => snippet3_branch pe filebuf a
  | None =>
  match scan filebuf "$snippet4" with
  | Some a => snippet_branch 8 pe filebuf a
  | None =>
  match scan filebuf "$snippet5" with
  | Some a => snippet_branch 5 pe filebuf a
  | None =>
  match scan filebuf "$snippet6" with
  | Some a => snippet_branch 15 pe filebuf a
  | None =>
  match scan filebuf "$snippet7" with
  | Some a => snippet7_branch pe filebuf a
  | None => ret tt
  end end end end end.

(** *** The obfuscated key *)

(** Lines 270-272: decode the blob and report the key. *)
Definition report_der_key (rsa_key : bytes) : M unit :=
  k <- lift (der_key rsa_key) ;;
  add_metadata (other_RSA_public_key k).

(** Lines 267-272, at the translated offset. *)
Definition ref_rsa_at (filebuf : bytes) (ref_rsa_offset : Z) : M unit :=
  key <- lift (struct_unpack fmt_ltI (py_slice filebuf ref_rsa_offset (ref_rsa_offset + 4))) ;;
  v <- lift (struct_unpack fmt_ltI (py_slice filebuf (ref_rsa_offset + 4) (ref_rsa_offset + 8))) ;;
  let xorsize := Z.lxor key v in
  let blob := py_slice filebuf (ref_rsa_offset + 8) (ref_rsa_offset + 8 + xorsize) in
  packed <- lift (struct_pack_ltI key) ;;
  rsa_key <- lift (xor_data blob packed) ;;
  report_der_key rsa_key.

(** The body of [if not pem_key:]. *)
Definition obfuscated_key (pe : PE) (filebuf : bytes) : M unit :=
  match scan filebuf "$ref_rsa" with
  | Some ref_rsa_offset =>
      ref_rsa_va <- lift (struct_unpack fmt_i
                            (py_slice filebuf (ref_rsa_offset + 28) (ref_rsa_offset + 32))) ;;
      let ref_rsa_rva := ref_rsa_va - ImageBase pe in
      (* try: ref_rsa_offset = pe.get_offset_from_rva(ref_rsa_rva)  except: return *)
      match pe_offset pe ref_rsa_rva with
      | Ok ref_rsa_offset => ref_rsa_at filebuf ref_rsa_offset
      | _ => ret tt
      end
  | None => ret tt
  end.

(** *** [Emotet.run] *)

(** Everything below the [$c2list] test when that test fails. *)
Definition run_fallbacks (pe : PE) (filebuf : bytes) (pem_key : option RSAKey) : M unit :=
  fallback_lists pe filebuf ;;
  match pem_key with
  | None => obfuscated_key pe filebuf
  | Some _ => ret tt
  end.

Definition run_with (data : bytes) : M unit :=
  let filebuf := data in
  pe <- lift (match pefile_PE data with
              | Some pe => Ok pe
              | None => Raise PEFormatError
              end) ;;
  pem_key <- lift (extract_emotet_rsakey filebuf) ;;
  match pem_key with
  | Some k => add_metadata (other_RSA_public_key k)
  | None => ret tt
  end ;;
  match scan filebuf "$c2list" with
  | Some ips_offset => c2list_branch filebuf ips_offset       (* ... return *)
  | None => run_fallbacks pe filebuf pem_key
  end.

(** [run] with the [$c2list] test and its branch taken out. *)
Definition run_without_c2list (data : bytes) : M unit :=
  let filebuf := data in
  pe <- lift (match pefile_PE data with
              | Some pe => Ok pe
              | None => Raise PEFormatError
              end) ;;
  pem_key <- lift (extract_emotet_rsakey filebuf) ;;
  match pem_key with
  | Some k => add_metadata (other_RSA_public_key k)
  | None => ret tt
  end ;;
  run_fallbacks pe filebuf pem_key.

End Driver.

(** [Emotet.run] on [self.reporter.data = data], started with the reporter
    in state [r]: the locator is [yara_scan]. *)
Definition run (pefile_PE : bytes -> option PE) (DerSequence_decode : bytes -> option (list Z))
  (data : bytes) : M unit :=
  run_with pefile_PE DerSequence_decode yara_scan data.

(** The endpoints and the keys among the reported metadata. *)
Definition endpoints (r : reporter) : list string :=
  flat_map (fun m => match m with address a => [a] | _ => [] end) r.

Definition keys (r : reporter) : list RSAKey :=
  flat_map (fun m => match m with other_RSA_public_key k => [k] | _ => [] end) r.

(** ** Dispatch as the specification describes it *)

(** The list-discovery variants in the order the driver tries them. *)
Definition variants : list string :=
  ["$c2list"; "$snippet3"; "$snippet4"; "$snippet5"; "$snippet6"; "$snippet7"].

Definition is_found (o : option Z) : bool :=
  match o with
  | Some _ => true
  | None => false
  end.

(** The first variant, in that order, whose signature the locator finds. *)
Definition first_found (scan : bytes -> string -> option Z) (data : bytes) : option string :=
  find (fun id => is_found (scan data id)) variants.

(** The locator that sees, of the list-discovery signatures, only [id]
    (the key signature [$ref_rsa] is left as it is). *)
Definition only (id : string) (scan : bytes -> string -> option Z)
  : bytes -> string -> option Z :=
  fun data name =>
    if String.eqb name id || String.eqb name "$ref_rsa" then scan data name else None.

(** The branch of the driver that belongs to the list-discovery variant
    [id], entered with the offset [a] of its signature. *)
Definition variant_branch (id : string) (pe : PE) (filebuf : bytes) (a : Z) : M unit :=
  if String.eqb id "$c2list" then c2list_branch filebuf a
  else if String.eqb id "$snippet3" then snippet3_branch pe filebuf a
  else if String.eqb id "$snippet4" then snippet_branch 8 pe filebuf a
  else if String.eqb id "$snippet5" then snippet_branch 5 pe filebuf a
  else if String.eqb id "$snippet6" then snippet_branch 15 pe filebuf a
  else if String.eqb id "$snippet7" then snippet7_branch pe filebuf a
  else ret tt.

(** What the plain-key step has reported when the list discovery starts. *)
Definition plain_key_report (pem_key : option RSAKey) : reporter :=
  match pem_key with
  | Some k => [other_RSA_public_key k]
  | None => []
  end.

(** What follows the branch of variant [id]: nothing after [$c2list],
    whose branch returns; after a fall-back variant the obfuscated-key
    attempt, unless the plain key was found. *)
Definition after_lists (der : bytes -> option (list Z))
  (scan : bytes -> string -> option Z) (pe : PE) (filebuf : bytes)
  (id : string) (pem_key : option RSAKey) : M unit :=
  if String.eqb id "$c2list" then ret tt
  else match pem_key with
       | None => obfuscated_key der scan pe filebuf
       | Some _ => ret tt
       end.

(** The locator found nothing the driver asks for. *)
Definition nothing_found (scan : bytes -> string -> option Z) (data : bytes) : Prop :=
  forall name, In name (variants ++ ["$ref_rsa"]) -> scan data name = None.

(** A computation that gives an answer: a value or an exception. *)
Definition answers {A : Type} (c : M A) : Prop :=
  forall r, snd (c r) <> OutOfFuel.

(** A computation that only appends to the reporter, and what it appends
    satisfies [P]. *)
Definition appends {A : Type} (P : reporter -> Prop) (c : M A) : Prop :=
  forall r, exists added, fst (c r) = r ++ added /\ P added.

(** Nothing but endpoints. *)
Definition only_endpoints (added : reporter) : Prop := keys added = [].

(** No endpoint, and at most one key. *)
Definition at_most_one_key (added : reporter) : Prop :=
  endpoints added = [] /\ (length added <= 1)%nat.

(** ** Record lists as the specification describes them *)

(** An 8-byte record as it lies in the file: the address field, the port
    field and two bytes of padding. *)
Record c2_record : Type := {
  a0 : byte; a1 : byte; a2 : byte; a3 : byte;
  p0 : byte; p1 : byte;
  q0 : byte; q1 : byte
}.

Definition record_bytes (rc : c2_record) : bytes :=
  [a0 rc; a1 rc; a2 rc; a3 rc; p0 rc; p1 rc; q0 rc; q1 rc].

(** The address field read as a little-endian integer. *)
Definition address_value (rc : c2_record) : Z :=
  le_decode [a0 rc; a1 rc; a2 rc; a3 rc].

(** A record is well formed when its address field is not all zero. *)
Definition well_formed (rc : c2_record) : Prop := address_value rc <> 0.

(** The address in network order: most significant byte first. *)
Definition address_text (rc : c2_record) : string :=
  (str (ord (a3 rc)) ++ "." ++ str (ord (a2 rc)) ++ "."
   ++ str (ord (a1 rc)) ++ "." ++ str (ord (a0 rc)))%string.

Definition port_value (rc : c2_record) : Z := ord (p0 rc) + 256 * ord (p1 rc).

(** The port as a signed or an unsigned 16-bit number. *)
Definition port_text (signed : bool) (rc : c2_record) : string :=
  str (if signed then to_signed 16 (port_value rc) else port_value rc).

Definition endpoint_text (signed : bool) (rc : c2_record) : string :=
  (address_text rc ++ ":" ++ port_text signed rc)%string.

Definition endpoint (signed : bool) (rc : c2_record) : metadata :=
  address (endpoint_text signed rc).

Definition zero_address : bytes := [x00; x00; x00; x00].

(** What may follow the last record of a list: the buffer ends (fewer than
    four bytes are left), or an all-zero address field. *)
Definition list_end (tail : bytes) : Prop :=
  (length tail < 4)%nat \/ exists post, tail = zero_address ++ post.

(** ** Reference collaborators and sample buffers

    The driver is parametric in the PE reader and in the DER decoder.  For
    running it on concrete buffers this section fixes a reader for an image
    without sections and a decoder for sequences of integers. *)

Module Reference.

(** A PE object with image base [base] and no section covering any RVA:
    [get_offset_from_rva] then returns an RVA below the length of the
    data unchanged and raises PEFormatError for any other. *)
Definition flat_image (base : Z) (data : bytes) : option PE :=
  Some {| ImageBase := base;
          get_offset_from_rva := fun rva => if rva <? len data then Some rva else None |}.

(** A reader that, like [pefile.PE], rejects a buffer shorter than the
    64-byte DOS header or without the MZ magic, and reads any other buffer
    as [flat_image] does. *)
Definition dos_image (base : Z) (data : bytes) : option PE :=
  if (64 <=? len data) && mz_header data then flat_image base data else None.

Fixpoint be_decode (acc : Z) (s : bytes) : Z :=
  match s with
  | [] => acc
  | b :: t => be_decode (256 * acc + ord b) t
  end.

(** DER length octets: short form, or long form with its length bytes. *)
Definition der_length (s : bytes) : option (nat * bytes) :=
  match s with
  | [] => None
  | b :: rest =>
      if ord b <? 128 then Some (Z.to_nat (ord b), rest)
      else
        let n := Z.to_nat (ord b - 128) in
        if Nat.eqb n 0 || Nat.ltb (length rest) n then None
        else Some (Z.to_nat (be_decode 0 (firstn n rest)), skipn n rest)
  end.

(** One tag-length-value item with the given tag: its value and what
    follows it. *)
Definition der_item (tag : byte) (s : bytes) : option (bytes * bytes) :=
  match s with
  | [] => None
  | t :: rest =>
      if Byte.eqb t tag then
        match der_length rest with
        | Some (n, body) =>
            if Nat.ltb (length body) n then None
            else Some (firstn n body, skipn n body)
        | None => None
        end
      else None
  end.

Fixpoint der_integers (fuel : nat) (s : bytes) : option (list Z) :=
  match fuel with
  | O => match s with [] => Some [] | _ => None end
  | S fuel' =>
      match s with
      | [] => Some []
      | _ =>
          match der_item x02 s with
          | Some (v, rest) =>
              match v with
              | [] => None
              | _ => option_map (cons (be_decode 0 v)) (der_integers fuel' rest)
              end
          | None => None
          end
      end
  end.

(** A DER SEQUENCE (tag 0x30) of non-negative INTEGERs. *)
Definition der_sequence (s : bytes) : option (list Z) :=
  match der_item x30 s with
  | Some (body, _) => der_integers (length body) body
  | None => None
  end.

(** The rule extended with a [$c2list] string that matches at [off]: the
    locator a buffer would meet if the rule defined that string. *)
Definition scan_with_c2list (off : Z) (raw_data : bytes) (rule_name : string) : option Z :=
  if String.eqb rule_name "$c2list" then Some off else yara_scan raw_data rule_name.

End Reference.

Module Samples.

(** A [$snippet4] match at 0 whose pointer (bytes 8..11) is 0x400050;
    at offset 80 two records, 1.2.3.4 port 0x1f90 and 10.0.0.1 port
    0xc350 in file byte order, then a zero address. *)
Definition sample_snippet4 : bytes :=
  [x33; xc0; xc7; x05; x00; x00; x00; x00; x50; x00; x40; x00; xc7; x05; x00; x00;
   x00; x00; x00; x00; x00; x00; xa3; x00; x00; x00; x00; xa3; x00; x00; x00; x00;
   x00; x00; x00; x00; x00; x00; x00; x00; x00; x00; x00; x00; x00; x00; x00; x00;
   x40; xa3; x00; x00; x00; x00; x83; x3c; xc5; x00; x00; x00; x00; x00; x75; xf0;
   x51; xe8; x00; x00; x00; x00; x83; xc4; x04; xc3; x90; x90; x90; x90; x90; x90;
   x01; x02; x03; x04; x90; x1f; x00; x00; x0a; x00; x00; x01; x50; xc3; x00; x00;
   x00; x00; x00; x00].

(** A [$ref_rsa] match at 0 whose pointer (bytes 28..31) is 0x400028;
    at offset 40 the key 0x1234 and the size field 0x1234, so that
    xorsize is 0. *)
Definition sample_ref_rsa_empty : bytes :=
  [x6a; x00; x6a; x01; xff; x76; x00; x8b; x46; x00; xff; xd0; x85; xc0; x74; x00;
   x8d; x4d; x00; xe8; x00; x00; x00; x00; x8d; x45; x00; xb9; x28; x00; x40; x00;
   x8d; x55; x00; x89; x45; x00; xe8; x90; x34; x12; x00; x00; x34; x12; x00; x00].

(** As above, with the size field 0x1234 xor 11 and the 11 bytes of
    [sample_der] masked with 34 12 00 00. *)
Definition sample_ref_rsa_key : bytes :=
  [x6a; x00; x6a; x01; xff; x76; x00; x8b; x46; x00; xff; xd0; x85; xc0; x74; x00;
   x8d; x4d; x00; xe8; x00; x00; x00; x00; x8d; x45; x00; xb9; x28; x00; x40; x00;
   x8d; x55; x00; x89; x45; x00; xe8; x90; x34; x12; x00; x00; x3f; x12; x00; x00;
   x04; x1b; x02; x02; x38; xb3; x02; x03; x35; x12; x01].

(** DER of SEQUENCE { INTEGER 3233, INTEGER 65537 }. *)
Definition sample_der : bytes :=
  [x30; x09; x02; x02; x0c; xa1; x02; x03; x01; x00; x01].

(** [sample_der] masked with the key bytes 34 12 00 00. *)
Definition sample_masked : bytes :=
  [x04; x1b; x02; x02; x38; xb3; x02; x03; x35; x12; x01].

(** A [$snippet3] match at 0 whose pointer (bytes 2..5) is 0x430050,
    more than 0x20000 above the image base 0x400000; the records of
    [sample_snippet4] sit at offset 0x50. *)
Definition sample_snippet3_far : bytes :=
  [x83; x3d; x50; x00; x43; x00; x00; xc7; x05; x00; x00; x00; x00; x00; x00; x00;
   x00; xc7; x05; x00; x00; x00; x00; x00; x00; x00; x00; x74; x0a; x51; xe8; x00;
   x00; x00; x00; x83; xc4; x04; xc3; x33; xc0; xc3; x90; x90; x90; x90; x90; x90;
   x90; x90; x90; x90; x90; x90; x90; x90; x90; x90; x90; x90; x90; x90; x90; x90;
   x90; x90; x90; x90; x90; x90; x90; x90; x90; x90; x90; x90; x90; x90; x90; x90;
   x01; x02; x03; x04; x90; x1f; x00; x00; x0a; x00; x00; x01; x50; xc3; x00; x00;
   x00; x00; x00; x00].

(** A [$snippet3] match at 0 whose pointer is 0x401000 (RVA 0x1000,
    beyond the 140 bytes of the buffer), then a [$snippet4] match at
    42 whose pointer is 0x400078, and the records of [sample_snippet4]
    at offset 120. *)
Definition sample_snippet3_unmapped : bytes :=
  [x83; x3d; x00; x10; x40; x00; x00; xc7; x05; x00; x00; x00; x00; x00; x00; x00;
   x00; xc7; x05; x00; x00; x00; x00; x00; x00; x00; x00; x74; x0a; x51; xe8; x00;
   x00; x00; x00; x83; xc4; x04; xc3; x33; xc0; xc3; x33; xc0; xc7; x05; x00; x00;
   x00; x00; x78; x00; x40; x00; xc7; x05; x00; x00; x00; x00; x00; x00; x00; x00;
   xa3; x00; x00; x00; x00; xa3; x00; x00; x00; x00; x00; x00; x00; x00; x00; x00;
   x00; x00; x00; x00; x00; x00; x00; x00; x00; x00; x40; xa3; x00; x00; x00; x00;
   x83; x3c; xc5; x00; x00; x00; x00; x00; x75; xf0; x51; xe8; x00; x00; x00; x00;
   x83; xc4; x04; xc3; x90; x90; x90; x90; x01; x02; x03; x04; x90; x1f; x00; x00;
   x0a; x00; x00; x01; x50; xc3; x00; x00; x00; x00; x00; x00].

(** A [$ref_rsa] match at 0 whose pointer is 0x401000 (RVA 0x1000,
    beyond the buffer). *)
Definition sample_ref_rsa_unmapped : bytes :=
  [x6a; x00; x6a; x01; xff; x76; x00; x8b; x46; x00; xff; xd0; x85; xc0; x74; x00;
   x8d; x4d; x00; xe8; x00; x00; x00; x00; x8d; x45; x00; xb9; x00; x10; x40; x00;
   x8d; x55; x00; x89; x45; x00; xe8].

(** A [$ref_rsa] match with key 0x1234 and xorsize 100, followed by 3
    bytes only. *)
Definition sample_ref_rsa_short : bytes :=
  [x6a; x00; x6a; x01; xff; x76; x00; x8b; x46; x00; xff; xd0; x85; xc0; x74; x00;
   x8d; x4d; x00; xe8; x00; x00; x00; x00; x8d; x45; x00; xb9; x28; x00; x40; x00;
   x8d; x55; x00; x89; x45; x00; xe8; x90; x34; x12; x00; x00; x50; x12; x00; x00;
   x04; x1b; x02].

(** The key pattern of [extract_emotet_rsakey] at offset 0: a DER
    SEQUENCE of 104 bytes holding a 97-byte INTEGER and the INTEGER 65537,
    followed by two zero bytes; then the bytes of [sample_ref_rsa_key],
    with their [$ref_rsa] match at offset 108. *)
Definition sample_plain_key : bytes :=
  [x30; x68; x02; x61; x00] ++ repeat xab 96
  ++ [x02; x03; x01; x00; x01; x00; x00] ++ sample_ref_rsa_key.

(** The integer of 96 bytes 0xab. *)
Definition sample_modulus : Z := (2 ^ 768 - 1) / 255 * 171.

(** The key pattern around an empty SEQUENCE, which has no item 0. *)
Definition sample_plain_key_empty : bytes :=
  [x30] ++ repeat x00 100 ++ [x02; x03; x01; x00; x01; x00; x00].

(** The bytes of [sample_snippet4], then a [$ref_rsa] match at offset 100
    whose pointer is 0x40008c, and at offset 140 the obfuscated key of
    [sample_ref_rsa_key]. *)
Definition sample_list_and_key : bytes :=
  sample_snippet4 ++ firstn 28 sample_ref_rsa_key ++ [x8c; x00; x40; x00]
  ++ skipn 32 sample_ref_rsa_key.

(** [sample_list_and_key] with the [$snippet4] pointer changed to
    0x401000, an RVA beyond the buffer. *)
Definition sample_unmapped_list_and_key : bytes :=
  firstn 8 sample_snippet4 ++ [x00; x10; x40; x00] ++ skipn 12 sample_list_and_key.

(** [sample_ref_rsa_key] with the size field 0x1234 xor 100: the 11
    bytes of the masked key are all that follows the two fields. *)
Definition sample_ref_rsa_long : bytes :=
  firstn 44 sample_ref_rsa_key ++ [x50; x12; x00; x00] ++ skipn 48 sample_ref_rsa_key.

(** [sample_snippet3_unmapped] with the [$snippet3] pointer changed to
    0x40008c and, at offset 140, a list of its own: 5.6.7.8 port 443 in
    file byte order, then a zero address.  The [$snippet4] match at 42 and
    its list at offset 120 are as before. *)
Definition sample_two_variants : bytes :=
  firstn 2 sample_snippet3_unmapped ++ [x8c; x00; x40; x00]
  ++ skipn 6 sample_snippet3_unmapped
  ++ [x05; x06; x07; x08; xbb; x01; x00; x00; x00; x00; x00; x00].

(** The MZ magic and 62 zero bytes: a buffer of the size of a DOS header
    that holds none of the patterns. *)
Definition sample_dos_header : bytes := [x4d; x5a] ++ repeat x00 62.

(** The image base used with the samples. *)
Definition base : Z := 0x400000.

(** The two records of [sample_snippet4]. *)
Definition record1 : c2_record :=
  {| a0 := x01; a1 := x02; a2 := x03; a3 := x04;
     p0 := x90; p1 := x1f; q0 := x00; q1 := x00 |}.

Definition record2 : c2_record :=
  {| a0 := x0a; a1 := x00; a2 := x00; a3 := x01;
     p0 := x50; p1 := xc3; q0 := x00; q1 := x00 |}.

(** The PE object the reference reader makes of a buffer of [n] bytes. *)
Definition image (n : Z) : PE :=
  {| ImageBase := base;
     get_offset_from_rva := fun rva => if rva <? n then Some rva else None |}.

End Samples.

(** * Properties *)

(** ** Bytes and integers *)

Lemma ord_range (b : byte) : 0 <= ord b < 256.
Proof.
  unfold ord. pose proof (Byte.to_N_bounded b). lia.
Qed.

Lemma byte_of_Z_ord (b : byte) : byte_of_Z (ord b) = b.
Proof.
  unfold byte_of_Z. pose proof (ord_range b) as H.
  rewrite Z.mod_small by exact H.
  unfold ord. rewrite N2Z.id, Byte.of_to_N. reflexivity.
Qed.

Lemma ord_byte_of_Z (z : Z) : ord (byte_of_Z z) = z mod 256.
Proof.
  unfold byte_of_Z.
  pose proof (Z.mod_pos_bound z 256 ltac:(lia)) as H.
  destruct (Byte.of_N (Z.to_N (z mod 256))) as [b|] eqn:E.
  - apply Byte.to_of_N in E. unfold ord. rewrite E. lia.
  - apply Byte.of_N_None_iff in E. lia.
Qed.

Lemma le_decode_nonneg (s : bytes) : 0 <= le_decode s.
Proof.
  induction s as [|b t IH]; cbn [le_decode]; [lia|].
  pose proof (ord_range b). lia.
Qed.

Lemma le_decode_bound (s : bytes) : le_decode s < 256 ^ Z.of_nat (length s).
Proof.
  induction s as [|b t IH].
  - simpl. lia.
  - cbn [le_decode length]. rewrite Nat2Z.inj_succ, Z.pow_succ_r by lia.
    pose proof (ord_range b). pose proof (le_decode_nonneg t). lia.
Qed.

Lemma le_decode_uint32 (s : bytes) :
  length s = 4%nat -> in_uint32 (le_decode s) = true.
Proof.
  intros H. unfold in_uint32.
  pose proof (le_decode_nonneg s). pose proof (le_decode_bound s) as Hb.
  rewrite H in Hb. change (256 ^ Z.of_nat 4) with (2 ^ 32) in Hb.
  apply andb_true_intro. split; [apply Z.leb_le | apply Z.ltb_lt]; lia.
Qed.

Lemma struct_unpack_Ok (f : struct_fmt) (s : bytes) (v : Z) :
  struct_unpack f s = Ok v -> length s = calcsize f.
Proof.
  unfold struct_unpack. destruct (Nat.eqb (length s) (calcsize f)) eqn:E.
  - intros _. now apply Nat.eqb_eq.
  - discriminate.
Qed.

Lemma struct_unpack_unsigned (f : struct_fmt) (s : bytes) :
  fmt_signed f = false -> length s = calcsize f ->
  struct_unpack f s = Ok (le_decode s).
Proof.
  intros Hs Hl. unfold struct_unpack. rewrite Hl, Nat.eqb_refl, Hs. reflexivity.
Qed.

Lemma struct_unpack_short (f : struct_fmt) (s : bytes) :
  length s <> calcsize f -> struct_unpack f s = Raise struct_error.
Proof.
  intros H. unfold struct_unpack.
  destruct (Nat.eqb (length s) (calcsize f)) eqn:E; [|reflexivity].
  apply Nat.eqb_eq in E. contradiction.
Qed.

Lemma byte_of_Z_eq (z : Z) (b : byte) : z mod 256 = ord b -> byte_of_Z z = b.
Proof.
  intros H. unfold byte_of_Z. rewrite H. unfold ord.
  rewrite N2Z.id, Byte.of_to_N. reflexivity.
Qed.

(** Packing the value of four bytes in network order reverses them. *)
Lemma struct_pack_netL_le_decode (a b c d : byte) :
  struct_pack_netL (le_decode [a; b; c; d]) = Ok [d; c; b; a].
Proof.
  unfold struct_pack_netL. rewrite le_decode_uint32 by reflexivity.
  cbn [le_decode].
  pose proof (ord_range a). pose proof (ord_range b).
  pose proof (ord_range c). pose proof (ord_range d).
  rewrite !Z.shiftr_div_pow2 by lia.
  change (2 ^ 24) with 16777216. change (2 ^ 16) with 65536. change (2 ^ 8) with 256.
  repeat f_equal; apply byte_of_Z_eq;
    Z.to_euclidean_division_equations; lia.
Qed.

Lemma struct_pack_ltI_le_decode (a b c d : byte) :
  struct_pack_ltI (le_decode [a; b; c; d]) = Ok [a; b; c; d].
Proof.
  unfold struct_pack_ltI. rewrite le_decode_uint32 by reflexivity.
  cbn [le_decode].
  pose proof (ord_range a). pose proof (ord_range b).
  pose proof (ord_range c). pose proof (ord_range d).
  rewrite !Z.shiftr_div_pow2 by lia.
  change (2 ^ 24) with 16777216. change (2 ^ 16) with 65536. change (2 ^ 8) with 256.
  repeat f_equal; apply byte_of_Z_eq;
    Z.to_euclidean_division_equations; lia.
Qed.

(** Unpacking what ['<I'] packed gives the value back. *)
Lemma struct_pack_ltI_inv (v : Z) (s : bytes) :
  struct_pack_ltI v = Ok s ->
  length s = 4%nat /\ le_decode s = v /\ 0 <= v < 2 ^ 32.
Proof.
  unfold struct_pack_ltI, in_uint32.
  destruct ((0 <=? v) && (v <? 2 ^ 32)) eqn:E; [|discriminate].
  apply andb_prop in E. destruct E as [E1 E2].
  apply Z.leb_le in E1. apply Z.ltb_lt in E2.
  intros H. injection H as <-. split; [reflexivity|]. split; [|lia].
  cbn [le_decode]. rewrite !ord_byte_of_Z.
  rewrite !Z.shiftr_div_pow2 by lia.
  change (2 ^ 32) with 4294967296 in E2.
  change (2 ^ 24) with 16777216. change (2 ^ 16) with 65536. change (2 ^ 8) with 256.
  Z.to_euclidean_division_equations; lia.
Qed.

(** ** Slices *)

Lemma len_app {A : Type} (s t : list A) : len (s ++ t) = len s + len t.
Proof. unfold len. rewrite length_app. lia. Qed.

Lemma len_nonneg {A : Type} (s : list A) : 0 <= len s.
Proof. unfold len. lia. Qed.

(** A slice with both indices inside the sequence. *)
Lemma py_slice_inside {A : Type} (s : list A) (a b : Z) :
  0 <= a -> a <= b -> b <= len s ->
  py_slice s a b = firstn (Z.to_nat (b - a)) (skipn (Z.to_nat a) s).
Proof.
  intros Ha Hab Hb. unfold py_slice, slice_index.
  destruct (a <? 0) eqn:Ea; [apply Z.ltb_lt in Ea; lia|].
  destruct (b <? 0) eqn:Eb; [apply Z.ltb_lt in Eb; lia|].
  rewrite !Z.min_l by lia. reflexivity.
Qed.

(** The slice that covers exactly the middle part of a concatenation. *)
Lemma py_slice_app {A : Type} (pre mid post : list A) (a b : Z) :
  a = len pre -> b = a + len mid ->
  py_slice (pre ++ mid ++ post) a b = mid.
Proof.
  intros -> ->.
  rewrite py_slice_inside.
  - replace (len pre + len mid - len pre) with (len mid) by lia.
    unfold len. rewrite !Nat2Z.id.
    rewrite skipn_app, skipn_all, Nat.sub_diag. cbn [skipn app].
    rewrite firstn_app, firstn_all, Nat.sub_diag, firstn_0. apply app_nil_r.
  - apply len_nonneg.
  - pose proof (len_nonneg mid). lia.
  - rewrite !len_app. pose proof (len_nonneg post). lia.
Qed.

(** A slice that starts at or after the end is empty. *)
Lemma py_slice_past_end {A : Type} (s : list A) (a b : Z) :
  len s <= a -> py_slice s a b = [].
Proof.
  intros Ha. pose proof (len_nonneg s) as Hn.
  unfold py_slice, slice_index.
  destruct (a <? 0) eqn:Ea; [apply Z.ltb_lt in Ea; lia|].
  rewrite (Z.min_r a) by lia.
  unfold len. rewrite Nat2Z.id, skipn_all. apply firstn_nil.
Qed.

(** A slice whose upper index is beyond the end is cut at the end. *)
Lemma py_slice_truncated {A : Type} (s : list A) (a b : Z) :
  0 <= a -> len s <= b -> py_slice s a b = skipn (Z.to_nat a) s.
Proof.
  intros Ha Hb. pose proof (len_nonneg s) as Hn.
  unfold py_slice, slice_index.
  destruct (a <? 0) eqn:Ea; [apply Z.ltb_lt in Ea; lia|].
  destruct (b <? 0) eqn:Eb; [apply Z.ltb_lt in Eb; lia|].
  rewrite (Z.min_r b) by lia.
  destruct (Z.le_gt_cases a (len s)) as [Hle|Hgt].
  - rewrite Z.min_l by lia. apply firstn_all2.
    rewrite length_skipn. unfold len in *. lia.
  - rewrite Z.min_r by lia. rewrite Z.sub_diag. cbn [Z.to_nat firstn].
    symmetry. apply skipn_all2. unfold len in *. lia.
Qed.

Lemma py_slice_length {A : Type} (s : list A) (a b : Z) :
  (length (py_slice s a b) <= length s)%nat.
Proof.
  unfold py_slice. rewrite length_firstn, length_skipn. lia.
Qed.

(** ** Strings *)

Lemma str_neg (p : positive) : str (Z.neg p) = ("-" ++ str (Z.pos p))%string.
Proof. reflexivity. Qed.

Lemma truthy_str (z : Z) : truthy (str z) = true.
Proof.
  unfold str. destruct (Z.to_int z) as [u|u]; [|reflexivity].
  destruct u; reflexivity.
Qed.

Lemma truthy_append (s t : string) : truthy s = true -> truthy (s ++ t)%string = true.
Proof. destruct s; [discriminate | reflexivity]. Qed.

Lemma inet_ntoa_truthy (packed : bytes) (s : string) :
  inet_ntoa packed = Ok s -> truthy s = true.
Proof.
  destruct packed as [|a [|b [|c [|d [|? ?]]]]]; try discriminate.
  cbn [inet_ntoa]. intros H. injection H as <-.
  apply truthy_append, truthy_str.
Qed.

(** ** [xor_data] *)

Lemma lxor_byte_range (x y : Z) :
  0 <= x < 256 -> 0 <= y < 256 -> 0 <= Z.lxor x y < 256.
Proof.
  intros Hx Hy.
  assert (H0 : 0 <= Z.lxor x y) by (apply Z.lxor_nonneg; lia).
  split; [exact H0|].
  destruct (Z.eq_dec (Z.lxor x y) 0) as [->|Hne]; [lia|].
  change 256 with (2 ^ 8). apply Z.log2_lt_pow2; [lia|].
  pose proof (Z.log2_lxor x y ltac:(lia) ltac:(lia)) as Hl.
  assert (Hlx : Z.log2 x < 8).
  { destruct (Z.eq_dec x 0) as [->|]; [cbn; lia|].
    apply Z.log2_lt_pow2; [lia|]. change (2 ^ 8) with 256. lia. }
  assert (Hly : Z.log2 y < 8).
  { destruct (Z.eq_dec y 0) as [->|]; [cbn; lia|].
    apply Z.log2_lt_pow2; [lia|]. change (2 ^ 8) with 256. lia. }
  lia.
Qed.

Lemma chr_lxor (d k : byte) :
  chr (Z.lxor (ord d) (ord k)) = Ok (byte_of_Z (Z.lxor (ord d) (ord k))).
Proof.
  unfold chr.
  pose proof (lxor_byte_range _ _ (ord_range d) (ord_range k)) as [H1 H2].
  apply Z.leb_le in H1. apply Z.ltb_lt in H2. rewrite H1, H2. reflexivity.
Qed.

(** With a four-byte key [xor_data] never raises and computes the mask of
    the specification. *)
Lemma xor_data_from_spec (key : bytes) :
  length key = 4%nat ->
  forall (data : bytes) (i : nat),
    xor_data_from i data key = Ok (xor_mask_from i data key).
Proof.
  intros Hk. induction data as [|d rest IH]; intros i; [reflexivity|].
  cbn [xor_data_from xor_mask_from]. rewrite Hk.
  assert (Hi : (i mod 4 < length key)%nat)
    by (rewrite Hk; apply Nat.mod_upper_bound; discriminate).
  unfold getitem.
  destruct (nth_error key (i mod 4)) as [k|] eqn:E.
  - rewrite (nth_error_nth _ _ x00 E).
    cbn [obind]. rewrite chr_lxor. cbn [obind]. rewrite IH. reflexivity.
  - apply nth_error_None in E. lia.
Qed.

Lemma xor_data_spec (data key : bytes) :
  length key = 4%nat -> xor_data data key = Ok (xor_mask data key).
Proof. intros H. apply xor_data_from_spec. exact H. Qed.

Lemma xor_mask_from_length (data key : bytes) (i : nat) :
  length (xor_mask_from i data key) = length data.
Proof.
  revert i. induction data as [|d rest IH]; intros i; cbn; [reflexivity|].
  now rewrite IH.
Qed.

(** Masking twice with the same key gives the data back. *)
Lemma xor_mask_from_involutive (data key : bytes) (i : nat) :
  xor_mask_from i (xor_mask_from i data key) key = data.
Proof.
  revert i. induction data as [|d rest IH]; intros i; [reflexivity|].
  cbn [xor_mask_from]. rewrite IH. f_equal.
  set (k := nth (i mod 4) key x00).
  rewrite ord_byte_of_Z.
  rewrite Z.mod_small by (apply lxor_byte_range; apply ord_range).
  rewrite Z.lxor_assoc, Z.lxor_nilpotent, Z.lxor_0_r.
  apply byte_of_Z_ord.
Qed.

(** ** The record loops *)

Ltac mstep := unfold bind, lift, ret, add_metadata; cbn [obind].

Lemma record_fields (pre tail : bytes) (rc : c2_record) :
  let buf := pre ++ record_bytes rc ++ tail in
  py_slice buf (len pre) (len pre + 4) = [a0 rc; a1 rc; a2 rc; a3 rc]
  /\ py_slice buf (len pre + 4) (len pre + 6) = [p0 rc; p1 rc].
Proof.
  intros buf. split.
  - apply (py_slice_app pre [a0 rc; a1 rc; a2 rc; a3 rc]
             ([p0 rc; p1 rc; q0 rc; q1 rc] ++ tail)); reflexivity.
  - unfold buf.
    replace (pre ++ record_bytes rc ++ tail)
      with ((pre ++ [a0 rc; a1 rc; a2 rc; a3 rc]) ++ [p0 rc; p1 rc] ++ [q0 rc; q1 rc] ++ tail)
      by (rewrite <- app_assoc; reflexivity).
    apply py_slice_app.
    + rewrite len_app. reflexivity.
    + unfold len. cbn [length]. lia.
Qed.

(** Rendering a record that lies at [len pre]. *)
Lemma render_record_at (pre tail : bytes) (rc : c2_record) (f : struct_fmt) :
  calcsize f = 2%nat ->
  render_record (pre ++ record_bytes rc ++ tail) (len pre) (address_value rc) f
  = Ok (address_text rc, port_text (fmt_signed f) rc).
Proof.
  intros Hf. unfold render_record, address_value.
  rewrite struct_pack_netL_le_decode. cbn [obind inet_ntoa].
  destruct (record_fields pre tail rc) as [_ Hp]. rewrite Hp.
  unfold struct_unpack. rewrite Hf. cbn [length Nat.eqb obind].
  unfold port_text, port_value, address_text. cbn [le_decode].
  destruct (fmt_signed f); repeat f_equal; lia.
Qed.

Lemma endpoint_truthy (signed : bool) (rc : c2_record) :
  truthy (address_text rc) && truthy (port_text signed rc) = true.
Proof.
  apply andb_true_intro. split.
  - unfold address_text. apply truthy_append, truthy_str.
  - apply truthy_str.
Qed.

Lemma list_end_read (pre tail : bytes) :
  list_end tail ->
  struct_unpack fmt_ltI (py_slice (pre ++ tail) (len pre) (len pre + 4)) = Ok 0
  \/ struct_unpack fmt_ltI (py_slice (pre ++ tail) (len pre) (len pre + 4))
     = Raise struct_error.
Proof.
  intros [Hshort | [post ->]].
  - right. apply struct_unpack_short.
    rewrite py_slice_truncated.
    + unfold len. rewrite Nat2Z.id, skipn_app, skipn_all, Nat.sub_diag.
      cbn [skipn app calcsize]. lia.
    + apply len_nonneg.
    + rewrite len_app. unfold len. lia.
  - left. rewrite (py_slice_app pre zero_address post); reflexivity.
Qed.

Lemma snippet_loop_records (records : list c2_record) :
  Forall well_formed records ->
  forall (pre tail : bytes) (r : reporter) (fuel : nat),
    list_end tail ->
    (length records < fuel)%nat ->
    snippet_loop fuel (pre ++ flat_map record_bytes records ++ tail) (Some (len pre)) r
    = (r ++ map (endpoint false) records, Ok tt).
Proof.
  induction 1 as [|rc rest Hwf _ IH]; intros pre tail r fuel Hend Hfuel.
  - destruct fuel as [|fuel]; [cbn in Hfuel; lia|].
    cbn [flat_map app map snippet_loop load_fast obind].
    rewrite app_nil_r.
    destruct (list_end_read pre tail Hend) as [-> | ->]; reflexivity.
  - destruct fuel as [|fuel]; [cbn in Hfuel; lia|].
    cbn [flat_map map snippet_loop load_fast obind].
    rewrite <- app_assoc.
    destruct (record_fields pre (flat_map record_bytes rest ++ tail) rc) as [Ha _].
    rewrite Ha.
    rewrite struct_unpack_unsigned by reflexivity. cbn [obind].
    fold (address_value rc).
    destruct (address_value rc =? 0) eqn:E; [apply Z.eqb_eq in E; contradiction|].
    mstep. rewrite render_record_at by reflexivity.
    cbn [fmt_signed]. rewrite endpoint_truthy.
    replace (len pre + 8) with (len (pre ++ record_bytes rc))
      by (rewrite len_app; reflexivity).
    rewrite (app_assoc pre (record_bytes rc)).
    rewrite IH by (auto; cbn in Hfuel; lia).
    rewrite <- app_assoc. reflexivity.
Qed.

(** The first read of the [$c2list] branch followed by its loop: the loop
    reports every record and stops normally at a zero address; where the
    buffer ends instead, the unguarded read raises struct.error. *)
Lemma c2list_loop_records (records : list c2_record) :
  Forall well_formed records ->
  forall (pre tail : bytes) (r : reporter) (fuel : nat),
    list_end tail ->
    (length records < fuel)%nat ->
    let buf := pre ++ flat_map record_bytes records ++ tail in
    (ip <- lift (struct_unpack fmt_I (py_slice buf (len pre) (len pre + 4))) ;;
     c2list_loop fuel buf (len pre) ip) r
    = (r ++ map (endpoint true) records,
       if Nat.ltb (length tail) 4 then Raise struct_error else Ok tt).
Proof.
  induction 1 as [|rc rest Hwf _ IH]; intros pre tail r fuel Hend Hfuel buf; subst buf.
  - destruct fuel as [|fuel]; [cbn in Hfuel; lia|].
    cbn [flat_map app map]. rewrite app_nil_r.
    destruct Hend as [Hshort | [post ->]].
    + apply Nat.ltb_lt in Hshort. rewrite Hshort. mstep.
      rewrite struct_unpack_short; [reflexivity|].
      apply Nat.ltb_lt in Hshort.
      rewrite py_slice_truncated.
      * unfold len. rewrite Nat2Z.id, skipn_app, skipn_all, Nat.sub_diag.
        cbn [skipn app calcsize]. lia.
      * apply len_nonneg.
      * rewrite len_app. unfold len. lia.
    + mstep. rewrite (py_slice_app pre zero_address post) by reflexivity.
      reflexivity.
  - destruct fuel as [|fuel]; [cbn in Hfuel; lia|].
    cbn [flat_map map]. rewrite <- app_assoc.
    destruct (record_fields pre (flat_map record_bytes rest ++ tail) rc) as [Ha _].
    unfold bind at 1. unfold lift at 1. rewrite Ha.
    rewrite struct_unpack_unsigned by reflexivity.
    fold (address_value rc). cbn [c2list_loop].
    destruct (address_value rc =? 0) eqn:E; [apply Z.eqb_eq in E; contradiction|].
    unfold bind at 1. unfold lift at 1.
    rewrite render_record_at by reflexivity.
    cbn [fmt_signed]. rewrite endpoint_truthy.
    unfold bind at 1. unfold add_metadata at 1.
    replace (len pre + 8) with (len (pre ++ record_bytes rc))
      by (rewrite len_app; reflexivity).
    rewrite (app_assoc pre (record_bytes rc)).
    rewrite (IH (pre ++ record_bytes rc) tail _ fuel Hend) by (cbn in Hfuel; lia).
    rewrite <- app_assoc. reflexivity.
Qed.

(** ** The YARA rule and [yara_scan] *)

Lemma match_here_min_length (p : hex_string) :
  forall s : bytes, match_here p s = true -> (min_length p <= length s)%nat.
Proof.
  induction p as [|t p IH]; intros s H; cbn [min_length]; [lia|].
  destruct t as [b | | lo hi]; cbn [match_here] in H.
  - destruct s as [|c s]; [discriminate|].
    apply andb_prop in H. destruct H as [_ H]. apply IH in H. cbn [length]. lia.
  - destruct s as [|c s]; [discriminate|].
    apply IH in H. cbn [length]. lia.
  - apply existsb_exists in H. destruct H as [k [Hin Hk]].
    apply in_seq in Hin. apply andb_prop in Hk. destruct Hk as [Hle Hm].
    apply Nat.leb_le in Hle. apply IH in Hm. rewrite length_skipn in Hm. lia.
Qed.

Lemma match_offsets_min_length (p : hex_string) (s : bytes) :
  forall (i off : Z), In off (match_offsets p s i) -> (min_length p <= length s)%nat.
Proof.
  induction s as [|c s IH]; intros i off H; [contradiction|].
  cbn [match_offsets] in H. apply in_app_or in H. destruct H as [H|H].
  - destruct (match_here p (c :: s)) eqn:E; [|contradiction].
    now apply match_here_min_length.
  - apply IH in H. cbn [length]. lia.
Qed.

(** What [yara_scan] returns is a match offset of the string of the rule
    that carries the requested identifier. *)
Lemma yara_scan_found (data : bytes) (name : string) (off : Z) :
  yara_scan data name = Some off ->
  exists p, In (name, p) rule_strings /\ In off (match_offsets p data 0).
Proof.
  unfold yara_scan, yara_match.
  destruct (rule_condition data); [|discriminate].
  destruct (find (fun item => String.eqb (snd item) name) (match_strings data))
    as [item|] eqn:E; [|discriminate].
  intros H. injection H as <-.
  apply find_some in E. destruct E as [Hin Hname].
  apply String.eqb_eq in Hname.
  unfold match_strings in Hin. apply in_flat_map in Hin.
  destruct Hin as [[id p] [Hrule Hitem]].
  apply in_map_iff in Hitem. destruct Hitem as [o [<- Ho]].
  cbn [snd] in Hname. subst id. exists p. split; assumption.
Qed.

(** The identifiers the rule defines. *)
Lemma rule_identifiers (name : string) (p : hex_string) :
  In (name, p) rule_strings ->
  In name ["$snippet1"; "$snippet2"; "$snippet3"; "$snippet4"; "$snippet5";
           "$snippet6"; "$snippet7"; "$ref_rsa"].
Proof.
  intros H. apply (in_map fst) in H. exact H.
Qed.

(** No string of the rule matches a buffer shorter than 15 bytes, and none
    of those the parser asks for matches one shorter than 39 bytes. *)
Lemma yara_scan_short (data : bytes) (name : string) :
  (length data < 39)%nat ->
  name <> "$snippet1" -> name <> "$snippet2" ->
  yara_scan data name = None.
Proof.
  intros Hlen H1 H2.
  destruct (yara_scan data name) as [off|] eqn:E; [|reflexivity].
  exfalso. apply yara_scan_found in E. destruct E as [p [Hin Hoff]].
  apply match_offsets_min_length in Hoff.
  cbn [rule_strings In] in Hin.
  repeat destruct Hin as [Hin|Hin];
    try (injection Hin as <- <-); try contradiction;
    match type of Hoff with
    | (min_length ?p <= _)%nat =>
        let n := eval vm_compute in (min_length p) in
        change (min_length p) with n in Hoff
    end; lia.
Qed.

Lemma pub_first_match_short (data : bytes) :
  (length data < 108)%nat -> pub_first_match data = None.
Proof.
  induction data as [|c data IH]; intros Hlen; [reflexivity|].
  cbn [pub_first_match].
  destruct (match_here pub_pattern (c :: data)) eqn:E.
  - apply match_here_min_length in E.
    change (min_length pub_pattern) with 108%nat in E. lia.
  - apply IH. cbn [length] in Hlen. lia.
Qed.

(** ** Dispatch *)

(** The outcome of a run is that of the first variant whose signature is
    found: the run goes as if no other list signature were in the buffer. *)
Lemma run_with_first_found
  (pefile_PE : bytes -> option PE) (der : bytes -> option (list Z))
  (scan : bytes -> string -> option Z) (data : bytes) (id : string) :
  first_found scan data = Some id ->
  forall r, run_with pefile_PE der scan data r
            = run_with pefile_PE der (only id scan) data r.
Proof.
  unfold first_found, variants. cbn [find].
  destruct (scan data "$c2list") eqn:E0; cbn [is_found];
    [intros H; injection H as <-; intros r;
     unfold run_with, only; cbn [String.eqb Ascii.eqb Bool.eqb orb];
     rewrite E0; reflexivity|].
  destruct (scan data "$snippet3") eqn:E3; cbn [is_found];
    [intros H; injection H as <-; intros r;
     unfold run_with, run_fallbacks, fallback_lists, obfuscated_key, only;
     cbn [String.eqb Ascii.eqb Bool.eqb orb];
     rewrite ?E0, ?E3; reflexivity|].
  destruct (scan data "$snippet4") eqn:E4; cbn [is_found];
    [intros H; injection H as <-; intros r;
     unfold run_with, run_fallbacks, fallback_lists, obfuscated_key, only;
     cbn [String.eqb Ascii.eqb Bool.eqb orb];
     rewrite ?E0, ?E3, ?E4; reflexivity|].
  destruct (scan data "$snippet5") eqn:E5; cbn [is_found];
    [intros H; injection H as <-; intros r;
     unfold run_with, run_fallbacks, fallback_lists, obfuscated_key, only;
     cbn [String.eqb Ascii.eqb Bool.eqb orb];
     rewrite ?E0, ?E3, ?E4, ?E5; reflexivity|].
  destruct (scan data "$snippet6") eqn:E6; cbn [is_found];
    [intros H; injection H as <-; intros r;
     unfold run_with, run_fallbacks, fallback_lists, obfuscated_key, only;
     cbn [String.eqb Ascii.eqb Bool.eqb orb];
     rewrite ?E0, ?E3, ?E4, ?E5, ?E6; reflexivity|].
  destruct (scan data "$snippet7") eqn:E7; cbn [is_found];
    [intros H; injection H as <-; intros r;
     unfold run_with, run_fallbacks, fallback_lists, obfuscated_key, only;
     cbn [String.eqb Ascii.eqb Bool.eqb orb];
     rewrite ?E0, ?E3, ?E4, ?E5, ?E6, ?E7; reflexivity|].
  discriminate.
Qed.

Lemma find_prefix {A : Type} (f : A -> bool) (pre post : list A) (x : A) :
  NoDup (pre ++ x :: post) ->
  find f (pre ++ x :: post) = Some x ->
  forall i, In i pre -> f i = false.
Proof.
  induction pre as [|a pre IH]; intros Hnd Hf i Hin; [contradiction|].
  cbn [app find] in Hf. inversion Hnd as [|? ? Hnotin Hnd']; subst.
  destruct (f a) eqn:E.
  - injection Hf as ->. exfalso. apply Hnotin, in_elt.
  - destruct Hin as [<-|Hin]; [exact E|]. now apply IH.
Qed.

Lemma run_with_nothing_found
  (pefile_PE : bytes -> option PE) (der : bytes -> option (list Z))
  (scan : bytes -> string -> option Z) (data : bytes) (pe : PE) (r : reporter) :
  pefile_PE data = Some pe ->
  pub_first_match data = None ->
  nothing_found scan data ->
  run_with pefile_PE der scan data r = (r, Ok tt).
Proof.
  intros Hpe Hpub Hscan.
  unfold run_with, run_fallbacks, fallback_lists, obfuscated_key, extract_emotet_rsakey.
  rewrite Hpe, Hpub.
  rewrite !Hscan by (cbn; tauto).
  reflexivity.
Qed.

(** ** Translation and the list decode *)

(** With a translation that succeeds the [try] statement is transparent. *)
Lemma decode_c2_list_mapped (pe : PE) (data : bytes) (rva off : Z) (r : reporter) :
  get_offset_from_rva pe rva = Some off ->
  decode_c2_list pe data (Some rva) r
  = snippet_loop (loop_fuel data off) data (Some off) r.
Proof.
  intros H. unfold decode_c2_list, try_except, bind, lift, ret, pe_offset, load_fast.
  rewrite H. reflexivity.
Qed.

(** With a translation that fails, or with [c2_list_rva] unbound, the
    handler's class name is looked up, and it is bound nowhere. *)
Lemma decode_c2_list_unmapped (pe : PE) (data : bytes) (c2_list_rva : option Z)
  (r : reporter) :
  match c2_list_rva with
  | Some rva => get_offset_from_rva pe rva = None
  | None => True
  end ->
  decode_c2_list pe data c2_list_rva r = (r, Raise (NameError "PEFormatError")).
Proof.
  intros H. unfold decode_c2_list, try_except, bind, lift, ret, pe_offset, load_fast.
  destruct c2_list_rva as [rva|]; [rewrite H|]; reflexivity.
Qed.

Lemma loop_fuel_enough (pre rest : bytes) (records : list c2_record) :
  (length records
   < loop_fuel (pre ++ flat_map record_bytes records ++ rest) (len pre))%nat.
Proof.
  unfold loop_fuel. rewrite !len_app.
  replace (len pre + (len (flat_map record_bytes records) + len rest) - len pre)
    with (len (flat_map record_bytes records) + len rest) by lia.
  assert (H : len (flat_map record_bytes records) = 8 * Z.of_nat (length records)).
  { induction records as [|rc records IH]; [reflexivity|].
    cbn [flat_map]. rewrite len_app, IH. cbn [length].
    unfold len at 1. cbn [record_bytes length]. lia. }
  rewrite H. pose proof (len_nonneg rest). lia.
Qed.

(** ** The obfuscated key *)

Lemma struct_pack_ltI_bytes (s : bytes) :
  length s = 4%nat -> struct_pack_ltI (le_decode s) = Ok s.
Proof.
  destruct s as [|a [|b [|c [|d [|? ?]]]]]; try discriminate.
  intros _. apply struct_pack_ltI_le_decode.
Qed.

(** Lines 267-272 once the two fields are readable: the blob is the slice
    of [xorsize] bytes after them, unmasked with the key bytes. *)
Lemma ref_rsa_at_eq (der : bytes -> option (list Z)) (data : bytes) (off : Z)
  (r : reporter) :
  let keyb := py_slice data off (off + 4) in
  let sizeb := py_slice data (off + 4) (off + 8) in
  let xorsize := Z.lxor (le_decode keyb) (le_decode sizeb) in
  length keyb = 4%nat -> length sizeb = 4%nat ->
  ref_rsa_at der data off r
  = report_der_key der (xor_mask (py_slice data (off + 8) (off + 8 + xorsize)) keyb) r.
Proof.
  intros keyb sizeb xorsize Hk Hs. unfold ref_rsa_at.
  fold keyb sizeb.
  rewrite !struct_unpack_unsigned by (try reflexivity; assumption).
  unfold bind at 1. unfold lift at 1.
  unfold bind at 1. unfold lift at 1.
  fold xorsize.
  rewrite struct_pack_ltI_bytes by exact Hk.
  unfold bind at 1. unfold lift at 1.
  rewrite xor_data_spec by exact Hk.
  unfold bind at 1. unfold lift at 1. reflexivity.
Qed.

(** ** Termination: the fuel of the loops suffices *)

Lemma answers_ret {A : Type} (a : A) : answers (ret a).
Proof. intros r. discriminate. Qed.

Lemma answers_lift {A : Type} (c : outcome A) : c <> OutOfFuel -> answers (lift c).
Proof. intros H r. exact H. Qed.

Lemma answers_add_metadata (m : metadata) : answers (add_metadata m).
Proof. intros r. discriminate. Qed.

Lemma answers_bind {A B : Type} (c : M A) (k : A -> M B) :
  answers c -> (forall a, answers (k a)) -> answers (bind c k).
Proof.
  intros Hc Hk r. unfold bind. specialize (Hc r).
  destruct (c r) as [r' [a|e|]]; cbn [snd] in *.
  - apply Hk.
  - discriminate.
  - exfalso. now apply Hc.
Qed.

Lemma obind_answers {A B : Type} (c : outcome A) (k : A -> outcome B) :
  c <> OutOfFuel -> (forall a, k a <> OutOfFuel) -> obind c k <> OutOfFuel.
Proof. intros Hc Hk. destruct c; cbn [obind]; auto. discriminate. Qed.

Lemma struct_unpack_answers (f : struct_fmt) (s : bytes) : struct_unpack f s <> OutOfFuel.
Proof. unfold struct_unpack. destruct (Nat.eqb _ _); discriminate. Qed.

Lemma struct_pack_netL_answers (v : Z) : struct_pack_netL v <> OutOfFuel.
Proof. unfold struct_pack_netL. destruct (in_uint32 v); discriminate. Qed.

Lemma struct_pack_ltI_answers (v : Z) : struct_pack_ltI v <> OutOfFuel.
Proof. unfold struct_pack_ltI. destruct (in_uint32 v); discriminate. Qed.

Lemma inet_ntoa_answers (s : bytes) : inet_ntoa s <> OutOfFuel.
Proof. destruct s as [|a [|b [|c [|d [|? ?]]]]]; discriminate. Qed.

Lemma getitem_answers {A : Type} (s : list A) (i : nat) : getitem s i <> OutOfFuel.
Proof. unfold getitem. destruct (nth_error s i); discriminate. Qed.

Lemma chr_answers (z : Z) : chr z <> OutOfFuel.
Proof. unfold chr. destruct (_ && _); discriminate. Qed.

Lemma xor_data_answers (data key : bytes) : xor_data data key <> OutOfFuel.
Proof.
  unfold xor_data. generalize 0%nat as i.
  induction data as [|d rest IH]; intros i; cbn [xor_data_from]; [discriminate|].
  destruct (length key) eqn:E; [discriminate|]. rewrite <- E.
  repeat (apply obind_answers;
          [auto using getitem_answers, chr_answers | intros ?]).
  discriminate.
Qed.

Lemma render_record_answers (data : bytes) (off ip : Z) (f : struct_fmt) :
  render_record data off ip f <> OutOfFuel.
Proof.
  unfold render_record.
  repeat (apply obind_answers;
          [auto using struct_pack_netL_answers, inet_ntoa_answers, struct_unpack_answers
          | intros ?]).
  discriminate.
Qed.

Lemma der_key_answers (der : bytes -> option (list Z)) (blob : bytes) :
  der_key der blob <> OutOfFuel.
Proof.
  unfold der_key, der_decode.
  repeat (apply obind_answers; [auto using getitem_answers | intros ?]);
    try discriminate.
  destruct (der blob); discriminate.
Qed.

(** A successful four-byte read at [off] means [off] is below the length. *)
Lemma read_inside (data : bytes) (off : Z) (f : struct_fmt) (v : Z) :
  struct_unpack f (py_slice data off (off + Z.of_nat (calcsize f))) = Ok v ->
  off < len data.
Proof.
  intros H. apply struct_unpack_Ok in H.
  destruct (Z.lt_ge_cases off (len data)) as [Hlt|Hge]; [exact Hlt|].
  rewrite py_slice_past_end in H by exact Hge.
  destruct f; discriminate.
Qed.

Lemma snippet_loop_answers (data : bytes) :
  forall (fuel : nat) (off : Z),
    (Z.to_nat (len data - off) < fuel)%nat ->
    answers (snippet_loop fuel data (Some off)).
Proof.
  induction fuel as [|fuel IH]; intros off Hfuel; [lia|].
  cbn [snippet_loop load_fast obind].
  destruct (struct_unpack fmt_ltI (py_slice data off (off + 4))) as [ip| e |] eqn:E;
    cbn [obind].
  - destruct (ip =? 0); [apply answers_ret|].
    apply answers_bind; [apply answers_lift, render_record_answers|].
    intros [c2_address port].
    destruct (truthy c2_address && truthy port); [|apply answers_ret].
    apply answers_bind; [apply answers_add_metadata|]. intros _.
    apply IH. apply (read_inside data off fmt_ltI) in E. lia.
  - apply answers_ret.
  - exfalso. exact (struct_unpack_answers _ _ E).
Qed.

Lemma c2list_loop_answers (data : bytes) :
  forall (fuel : nat) (off ip : Z),
    (Z.to_nat (len data - off) < fuel)%nat ->
    (ip <> 0 -> off < len data) ->
    answers (c2list_loop fuel data off ip).
Proof.
  induction fuel as [|fuel IH]; intros off ip Hfuel Hin; [lia|].
  cbn [c2list_loop].
  destruct (ip =? 0) eqn:E0; [apply answers_ret|].
  apply Z.eqb_neq in E0. specialize (Hin E0).
  apply answers_bind; [apply answers_lift, render_record_answers|].
  intros [c2_address port].
  apply answers_bind.
  { destruct (truthy c2_address && truthy port);
      [apply answers_add_metadata | apply answers_ret]. }
  intros _ r. unfold bind, lift.
  destruct (struct_unpack fmt_I (py_slice data (off + 8) (off + 8 + 4)))
    as [ip'| e |] eqn:E; cbn [snd].
  - apply IH; [lia|]. intros _. now apply (read_inside data (off + 8) fmt_I ip').
  - discriminate.
  - exfalso. exact (struct_unpack_answers _ _ E).
Qed.

Lemma c2list_branch_answers (data : bytes) (off : Z) : answers (c2list_branch data off).
Proof.
  intros r. unfold c2list_branch, bind, lift.
  destruct (struct_unpack fmt_I (py_slice data off (off + 4))) as [ip| e |] eqn:E;
    cbn [snd].
  - apply c2list_loop_answers; [unfold loop_fuel; lia|].
    intros _. now apply (read_inside data off fmt_I ip).
  - discriminate.
  - exfalso. exact (struct_unpack_answers _ _ E).
Qed.

Lemma decode_c2_list_answers (pe : PE) (data : bytes) (c2_list_rva : option Z) :
  answers (decode_c2_list pe data c2_list_rva).
Proof.
  intros r.
  destruct c2_list_rva as [rva|].
  - destruct (get_offset_from_rva pe rva) as [off|] eqn:E.
    + rewrite (decode_c2_list_mapped pe data rva off r E).
      apply snippet_loop_answers. unfold loop_fuel. lia.
    + rewrite decode_c2_list_unmapped by exact E. discriminate.
  - rewrite decode_c2_list_unmapped by exact I. discriminate.
Qed.

Lemma snippet_branch_answers (d : Z) (pe : PE) (data : bytes) (a : Z) :
  answers (snippet_branch d pe data a).
Proof.
  apply answers_bind; [apply answers_lift, struct_unpack_answers|].
  intros va. apply decode_c2_list_answers.
Qed.

Lemma fallback_lists_answers (scan : bytes -> string -> option Z) (pe : PE)
  (data : bytes) : answers (fallback_lists scan pe data).
Proof.
  unfold fallback_lists.
  destruct (scan data "$snippet3").
  { apply answers_bind; [apply answers_lift, struct_unpack_answers|].
    intros va. apply decode_c2_list_answers. }
  destruct (scan data "$snippet4"); [apply snippet_branch_answers|].
  destruct (scan data "$snippet5"); [apply snippet_branch_answers|].
  destruct (scan data "$snippet6"); [apply snippet_branch_answers|].
  destruct (scan data "$snippet7"); [|apply answers_ret].
  apply answers_bind; [apply answers_lift, struct_unpack_answers|].
  intros hb. apply snippet_branch_answers.
Qed.

Lemma obfuscated_key_answers (der : bytes -> option (list Z))
  (scan : bytes -> string -> option Z) (pe : PE) (data : bytes) :
  answers (obfuscated_key der scan pe data).
Proof.
  unfold obfuscated_key.
  destruct (scan data "$ref_rsa") as [a|]; [|apply answers_ret].
  apply answers_bind; [apply answers_lift, struct_unpack_answers|].
  intros va. destruct (pe_offset pe (va - ImageBase pe)); try apply answers_ret.
  unfold ref_rsa_at.
  repeat (apply answers_bind;
          [apply answers_lift;
           auto using struct_unpack_answers, struct_pack_ltI_answers,
             xor_data_answers, der_key_answers
          | intros ?]).
  apply answers_add_metadata.
Qed.

(** [Emotet.run] always gives an answer: the fuel handed to the record
    loops is never exhausted. *)
Theorem run_with_answers
  (pefile_PE : bytes -> option PE) (der : bytes -> option (list Z))
  (scan : bytes -> string -> option Z) (data : bytes) :
  answers (run_with pefile_PE der scan data).
Proof.
  unfold run_with.
  apply answers_bind.
  { apply answers_lift. destruct (pefile_PE data); discriminate. }
  intros pe. apply answers_bind.
  { apply answers_lift. unfold extract_emotet_rsakey.
    destruct (pub_first_match data); [|discriminate].
    apply obind_answers; [apply der_key_answers | discriminate]. }
  intros pem_key. apply answers_bind.
  { destruct pem_key; [apply answers_add_metadata | apply answers_ret]. }
  intros _. destruct (scan data "$c2list"); [apply c2list_branch_answers|].
  unfold run_fallbacks. apply answers_bind; [apply fallback_lists_answers|].
  intros _. destruct pem_key; [apply answers_ret | apply obfuscated_key_answers].
Qed.

(** * Properties of the extraction *)

(** ** Record lists *)

(** C3.  A list of N well-formed 8-byte records that starts at the resolved
    file offset is decoded into exactly N endpoints, in file order, each
    the network-order dotted-decimal address (most significant byte of the
    little-endian address field first) and the port of the variant: by the
    fall-back variants, with the unsigned port, when the records are
    followed by an all-zero address field or by the end of the buffer; by
    the [$c2list] branch, with the signed port, when they are followed by
    an all-zero address field.  Record [i] is read at offset [8 * i] from
    the start of the list. *)
Theorem record_list_decoding (pe : PE) (records : list c2_record)
  (pre : bytes) (rva : Z) (r : reporter) :
  Forall well_formed records ->
  get_offset_from_rva pe rva = Some (len pre) ->
  (forall tail,
      list_end tail ->
      decode_c2_list pe (pre ++ flat_map record_bytes records ++ tail) (Some rva) r
      = (r ++ map (endpoint false) records, Ok tt))
  /\ (forall post,
         c2list_branch (pre ++ flat_map record_bytes records ++ zero_address ++ post)
           (len pre) r
         = (r ++ map (endpoint true) records, Ok tt)).
Proof.
  intros Hwf Hoff. split.
  - intros tail Hend.
    rewrite (decode_c2_list_mapped pe _ rva (len pre) r Hoff).
    apply snippet_loop_records; [exact Hwf | exact Hend | apply loop_fuel_enough].
  - intros post. unfold c2list_branch.
    pose proof (c2list_loop_records records Hwf pre (zero_address ++ post) r
                  (loop_fuel (pre ++ flat_map record_bytes records ++ zero_address ++ post)
                     (len pre))) as H.
    cbv zeta in H. rewrite H.
    + reflexivity.
    + right. exists post. reflexivity.
    + apply loop_fuel_enough.
Qed.

Lemma record_list_decoding_witness :
  Forall well_formed [Samples.record1; Samples.record2]
  /\ get_offset_from_rva (Samples.image 100) 80
     = Some (len (firstn 80 Samples.sample_snippet4))
  /\ (forall tail,
         list_end tail ->
         decode_c2_list (Samples.image 100)
           (firstn 80 Samples.sample_snippet4
            ++ flat_map record_bytes [Samples.record1; Samples.record2] ++ tail)
           (Some 80) []
         = ([address "4.3.2.1:8080"; address "1.0.0.10:50000"], Ok tt))
  /\ (forall post,
         c2list_branch
           (firstn 80 Samples.sample_snippet4
            ++ flat_map record_bytes [Samples.record1; Samples.record2]
            ++ zero_address ++ post) 80 []
         = ([address "4.3.2.1:8080"; address "1.0.0.10:-15536"], Ok tt)).
Proof.
  assert (Hwf : Forall well_formed [Samples.record1; Samples.record2])
    by (repeat constructor; vm_compute; discriminate).
  split; [exact Hwf|]. split; [reflexivity|].
  exact (record_list_decoding (Samples.image 100)
           [Samples.record1; Samples.record2]
           (firstn 80 Samples.sample_snippet4) 80 [] Hwf eq_refl).
Defined.

(** C6.  The [$c2list] branch reads the port field as a signed 16-bit
    integer, the fall-back branches (whose common tail is
    [decode_c2_list]) read it as an unsigned one; a port field of 0x8000
    or more is rendered by the [$c2list] branch as the negative literal. *)
Theorem port_signedness (pe : PE) (rc : c2_record) (pre post : bytes)
  (rva : Z) (r : reporter) :
  well_formed rc ->
  get_offset_from_rva pe rva = Some (len pre) ->
  let buf := pre ++ record_bytes rc ++ zero_address ++ post in
  c2list_branch buf (len pre) r
  = (r ++ [address (address_text rc ++ ":" ++ str (to_signed 16 (port_value rc)))],
     Ok tt)
  /\ decode_c2_list pe buf (Some rva) r
     = (r ++ [address (address_text rc ++ ":" ++ str (port_value rc))], Ok tt)
  /\ (0x8000 <= port_value rc ->
      str (to_signed 16 (port_value rc))
      = ("-" ++ str (0x10000 - port_value rc))%string).
Proof.
  intros Hwf Hoff buf. subst buf.
  assert (Hall : Forall well_formed [rc]) by (constructor; [exact Hwf | constructor]).
  split; [|split].
  - unfold c2list_branch.
    pose proof (c2list_loop_records [rc] Hall pre (zero_address ++ post) r
                  (loop_fuel (pre ++ record_bytes rc ++ zero_address ++ post) (len pre)))
      as H.
    cbv zeta in H. cbn [flat_map map] in H. rewrite app_nil_r in H.
    rewrite H.
    + reflexivity.
    + right. exists post. reflexivity.
    + apply (loop_fuel_enough pre (zero_address ++ post) [rc]).
  - rewrite (decode_c2_list_mapped pe _ rva (len pre) r Hoff).
    pose proof (snippet_loop_records [rc] Hall pre (zero_address ++ post) r
                  (loop_fuel (pre ++ record_bytes rc ++ zero_address ++ post) (len pre)))
      as H.
    cbn [flat_map map] in H. rewrite app_nil_r in H. apply H.
    + right. exists post. reflexivity.
    + apply (loop_fuel_enough pre (zero_address ++ post) [rc]).
  - intros Hbig. unfold to_signed.
    assert (Hrange : port_value rc < 0x10000).
    { unfold port_value. pose proof (ord_range (p0 rc)). pose proof (ord_range (p1 rc)).
      lia. }
    change (2 ^ (16 - 1)) with 0x8000. change (2 ^ 16) with 0x10000.
    destruct (port_value rc <? 0x8000) eqn:E; [apply Z.ltb_lt in E; lia|].
    destruct (port_value rc - 0x10000) as [|p|p] eqn:Ev; try lia.
    rewrite str_neg. f_equal. f_equal. lia.
Qed.

Lemma port_signedness_witness :
  well_formed Samples.record2
  /\ get_offset_from_rva (Samples.image 100) 88
     = Some (len (firstn 88 Samples.sample_snippet4))
  /\ 0x8000 <= port_value Samples.record2
  /\ c2list_branch Samples.sample_snippet4 88 []
     = ([address "1.0.0.10:-15536"], Ok tt)
  /\ decode_c2_list (Samples.image 100) Samples.sample_snippet4 (Some 88) []
     = ([address "1.0.0.10:50000"], Ok tt).
Proof.
  assert (Hwf : well_formed Samples.record2) by (vm_compute; discriminate).
  split; [exact Hwf|]. split; [reflexivity|]. split; [vm_compute; discriminate|].
  pose proof (port_signedness (Samples.image 100) Samples.record2
                (firstn 88 Samples.sample_snippet4) [] 88 [] Hwf eq_refl) as H.
  destruct H as [H1 [H2 _]]. split; [exact H1 | exact H2].
Defined.

(** ** Dispatch and the rule *)

(** C9.  The rule defines no string [$c2list]: for every buffer
    [yara_scan] finds no [$c2list] match, and the run is the run without
    the [$c2list] branch (its signed-port loop and its early return are
    never executed). *)
Theorem c2list_never_matches (data : bytes) :
  yara_scan data "$c2list" = None
  /\ forall (pefile_PE : bytes -> option PE) (der : bytes -> option (list Z))
       (r : reporter),
      run pefile_PE der data r = run_without_c2list pefile_PE der yara_scan data r.
Proof.
  assert (H : yara_scan data "$c2list" = None).
  { destruct (yara_scan data "$c2list") as [off|] eqn:E; [|reflexivity].
    exfalso. apply yara_scan_found in E. destruct E as [p [Hin _]].
    apply rule_identifiers in Hin. cbn [In] in Hin.
    repeat destruct Hin as [Hin|Hin]; try discriminate. exact Hin. }
  split; [exact H|].
  intros pefile_PE der r. unfold run, run_with, run_without_c2list.
  rewrite H. reflexivity.
Qed.

(** Line 84 is outside any [try]: when the reader rejects the buffer, its
    exception is the outcome of the run. *)
Lemma run_with_rejected
  (pefile_PE : bytes -> option PE) (der : bytes -> option (list Z))
  (scan : bytes -> string -> option Z) (data : bytes) (r : reporter) :
  pefile_PE data = None ->
  run_with pefile_PE der scan data r = (r, Raise PEFormatError).
Proof.
  intros H. unfold run_with. unfold bind at 1. unfold lift at 1. now rewrite H.
Qed.

(** C7, refuted as stated.  A reader that rejects what is shorter than a
    DOS header rejects a buffer of four bytes, and its exception leaves the
    run; so it is with every reader that rejects the buffer. *)
Lemma short_buffer_rejected :
  (length [x4d; x5a; x90; x00] < 39)%nat
  /\ Reference.dos_image Samples.base [x4d; x5a; x90; x00] = None
  /\ run (Reference.dos_image Samples.base) Reference.der_sequence
       [x4d; x5a; x90; x00] []
     = ([], Raise PEFormatError)
  /\ (forall (pefile_PE : bytes -> option PE) (der : bytes -> option (list Z)),
        pefile_PE [x4d; x5a; x90; x00] = None ->
        run pefile_PE der [x4d; x5a; x90; x00] [] = ([], Raise PEFormatError)).
Proof.
  split; [cbn; lia|]. split; [reflexivity|]. split; [reflexivity|].
  intros pefile_PE der H. now apply run_with_rejected.
Qed.

(** C7, amended.  A buffer shorter than 39 bytes, the least extent of any
    pattern the parser looks for ([$ref_rsa]; the list signatures need 42
    bytes and more, the key pattern 108), holds none of them: the run
    reports nothing (zero endpoints, no key).  It returns normally when the
    reader yields a PE object for the buffer, and ends with the reader's
    exception when the reader rejects it. *)
Theorem short_buffer_reports_nothing
  (pefile_PE : bytes -> option PE) (der : bytes -> option (list Z))
  (data : bytes) (r : reporter) :
  (length data < 39)%nat ->
  run pefile_PE der data r
  = (r, match pefile_PE data with
        | Some _ => Ok tt
        | None => Raise PEFormatError
        end).
Proof.
  intros Hlen. unfold run.
  destruct (pefile_PE data) as [pe|] eqn:Hpe; [|now apply run_with_rejected].
  apply (run_with_nothing_found pefile_PE der yara_scan data pe r Hpe).
  - apply pub_first_match_short. lia.
  - intros name Hin. apply yara_scan_short; [exact Hlen| |];
      intros ->; cbn [variants app In] in Hin;
      repeat destruct Hin as [Hin|Hin]; try discriminate; exact Hin.
Qed.

Lemma short_buffer_reports_nothing_witness :
  (length [x4d; x5a; x90; x00] < 39)%nat
  /\ run (Reference.dos_image Samples.base) Reference.der_sequence
       [x4d; x5a; x90; x00] []
     = ([], Raise PEFormatError)
  /\ run (Reference.flat_image Samples.base) Reference.der_sequence
       [x4d; x5a; x90; x00] []
     = ([], Ok tt).
Proof.
  assert (H : (length [x4d; x5a; x90; x00] < 39)%nat) by (cbn; lia).
  split; [exact H|]. split.
  - exact (short_buffer_reports_nothing (Reference.dos_image Samples.base)
             Reference.der_sequence [x4d; x5a; x90; x00] [] H).
  - exact (short_buffer_reports_nothing (Reference.flat_image Samples.base)
             Reference.der_sequence [x4d; x5a; x90; x00] [] H).
Defined.

Lemma bind_ret_tt (c : M unit) (r : reporter) : (c ;; ret tt) r = c r.
Proof. unfold bind, ret. destruct (c r) as [r' [[]|e|]]; reflexivity. Qed.

(** The run from the list discovery on, once the reader has given the PE
    object and the plain-key step its answer. *)
Lemma run_with_from_lists
  (pefile_PE : bytes -> option PE) (der : bytes -> option (list Z))
  (scan : bytes -> string -> option Z) (data : bytes) (pe : PE)
  (pem : option RSAKey) (r : reporter) :
  pefile_PE data = Some pe ->
  extract_emotet_rsakey der data = Ok pem ->
  run_with pefile_PE der scan data r
  = match scan data "$c2list" with
    | Some ips_offset => c2list_branch data ips_offset (r ++ plain_key_report pem)
    | None => run_fallbacks der scan pe data pem (r ++ plain_key_report pem)
    end.
Proof.
  intros Hpe Hpem. unfold run_with.
  unfold bind at 1. unfold lift at 1. rewrite Hpe.
  unfold bind at 1. unfold lift at 1. rewrite Hpem.
  unfold bind at 1.
  destruct pem as [k|]; cbn [plain_key_report add_metadata ret];
    rewrite ?app_nil_r; destruct (scan data "$c2list"); reflexivity.
Qed.

(** The found variant's branch is what the run executes. *)
Lemma run_with_variant_branch
  (pefile_PE : bytes -> option PE) (der : bytes -> option (list Z))
  (scan : bytes -> string -> option Z) (data : bytes) (id : string) :
  first_found scan data = Some id ->
  exists a,
    scan data id = Some a
    /\ forall (pe : PE) (pem : option RSAKey) (r : reporter),
         pefile_PE data = Some pe ->
         extract_emotet_rsakey der data = Ok pem ->
         run_with pefile_PE der scan data r
         = (variant_branch id pe data a ;; after_lists der scan pe data id pem)
             (r ++ plain_key_report pem).
Proof.
  unfold first_found, variants. cbn [find].
  destruct (scan data "$c2list") as [a|] eqn:E0; cbn [is_found].
  { intros H. injection H as <-. exists a. split; [exact E0|].
    intros pe pem r Hpe Hpem.
    rewrite (run_with_from_lists pefile_PE der scan data pe pem r Hpe Hpem), E0.
    unfold variant_branch, after_lists. cbn [String.eqb Ascii.eqb Bool.eqb].
    now rewrite bind_ret_tt. }
  destruct (scan data "$snippet3") as [a|] eqn:E3; cbn [is_found].
  { intros H. injection H as <-. exists a. split; [exact E3|].
    intros pe pem r Hpe Hpem.
    rewrite (run_with_from_lists pefile_PE der scan data pe pem r Hpe Hpem), E0.
    unfold run_fallbacks, fallback_lists, variant_branch, after_lists.
    cbn [String.eqb Ascii.eqb Bool.eqb]. rewrite E3. reflexivity. }
  destruct (scan data "$snippet4") as [a|] eqn:E4; cbn [is_found].
  { intros H. injection H as <-. exists a. split; [exact E4|].
    intros pe pem r Hpe Hpem.
    rewrite (run_with_from_lists pefile_PE der scan data pe pem r Hpe Hpem), E0.
    unfold run_fallbacks, fallback_lists, variant_branch, after_lists.
    cbn [String.eqb Ascii.eqb Bool.eqb]. rewrite E3, E4. reflexivity. }
  destruct (scan data "$snippet5") as [a|] eqn:E5; cbn [is_found].
  { intros H. injection H as <-. exists a. split; [exact E5|].
    intros pe pem r Hpe Hpem.
    rewrite (run_with_from_lists pefile_PE der scan data pe pem r Hpe Hpem), E0.
    unfold run_fallbacks, fallback_lists, variant_branch, after_lists.
    cbn [String.eqb Ascii.eqb Bool.eqb]. rewrite E3, E4, E5. reflexivity. }
  destruct (scan data "$snippet6") as [a|] eqn:E6; cbn [is_found].
  { intros H. injection H as <-. exists a. split; [exact E6|].
    intros pe pem r Hpe Hpem.
    rewrite (run_with_from_lists pefile_PE der scan data pe pem r Hpe Hpem), E0.
    unfold run_fallbacks, fallback_lists, variant_branch, after_lists.
    cbn [String.eqb Ascii.eqb Bool.eqb]. rewrite E3, E4, E5, E6. reflexivity. }
  destruct (scan data "$snippet7") as [a|] eqn:E7; cbn [is_found]; [|discriminate].
  intros H. injection H as <-. exists a. split; [exact E7|].
  intros pe pem r Hpe Hpem.
  rewrite (run_with_from_lists pefile_PE der scan data pe pem r Hpe Hpem), E0.
  unfold run_fallbacks, fallback_lists, variant_branch, after_lists.
  cbn [String.eqb Ascii.eqb Bool.eqb]. rewrite E3, E4, E5, E6, E7. reflexivity.
Qed.

(** C4.  Dispatch precedence.  When [id] is the first variant, in the
    order [$c2list], [$snippet3], ..., [$snippet7], whose signature the
    locator finds, the run executes the branch of [id], at the offset of
    its signature, and reports what that branch reports: after the
    plain-key step the run is that branch, followed by nothing for
    [$c2list] and by the key attempt for a fall-back variant.  It is also
    the run of a buffer in which no other list signature is found: the
    variants after [id] are not consulted, whatever the decode of [id]
    yields.  A found [$c2list] signature is always that first variant, and
    every variant before [id] is absent. *)
Theorem dispatch_precedence
  (pefile_PE : bytes -> option PE) (der : bytes -> option (list Z))
  (scan : bytes -> string -> option Z) (data : bytes) (id : string) :
  first_found scan data = Some id ->
  (forall r, run_with pefile_PE der scan data r
             = run_with pefile_PE der (only id scan) data r)
  /\ (forall off, scan data "$c2list" = Some off -> id = "$c2list")
  /\ (forall before after i,
         variants = before ++ id :: after -> In i before -> scan data i = None)
  /\ (exists a,
        scan data id = Some a
        /\ forall (pe : PE) (pem : option RSAKey) (r : reporter),
             pefile_PE data = Some pe ->
             extract_emotet_rsakey der data = Ok pem ->
             run_with pefile_PE der scan data r
             = (variant_branch id pe data a ;; after_lists der scan pe data id pem)
                 (r ++ plain_key_report pem)).
Proof.
  intros Hfirst. split; [|split; [|split]].
  - now apply run_with_first_found.
  - intros off Hoff. unfold first_found, variants in Hfirst. cbn [find] in Hfirst.
    rewrite Hoff in Hfirst. cbn [is_found] in Hfirst. now injection Hfirst.
  - intros before after i Hsplit Hin.
    assert (Hnd : NoDup variants).
    { unfold variants. repeat constructor; cbn [In]; intuition discriminate. }
    unfold first_found in Hfirst. rewrite Hsplit in Hfirst, Hnd.
    pose proof (find_prefix _ before after id Hnd Hfirst i Hin) as H.
    cbv beta in H. destruct (scan data i); [discriminate | reflexivity].
  - now apply run_with_variant_branch.
Qed.

Lemma dispatch_precedence_witness :
  (first_found yara_scan Samples.sample_two_variants = Some "$snippet3"
   /\ yara_scan Samples.sample_two_variants "$snippet4" = Some 42
   /\ snippet_branch 8 (Samples.image 152) Samples.sample_two_variants 42 []
      = ([address "4.3.2.1:8080"; address "1.0.0.10:50000"], Ok tt)
   /\ run_with (Reference.flat_image Samples.base) Reference.der_sequence
        yara_scan Samples.sample_two_variants []
      = run_with (Reference.flat_image Samples.base) Reference.der_sequence
          (only "$snippet3" yara_scan) Samples.sample_two_variants []
   /\ run_with (Reference.flat_image Samples.base) Reference.der_sequence
        yara_scan Samples.sample_two_variants []
      = ([address "8.7.6.5:443"], Ok tt))
  /\ (first_found (Reference.scan_with_c2list 80) Samples.sample_snippet4
      = Some "$c2list"
      /\ Reference.scan_with_c2list 80 Samples.sample_snippet4 "$snippet4" = Some 0
      /\ run_with (Reference.flat_image Samples.base) Reference.der_sequence
           (Reference.scan_with_c2list 80) Samples.sample_snippet4 []
         = run_with (Reference.flat_image Samples.base) Reference.der_sequence
             (only "$c2list" (Reference.scan_with_c2list 80))
             Samples.sample_snippet4 []
      /\ run_with (Reference.flat_image Samples.base) Reference.der_sequence
           (Reference.scan_with_c2list 80) Samples.sample_snippet4 []
         = ([address "4.3.2.1:8080"; address "1.0.0.10:-15536"], Ok tt)).
Proof.
  assert (H3 : first_found yara_scan Samples.sample_two_variants = Some "$snippet3")
    by (vm_compute; reflexivity).
  pose proof (dispatch_precedence (Reference.flat_image Samples.base)
                Reference.der_sequence yara_scan
                Samples.sample_two_variants "$snippet3" H3) as [P1 [_ [_ P4]]].
  pose proof (dispatch_precedence (Reference.flat_image Samples.base)
                Reference.der_sequence (Reference.scan_with_c2list 80)
                Samples.sample_snippet4 "$c2list" eq_refl) as [Q1 [_ [_ Q4]]].
  split.
  - split; [exact H3|]. split; [vm_compute; reflexivity|].
    split; [vm_compute; reflexivity|]. split; [exact (P1 [])|].
    destruct P4 as [a [Ha P4]].
    rewrite (P4 (Samples.image 152) None [] eq_refl ltac:(vm_compute; reflexivity)).
    assert (Ea : a = 0).
    { assert (E : yara_scan Samples.sample_two_variants "$snippet3" = Some 0)
        by (vm_compute; reflexivity).
      rewrite E in Ha. now injection Ha. }
    subst a. vm_compute. reflexivity.
  - split; [reflexivity|]. split; [vm_compute; reflexivity|].
    split; [exact (Q1 [])|].
    destruct Q4 as [a [Ha Q4]].
    rewrite (Q4 (Samples.image 100) None [] eq_refl ltac:(vm_compute; reflexivity)).
    assert (Ea : a = 80).
    { assert (E : Reference.scan_with_c2list 80 Samples.sample_snippet4 "$c2list"
                  = Some 80) by reflexivity.
      rewrite E in Ha. now injection Ha. }
    subst a. vm_compute. reflexivity.
Defined.

(** ** Address resolution *)

(** The RVA the [$snippet4] .. [$snippet7] branches pass to the
    translator: the difference to the image base up to 0x20000, the low 16
    bits of the pointer beyond. *)
Lemma snippet_branch_rva (d : Z) (pe : PE) (data : bytes) (a va : Z) (r : reporter) :
  struct_unpack fmt_i (py_slice data (a + d) (a + d + 4)) = Ok va ->
  snippet_branch d pe data a r
  = decode_c2_list pe data
      (Some (if va - ImageBase pe >? 0x20000
             then Z.land va 0xffff
             else va - ImageBase pe)) r.
Proof.
  intros H. unfold snippet_branch, bind, lift. rewrite H. reflexivity.
Qed.

Lemma list_rva_boundary (base : Z) :
  list_rva (base + 0x20000) base = 0x20000
  /\ list_rva (base + 0x20001) base = Z.land (base + 0x20001) 0xffff.
Proof.
  unfold list_rva.
  replace (base + 0x20000 - base) with 0x20000 by lia.
  replace (base + 0x20001 - base) with 0x20001 by lia.
  split; reflexivity.
Qed.

(** The [$snippet3] branch passes the difference up to 0x20000; beyond, it
    leaves [c2_list_rva] unbound and the translator is never called. *)
Lemma snippet3_branch_rva (pe : PE) (data : bytes) (a va : Z) (r : reporter) :
  struct_unpack fmt_i (py_slice data (a + 2) (a + 6)) = Ok va ->
  (va - ImageBase pe <= 0x20000 ->
   snippet3_branch pe data a r = decode_c2_list pe data (Some (va - ImageBase pe)) r)
  /\ (0x20000 < va - ImageBase pe ->
      snippet3_branch pe data a r = (r, Raise (NameError "PEFormatError"))).
Proof.
  intros H. unfold snippet3_branch, bind, lift, snippet3_rva. rewrite H. split; intros Hd.
  - destruct (va - ImageBase pe >? 0x20000) eqn:E; [|reflexivity].
    apply Z.gtb_lt in E. lia.
  - destruct (va - ImageBase pe >? 0x20000) eqn:E.
    + now apply decode_c2_list_unmapped.
    + rewrite Z.gtb_ltb in E. apply Z.ltb_ge in E. lia.
Qed.

(** C2, at the failing input.  [sample_snippet3_far] holds a [$snippet3]
    match whose pointer 0x430050 lies more than 0x20000 above the image
    base 0x400000.  The RVA of the claim, [0x430050 & 0xFFFF = 0x50], would
    decode the two records at offset 0x50; the branch instead assigns the
    masked value to [c2_list_va], [c2_list_rva] is unbound when the
    translator is to be called, and the run ends with an exception. *)
Theorem snippet3_far_pointer :
  yara_scan Samples.sample_snippet3_far "$snippet3" = Some 0
  /\ struct_unpack fmt_i (py_slice Samples.sample_snippet3_far (0 + 2) (0 + 6))
     = Ok 0x430050
  /\ 0x20000 < 0x430050 - Samples.base
  /\ Z.land 0x430050 0xffff = 0x50
  /\ decode_c2_list (Samples.image 100) Samples.sample_snippet3_far (Some 0x50) []
     = ([address "4.3.2.1:8080"; address "1.0.0.10:50000"], Ok tt)
  /\ run (Reference.flat_image Samples.base) Reference.der_sequence
       Samples.sample_snippet3_far []
     = ([], Raise (NameError "PEFormatError")).
Proof.
  repeat split; vm_compute; reflexivity.
Qed.

(** ** The obfuscated key *)

Lemma lxor_cancel (key k : Z) : Z.lxor key (Z.lxor key k) = k.
Proof. now rewrite <- Z.lxor_assoc, Z.lxor_nilpotent, Z.lxor_0_l. Qed.

Lemma report_der_key_pair (der : bytes -> option (list Z)) (blob : bytes)
  (n e : Z) (rest : list Z) (r : reporter) :
  der blob = Some (n :: e :: rest) ->
  report_der_key der blob r
  = (r ++ [other_RSA_public_key {| modulus := n; exponent := e |}], Ok tt).
Proof.
  intros H. unfold report_der_key, bind, lift, der_key, der_decode.
  rewrite H. reflexivity.
Qed.

(** The layout of the obfuscated key at the offset [len pre]: key, key xor
    length, masked blob.  [ref_rsa_at] hands the plaintext blob to the DER
    decoder. *)
Lemma ref_rsa_at_layout (der : bytes -> option (list Z)) (pre keyb sizeb blob post : bytes)
  (key : Z) (r : reporter) :
  struct_pack_ltI key = Ok keyb ->
  struct_pack_ltI (Z.lxor key (len blob)) = Ok sizeb ->
  ref_rsa_at der (pre ++ keyb ++ sizeb ++ xor_mask blob keyb ++ post) (len pre) r
  = report_der_key der blob r.
Proof.
  intros Hk Hs.
  apply struct_pack_ltI_inv in Hk. destruct Hk as [Lk [Dk _]].
  apply struct_pack_ltI_inv in Hs. destruct Hs as [Ls [Ds _]].
  set (data := pre ++ keyb ++ sizeb ++ xor_mask blob keyb ++ post).
  assert (Ek : py_slice data (len pre) (len pre + 4) = keyb).
  { apply py_slice_app; [reflexivity|]. unfold len. rewrite Lk. reflexivity. }
  assert (Es : py_slice data (len pre + 4) (len pre + 8) = sizeb).
  { unfold data. rewrite app_assoc. apply py_slice_app.
    - rewrite len_app. unfold len. rewrite Lk. reflexivity.
    - unfold len. rewrite Ls. lia. }
  rewrite ref_rsa_at_eq by (rewrite ?Ek, ?Es; assumption).
  rewrite Ek, Es, Dk, Ds, lxor_cancel.
  assert (Eb : py_slice data (len pre + 8) (len pre + 8 + len blob) = xor_mask blob keyb).
  { unfold data. rewrite (app_assoc keyb), (app_assoc pre). apply py_slice_app.
    - rewrite !len_app. unfold len. rewrite Lk, Ls. lia.
    - unfold len, xor_mask. rewrite xor_mask_from_length. reflexivity. }
  rewrite Eb. unfold xor_mask. rewrite xor_mask_from_involutive. reflexivity.
Qed.

(** C5.  The buffer holds, at the file offset the [$ref_rsa] pointer
    resolves to, the little-endian key, then key xor K, then a DER blob of
    length K masked byte by byte with the key's little-endian bytes (byte
    [i] with key byte [i mod 4]).  When the blob encodes the sequence
    (modulus, exponent), the obfuscated-key procedure reports exactly that
    pair, and nothing else. *)
Theorem obfuscation_round_trip (der : bytes -> option (list Z))
  (scan : bytes -> string -> option Z) (pe : PE)
  (pre keyb sizeb blob post : bytes) (key a va n e : Z) (r : reporter) :
  let data := pre ++ keyb ++ sizeb ++ xor_mask blob keyb ++ post in
  scan data "$ref_rsa" = Some a ->
  struct_unpack fmt_i (py_slice data (a + 28) (a + 32)) = Ok va ->
  get_offset_from_rva pe (va - ImageBase pe) = Some (len pre) ->
  struct_pack_ltI key = Ok keyb ->
  struct_pack_ltI (Z.lxor key (len blob)) = Ok sizeb ->
  der blob = Some [n; e] ->
  obfuscated_key der scan pe data r
  = (r ++ [other_RSA_public_key {| modulus := n; exponent := e |}], Ok tt).
Proof.
  intros data Hscan Hva Hoff Hk Hs Hder.
  unfold obfuscated_key. rewrite Hscan.
  unfold bind at 1. unfold lift at 1. rewrite Hva.
  unfold pe_offset. rewrite Hoff.
  unfold data. rewrite (ref_rsa_at_layout der pre keyb sizeb blob post key r Hk Hs).
  exact (report_der_key_pair der blob n e [] r Hder).
Qed.

Lemma obfuscation_round_trip_witness :
  let pre := firstn 40 Samples.sample_ref_rsa_key in
  let keyb := [x34; x12; x00; x00] in
  let sizeb := [x3f; x12; x00; x00] in
  Samples.sample_ref_rsa_key
  = pre ++ keyb ++ sizeb ++ xor_mask Samples.sample_der keyb ++ []
  /\ yara_scan Samples.sample_ref_rsa_key "$ref_rsa" = Some 0
  /\ Reference.der_sequence Samples.sample_der = Some [3233; 65537]
  /\ obfuscated_key Reference.der_sequence yara_scan (Samples.image 59)
       Samples.sample_ref_rsa_key []
     = ([other_RSA_public_key {| modulus := 3233; exponent := 65537 |}], Ok tt).
Proof.
  intros pre keyb sizeb.
  assert (E : Samples.sample_ref_rsa_key
              = pre ++ keyb ++ sizeb ++ xor_mask Samples.sample_der keyb ++ [])
    by (vm_compute; reflexivity).
  split; [exact E|]. split; [vm_compute; reflexivity|].
  split; [vm_compute; reflexivity|].
  rewrite E.
  apply (obfuscation_round_trip Reference.der_sequence yara_scan (Samples.image 59)
           pre keyb sizeb Samples.sample_der [] 0x1234 0 0x400028 3233 65537 []);
    vm_compute; reflexivity.
Defined.

Lemma slice_index_range (n i : Z) : 0 <= n -> 0 <= slice_index n i <= n.
Proof.
  intros Hn. unfold slice_index.
  destruct (i <? 0) eqn:E; [apply Z.ltb_lt in E | apply Z.ltb_ge in E]; lia.
Qed.

(** A slice whose upper index is at or past the end is the tail from the
    normalised lower index. *)
Lemma py_slice_to_end {A : Type} (s : list A) (a b : Z) :
  len s <= b -> py_slice s a b = skipn (Z.to_nat (slice_index (len s) a)) s.
Proof.
  intros Hb. pose proof (len_nonneg s) as Hn.
  pose proof (slice_index_range (len s) a Hn) as Ha.
  unfold py_slice.
  assert (Eh : slice_index (len s) b = len s).
  { unfold slice_index. destruct (b <? 0) eqn:Eb; [apply Z.ltb_lt in Eb|]; lia. }
  rewrite Eh. apply firstn_all2. rewrite length_skipn. unfold len in *. lia.
Qed.

Lemma py_slice_len {A : Type} (s : list A) (a b : Z) :
  len (py_slice s a b) = Z.max 0 (slice_index (len s) b - slice_index (len s) a).
Proof.
  pose proof (len_nonneg s) as Hn.
  pose proof (slice_index_range (len s) a Hn) as Ha.
  pose proof (slice_index_range (len s) b Hn) as Hb.
  unfold py_slice. unfold len at 1. rewrite length_firstn, length_skipn.
  unfold len in *. lia.
Qed.

(** What lines 270-272 do with a blob, in terms of the decoder's answer. *)
Lemma report_der_key_eq (der : bytes -> option (list Z)) (blob : bytes) (r : reporter) :
  report_der_key der blob r
  = match der blob with
    | Some (n :: e :: _) =>
        (r ++ [other_RSA_public_key {| modulus := n; exponent := e |}], Ok tt)
    | Some _ => (r, Raise IndexError)
    | None => (r, Raise ValueError)
    end.
Proof.
  unfold report_der_key, bind, lift, der_key, der_decode.
  destruct (der blob) as [[|n [|e rest]]|]; reflexivity.
Qed.

(** C10.  The two fields of the obfuscated key are read as unsigned 32-bit
    little-endian integers, so their XOR, [xorsize], is never negative.
    When [ref_rsa_offset + 8 + xorsize] lies past the end of the buffer, the
    blob slice is the tail of the buffer, shorter than [xorsize]; no
    exception comes of it, and the DER decoder is run on the unmasked
    shorter slice: the outcome of the attempt is the key the decoder reads
    from that slice, or the exception of a slice it rejects or that holds
    fewer than two items. *)
Theorem xorsize_and_truncation (der : bytes -> option (list Z)) (data : bytes)
  (off key v : Z) (r : reporter) :
  struct_unpack fmt_ltI (py_slice data off (off + 4)) = Ok key ->
  struct_unpack fmt_ltI (py_slice data (off + 4) (off + 8)) = Ok v ->
  0 <= Z.lxor key v
  /\ (len data < off + 8 + Z.lxor key v ->
      let blob := py_slice data (off + 8) (off + 8 + Z.lxor key v) in
      blob = skipn (Z.to_nat (slice_index (len data) (off + 8))) data
      /\ len blob < Z.lxor key v
      /\ ref_rsa_at der data off r
         = match der (xor_mask blob (py_slice data off (off + 4))) with
           | Some (n :: e :: _) =>
               (r ++ [other_RSA_public_key {| modulus := n; exponent := e |}], Ok tt)
           | Some _ => (r, Raise IndexError)
           | None => (r, Raise ValueError)
           end).
Proof.
  intros Hk Hv.
  pose proof (struct_unpack_Ok _ _ _ Hk) as Lk.
  pose proof (struct_unpack_Ok _ _ _ Hv) as Lv.
  change (calcsize fmt_ltI) with 4%nat in Lk, Lv.
  rewrite struct_unpack_unsigned in Hk by (reflexivity || assumption).
  rewrite struct_unpack_unsigned in Hv by (reflexivity || assumption).
  injection Hk as Hk. injection Hv as Hv.
  assert (Hx : 0 <= Z.lxor key v).
  { apply Z.lxor_nonneg. subst key v.
    split; intros _; apply le_decode_nonneg. }
  split; [exact Hx|]. intros Hlen blob.
  split; [apply py_slice_to_end; lia|]. split.
  - unfold blob. rewrite py_slice_len.
    pose proof (len_nonneg data) as Hn.
    assert (L4 : len (py_slice data (off + 4) (off + 8)) = 4)
      by (unfold len; rewrite Lv; reflexivity).
    rewrite py_slice_len in L4. revert L4.
    unfold slice_index.
    destruct (off + 4 <? 0) eqn:E4; destruct (off + 8 <? 0) eqn:E8;
      destruct (off + 8 + Z.lxor key v <? 0) eqn:Ex;
      try apply Z.ltb_lt in E4; try apply Z.ltb_ge in E4;
      try apply Z.ltb_lt in E8; try apply Z.ltb_ge in E8;
      try apply Z.ltb_lt in Ex; try apply Z.ltb_ge in Ex; lia.
  - rewrite ref_rsa_at_eq by assumption. subst key v.
    apply report_der_key_eq.
Qed.

Lemma xorsize_and_truncation_witness :
  (struct_unpack fmt_ltI (py_slice Samples.sample_ref_rsa_short 40 (40 + 4)) = Ok 0x1234
   /\ struct_unpack fmt_ltI (py_slice Samples.sample_ref_rsa_short (40 + 4) (40 + 8))
      = Ok 0x1250
   /\ len Samples.sample_ref_rsa_short < 40 + 8 + Z.lxor 0x1234 0x1250
   /\ py_slice Samples.sample_ref_rsa_short (40 + 8) (40 + 8 + Z.lxor 0x1234 0x1250)
      = [x04; x1b; x02]
   /\ Reference.der_sequence [x30; x09; x02] = None
   /\ ref_rsa_at Reference.der_sequence Samples.sample_ref_rsa_short 40 []
      = ([], Raise ValueError))
  /\ (struct_unpack fmt_ltI (py_slice Samples.sample_ref_rsa_long 40 (40 + 4)) = Ok 0x1234
      /\ struct_unpack fmt_ltI (py_slice Samples.sample_ref_rsa_long (40 + 4) (40 + 8))
         = Ok 0x1250
      /\ len Samples.sample_ref_rsa_long < 40 + 8 + Z.lxor 0x1234 0x1250
      /\ py_slice Samples.sample_ref_rsa_long (40 + 8) (40 + 8 + Z.lxor 0x1234 0x1250)
         = Samples.sample_masked
      /\ Reference.der_sequence Samples.sample_der = Some [3233; 65537]
      /\ ref_rsa_at Reference.der_sequence Samples.sample_ref_rsa_long 40 []
         = ([other_RSA_public_key {| modulus := 3233; exponent := 65537 |}], Ok tt)).
Proof.
  assert (Hk : struct_unpack fmt_ltI (py_slice Samples.sample_ref_rsa_short 40 (40 + 4))
               = Ok 0x1234) by (vm_compute; reflexivity).
  assert (Hv : struct_unpack fmt_ltI
                 (py_slice Samples.sample_ref_rsa_short (40 + 4) (40 + 8))
               = Ok 0x1250) by (vm_compute; reflexivity).
  assert (Hl : len Samples.sample_ref_rsa_short < 40 + 8 + Z.lxor 0x1234 0x1250)
    by (vm_compute; reflexivity).
  assert (Hk' : struct_unpack fmt_ltI (py_slice Samples.sample_ref_rsa_long 40 (40 + 4))
                = Ok 0x1234) by (vm_compute; reflexivity).
  assert (Hv' : struct_unpack fmt_ltI
                  (py_slice Samples.sample_ref_rsa_long (40 + 4) (40 + 8))
                = Ok 0x1250) by (vm_compute; reflexivity).
  assert (Hl' : len Samples.sample_ref_rsa_long < 40 + 8 + Z.lxor 0x1234 0x1250)
    by (vm_compute; reflexivity).
  split.
  - split; [exact Hk|]. split; [exact Hv|]. split; [exact Hl|].
    split; [vm_compute; reflexivity|]. split; [vm_compute; reflexivity|].
    destruct (xorsize_and_truncation Reference.der_sequence Samples.sample_ref_rsa_short
                40 0x1234 0x1250 [] Hk Hv) as [_ H].
    destruct (H Hl) as [_ [_ H3]].
    rewrite H3. vm_compute. reflexivity.
  - split; [exact Hk'|]. split; [exact Hv'|]. split; [exact Hl'|].
    split; [vm_compute; reflexivity|]. split; [vm_compute; reflexivity|].
    destruct (xorsize_and_truncation Reference.der_sequence Samples.sample_ref_rsa_long
                40 0x1234 0x1250 [] Hk' Hv') as [_ H].
    destruct (H Hl') as [_ [_ H3]].
    rewrite H3. vm_compute. reflexivity.
Defined.

(** ** Untranslatable pointers *)

(** C8, refuted as stated.  [sample_snippet3_unmapped] holds a [$snippet3]
    match whose pointer no section maps, and a [$snippet4] match whose
    branch, taken alone, decodes two endpoints.  The run does not advance
    to [$snippet4]: it reports nothing and ends with the exception raised
    while the handler's class name is looked up. *)
Lemma unmapped_variant_stops_dispatch :
  yara_scan Samples.sample_snippet3_unmapped "$snippet3" = Some 0
  /\ struct_unpack fmt_i (py_slice Samples.sample_snippet3_unmapped (0 + 2) (0 + 6))
     = Ok 0x401000
  /\ get_offset_from_rva (Samples.image 140) (0x401000 - Samples.base) = None
  /\ yara_scan Samples.sample_snippet3_unmapped "$snippet4" = Some 42
  /\ snippet_branch 8 (Samples.image 140) Samples.sample_snippet3_unmapped 42 []
     = ([address "4.3.2.1:8080"; address "1.0.0.10:50000"], Ok tt)
  /\ run (Reference.flat_image Samples.base) Reference.der_sequence
       Samples.sample_snippet3_unmapped []
     = ([], Raise (NameError "PEFormatError")).
Proof.
  repeat split; vm_compute; reflexivity.
Qed.

Lemma fst_decode_c2_list_unmapped (pe : PE) (data : bytes) (rva : Z) (r : reporter) :
  get_offset_from_rva pe rva = None ->
  fst (decode_c2_list pe data (Some rva) r) = r.
Proof.
  intros H. now rewrite (decode_c2_list_unmapped pe data (Some rva) r H).
Qed.

(** C8, amended.  A list-discovery variant whose signature is found and
    whose pointer does not translate reports no endpoint, and dispatch does
    not advance: the run is the run in which no other list signature is
    visible.  A pointer of the RefRSA attempt that does not translate ends
    that attempt only: the run returns normally, with what the list
    discovery reported and no obfuscated key. *)
Theorem unmapped_pointer
  (pefile_PE : bytes -> option PE) (der : bytes -> option (list Z))
  (scan : bytes -> string -> option Z) (pe : PE) (data : bytes) :
  (forall id, first_found scan data = Some id ->
     forall r, run_with pefile_PE der scan data r
               = run_with pefile_PE der (only id scan) data r)
  /\ (forall a va r,
        struct_unpack fmt_i (py_slice data (a + 2) (a + 6)) = Ok va ->
        va - ImageBase pe <= 0x20000 ->
        get_offset_from_rva pe (va - ImageBase pe) = None ->
        fst (snippet3_branch pe data a r) = r)
  /\ (forall d a va r,
        struct_unpack fmt_i (py_slice data (a + d) (a + d + 4)) = Ok va ->
        get_offset_from_rva pe (list_rva va (ImageBase pe)) = None ->
        fst (snippet_branch d pe data a r) = r)
  /\ (forall a hb va r,
        struct_unpack fmt_b (py_slice data (a + 29) (a + 30)) = Ok hb ->
        let d := if hb =? 0 then 26 else 27 in
        struct_unpack fmt_i (py_slice data (a + d) (a + d + 4)) = Ok va ->
        get_offset_from_rva pe (list_rva va (ImageBase pe)) = None ->
        fst (snippet7_branch pe data a r) = r)
  /\ (forall a va r r',
        scan data "$ref_rsa" = Some a ->
        struct_unpack fmt_i (py_slice data (a + 28) (a + 32)) = Ok va ->
        get_offset_from_rva pe (va - ImageBase pe) = None ->
        obfuscated_key der scan pe data r = (r, Ok tt)
        /\ (fallback_lists scan pe data r = (r', Ok tt) ->
            run_fallbacks der scan pe data None r = (r', Ok tt))).
Proof.
  split; [intros id Hid; now apply run_with_first_found|].
  split.
  { intros a va r Hva Hle Hoff.
    destruct (snippet3_branch_rva pe data a va r Hva) as [H _].
    rewrite (H Hle). now apply fst_decode_c2_list_unmapped. }
  split.
  { intros d a va r Hva Hoff. unfold snippet_branch, bind, lift. rewrite Hva.
    now apply fst_decode_c2_list_unmapped. }
  split.
  { intros a hb va r Hhb d Hva Hoff.
    unfold snippet7_branch. unfold bind at 1. unfold lift at 1. rewrite Hhb.
    change (26 + 1) with 27. fold d.
    unfold snippet_branch, bind, lift. rewrite Hva.
    now apply fst_decode_c2_list_unmapped. }
  intros a va r r' Hscan Hva Hoff.
  assert (Hkey : forall r0, obfuscated_key der scan pe data r0 = (r0, Ok tt)).
  { intros r0. unfold obfuscated_key. rewrite Hscan.
    unfold bind, lift. rewrite Hva. unfold pe_offset. rewrite Hoff. reflexivity. }
  split; [apply Hkey|].
  intros Hl. unfold run_fallbacks. unfold bind at 1. rewrite Hl. apply Hkey.
Qed.

Lemma unmapped_pointer_witness :
  (first_found yara_scan Samples.sample_snippet3_unmapped = Some "$snippet3"
   /\ run_with (Reference.flat_image Samples.base) Reference.der_sequence yara_scan
        Samples.sample_snippet3_unmapped []
      = run_with (Reference.flat_image Samples.base) Reference.der_sequence
          (only "$snippet3" yara_scan) Samples.sample_snippet3_unmapped [])
  /\ (struct_unpack fmt_i (py_slice Samples.sample_snippet3_unmapped (0 + 2) (0 + 6))
      = Ok 0x401000
      /\ fst (snippet3_branch (Samples.image 140) Samples.sample_snippet3_unmapped 0 []) = [])
  /\ (struct_unpack fmt_i (py_slice Samples.sample_snippet4 (0 + 8) (0 + 8 + 4))
      = Ok 0x400050
      /\ fst (snippet_branch 8 (Samples.image 64) Samples.sample_snippet4 0 []) = [])
  /\ (yara_scan Samples.sample_ref_rsa_unmapped "$ref_rsa" = Some 0
      /\ struct_unpack fmt_i (py_slice Samples.sample_ref_rsa_unmapped (0 + 28) (0 + 32))
         = Ok 0x401000
      /\ fallback_lists yara_scan (Samples.image 39) Samples.sample_ref_rsa_unmapped []
         = ([], Ok tt)
      /\ run_fallbacks Reference.der_sequence yara_scan (Samples.image 39)
           Samples.sample_ref_rsa_unmapped None []
         = ([], Ok tt)).
Proof.
  assert (H3 : first_found yara_scan Samples.sample_snippet3_unmapped = Some "$snippet3")
    by (vm_compute; reflexivity).
  assert (V3 : struct_unpack fmt_i (py_slice Samples.sample_snippet3_unmapped (0 + 2) (0 + 6))
               = Ok 0x401000) by (vm_compute; reflexivity).
  assert (V4 : struct_unpack fmt_i (py_slice Samples.sample_snippet4 (0 + 8) (0 + 8 + 4))
               = Ok 0x400050) by (vm_compute; reflexivity).
  assert (SR : yara_scan Samples.sample_ref_rsa_unmapped "$ref_rsa" = Some 0)
    by (vm_compute; reflexivity).
  assert (VR : struct_unpack fmt_i (py_slice Samples.sample_ref_rsa_unmapped (0 + 28) (0 + 32))
               = Ok 0x401000) by (vm_compute; reflexivity).
  assert (FL : fallback_lists yara_scan (Samples.image 39) Samples.sample_ref_rsa_unmapped []
               = ([], Ok tt)) by (vm_compute; reflexivity).
  split.
  { split; [exact H3|].
    exact (proj1 (unmapped_pointer (Reference.flat_image Samples.base)
                    Reference.der_sequence yara_scan (Samples.image 140)
                    Samples.sample_snippet3_unmapped) "$snippet3" H3 []). }
  split.
  { split; [exact V3|].
    apply (proj1 (proj2 (unmapped_pointer (Reference.flat_image Samples.base)
                           Reference.der_sequence yara_scan (Samples.image 140)
                           Samples.sample_snippet3_unmapped)) 0 0x401000 [] V3);
      vm_compute; [discriminate | reflexivity]. }
  split.
  { split; [exact V4|].
    apply (proj1 (proj2 (proj2 (unmapped_pointer (Reference.flat_image Samples.base)
                                  Reference.der_sequence yara_scan (Samples.image 64)
                                  Samples.sample_snippet4))) 8 0 0x400050 [] V4).
    vm_compute. reflexivity. }
  split; [exact SR|]. split; [exact VR|]. split; [exact FL|].
  apply (proj2 (proj2 (proj2 (proj2 (unmapped_pointer (Reference.flat_image Samples.base)
                                       Reference.der_sequence yara_scan (Samples.image 39)
                                       Samples.sample_ref_rsa_unmapped))))
           0 0x401000 [] [] SR VR); [vm_compute; reflexivity | exact FL].
Defined.

(** ** Which failures the run absorbs *)

(** The plain-key step is outside any [try]: what [extract_emotet_rsakey]
    raises is the outcome of the run. *)
Lemma run_with_key_raises
  (pefile_PE : bytes -> option PE) (der : bytes -> option (list Z))
  (scan : bytes -> string -> option Z) (data : bytes) (pe : PE) (e : exn)
  (r : reporter) :
  pefile_PE data = Some pe ->
  extract_emotet_rsakey der data = Raise e ->
  run_with pefile_PE der scan data r = (r, Raise e).
Proof.
  intros Hpe He. unfold run_with.
  unfold bind at 1. unfold lift at 1. rewrite Hpe.
  unfold bind at 1. unfold lift at 1. now rewrite He.
Qed.

(** C1, refuted as stated.  [sample_plain_key_empty] holds the key pattern
    around an empty SEQUENCE: whatever the reader does with the buffer, the
    run ends with an exception, the reader's or the one raised when the
    key is built.  In [sample_ref_rsa_empty] the two fields of the
    obfuscated key are equal, [xorsize] is 0 and the blob is empty; the DER
    decoder rejects it and its exception leaves [run]. *)
Lemma der_failure_leaves_run :
  (forall pefile_PE : bytes -> option PE,
      exists e, run pefile_PE Reference.der_sequence Samples.sample_plain_key_empty []
                = ([], Raise e))
  /\ yara_scan Samples.sample_ref_rsa_empty "$ref_rsa" = Some 0
  /\ get_offset_from_rva (Samples.image 48) (0x400028 - Samples.base) = Some 40
  /\ struct_unpack fmt_ltI (py_slice Samples.sample_ref_rsa_empty 40 44) = Ok 0x1234
  /\ struct_unpack fmt_ltI (py_slice Samples.sample_ref_rsa_empty 44 48) = Ok 0x1234
  /\ Z.lxor 0x1234 0x1234 = 0
  /\ Reference.der_sequence [] = None
  /\ run (Reference.flat_image Samples.base) Reference.der_sequence
       Samples.sample_ref_rsa_empty []
     = ([], Raise ValueError).
Proof.
  split; [|repeat split; vm_compute; reflexivity].
  intros pefile_PE. unfold run.
  destruct (pefile_PE Samples.sample_plain_key_empty) as [pe|] eqn:Hpe.
  - exists IndexError. apply (run_with_key_raises _ _ _ _ pe); [exact Hpe|].
    vm_compute. reflexivity.
  - exists PEFormatError. now apply run_with_rejected.
Qed.

Lemma report_der_key_rejected (der : bytes -> option (list Z)) (blob : bytes)
  (r : reporter) :
  der blob = None -> report_der_key der blob r = (r, Raise ValueError).
Proof.
  intros H. unfold report_der_key, bind, lift, der_key, der_decode.
  rewrite H. reflexivity.
Qed.

(** C1, amended.  The run always ends, with a normal return or an
    exception.  When the reader rejects the buffer, its exception is the
    outcome of the run.  When the reader yields a PE object and neither the
    key pattern nor any signature is found, the run returns normally with
    nothing reported.  A bounds violation on the address read of a
    fall-back record loop ends the loop without an exception, and a RefRSA
    pointer that does not translate ends the key attempt without an
    exception.  A failure to decode a key is not absorbed: when the key
    pattern is found and its first 106 bytes do not decode, the exception
    is the outcome of the run; and a blob of the obfuscated key that the
    DER decoder rejects makes the decoder's exception the outcome of the
    attempt, with the reporter as it was. *)
Theorem absorbed_failures
  (pefile_PE : bytes -> option PE) (der : bytes -> option (list Z))
  (scan : bytes -> string -> option Z) (pe : PE) (data : bytes) (r : reporter) :
  snd (run_with pefile_PE der scan data r) <> OutOfFuel
  /\ (pefile_PE data = None ->
      run_with pefile_PE der scan data r = (r, Raise PEFormatError))
  /\ (pefile_PE data = Some pe -> pub_first_match data = None ->
      nothing_found scan data ->
      run_with pefile_PE der scan data r = (r, Ok tt))
  /\ (forall fuel off e,
        struct_unpack fmt_ltI (py_slice data off (off + 4)) = Raise e ->
        snippet_loop (S fuel) data (Some off) r = (r, Ok tt))
  /\ (forall a va,
        scan data "$ref_rsa" = Some a ->
        struct_unpack fmt_i (py_slice data (a + 28) (a + 32)) = Ok va ->
        get_offset_from_rva pe (va - ImageBase pe) = None ->
        obfuscated_key der scan pe data r = (r, Ok tt))
  /\ (forall m e,
        pefile_PE data = Some pe ->
        pub_first_match data = Some m ->
        der_key der (py_slice m 0 106) = Raise e ->
        run_with pefile_PE der scan data r = (r, Raise e))
  /\ (forall off key v,
        struct_unpack fmt_ltI (py_slice data off (off + 4)) = Ok key ->
        struct_unpack fmt_ltI (py_slice data (off + 4) (off + 8)) = Ok v ->
        der (xor_mask (py_slice data (off + 8) (off + 8 + Z.lxor key v))
               (py_slice data off (off + 4))) = None ->
        ref_rsa_at der data off r = (r, Raise ValueError)).
Proof.
  split; [apply run_with_answers|].
  split; [now apply run_with_rejected|].
  split; [intros Hpe Hpub Hno; now apply (run_with_nothing_found _ _ _ _ pe)|].
  split.
  { intros fuel off e He. cbn [snippet_loop load_fast obind]. rewrite He. reflexivity. }
  split.
  { intros a va Hscan Hva Hoff. unfold obfuscated_key. rewrite Hscan.
    unfold bind, lift. rewrite Hva. unfold pe_offset. rewrite Hoff. reflexivity. }
  split.
  { intros m e Hpe Hm He. apply (run_with_key_raises _ _ _ _ pe); [exact Hpe|].
    unfold extract_emotet_rsakey. now rewrite Hm, He. }
  intros off key v Hk Hv Hder.
  pose proof (struct_unpack_Ok _ _ _ Hk) as Lk.
  pose proof (struct_unpack_Ok _ _ _ Hv) as Lv.
  change (calcsize fmt_ltI) with 4%nat in Lk, Lv.
  rewrite struct_unpack_unsigned in Hk by (reflexivity || assumption).
  rewrite struct_unpack_unsigned in Hv by (reflexivity || assumption).
  injection Hk as Hk. injection Hv as Hv.
  rewrite ref_rsa_at_eq by assumption. rewrite Hk, Hv.
  now apply report_der_key_rejected.
Qed.

Lemma absorbed_failures_witness :
  (Reference.dos_image Samples.base [x4d; x5a; x90; x00] = None
   /\ run_with (Reference.dos_image Samples.base) Reference.der_sequence yara_scan
        [x4d; x5a; x90; x00] []
      = ([], Raise PEFormatError))
  /\ (Reference.dos_image Samples.base Samples.sample_dos_header
      = Some (Samples.image 64)
      /\ nothing_found yara_scan Samples.sample_dos_header
      /\ run_with (Reference.dos_image Samples.base) Reference.der_sequence yara_scan
           Samples.sample_dos_header []
         = ([], Ok tt))
  /\ (struct_unpack fmt_ltI (py_slice Samples.sample_snippet4 98 (98 + 4))
      = Raise struct_error
      /\ snippet_loop 1 Samples.sample_snippet4 (Some 98) [] = ([], Ok tt))
  /\ (yara_scan Samples.sample_ref_rsa_unmapped "$ref_rsa" = Some 0
      /\ obfuscated_key Reference.der_sequence yara_scan (Samples.image 39)
           Samples.sample_ref_rsa_unmapped []
         = ([], Ok tt))
  /\ (pub_first_match (Samples.sample_dos_header ++ Samples.sample_plain_key_empty)
      = Some Samples.sample_plain_key_empty
      /\ der_key Reference.der_sequence (py_slice Samples.sample_plain_key_empty 0 106)
         = Raise IndexError
      /\ run_with (Reference.dos_image Samples.base) Reference.der_sequence yara_scan
           (Samples.sample_dos_header ++ Samples.sample_plain_key_empty) []
         = ([], Raise IndexError))
  /\ (struct_unpack fmt_ltI (py_slice Samples.sample_ref_rsa_empty 40 (40 + 4)) = Ok 0x1234
      /\ ref_rsa_at Reference.der_sequence Samples.sample_ref_rsa_empty 40 []
         = ([], Raise ValueError)).
Proof.
  assert (Hno : nothing_found yara_scan Samples.sample_dos_header).
  { intros name Hin. cbn in Hin.
    repeat (destruct Hin as [<- | Hin]; [vm_compute; reflexivity|]).
    contradiction. }
  assert (He : struct_unpack fmt_ltI (py_slice Samples.sample_snippet4 98 (98 + 4))
               = Raise struct_error) by (vm_compute; reflexivity).
  assert (SR : yara_scan Samples.sample_ref_rsa_unmapped "$ref_rsa" = Some 0)
    by (vm_compute; reflexivity).
  assert (Hm : pub_first_match (Samples.sample_dos_header ++ Samples.sample_plain_key_empty)
               = Some Samples.sample_plain_key_empty) by (vm_compute; reflexivity).
  assert (Hd : der_key Reference.der_sequence
                 (py_slice Samples.sample_plain_key_empty 0 106) = Raise IndexError)
    by (vm_compute; reflexivity).
  assert (Hk : struct_unpack fmt_ltI (py_slice Samples.sample_ref_rsa_empty 40 (40 + 4))
               = Ok 0x1234) by (vm_compute; reflexivity).
  split.
  { split; [reflexivity|].
    apply (proj1 (proj2 (absorbed_failures (Reference.dos_image Samples.base)
                           Reference.der_sequence yara_scan
                           (Samples.image 4) [x4d; x5a; x90; x00] []))).
    reflexivity. }
  split.
  { split; [reflexivity|]. split; [exact Hno|].
    apply (proj1 (proj2 (proj2 (absorbed_failures (Reference.dos_image Samples.base)
                                  Reference.der_sequence yara_scan
                                  (Samples.image 64) Samples.sample_dos_header []))));
      [reflexivity | vm_compute; reflexivity | exact Hno]. }
  split.
  { split; [exact He|].
    exact (proj1 (proj2 (proj2 (proj2 (absorbed_failures
                                         (Reference.flat_image Samples.base)
                                         Reference.der_sequence yara_scan
                                         (Samples.image 100)
                                         Samples.sample_snippet4 []))))
             0%nat 98 struct_error He). }
  split.
  { split; [exact SR|].
    apply (proj1 (proj2 (proj2 (proj2 (proj2 (absorbed_failures
                                         (Reference.flat_image Samples.base)
                                         Reference.der_sequence yara_scan (Samples.image 39)
                                         Samples.sample_ref_rsa_unmapped [])))))
             0 0x401000 SR); vm_compute; reflexivity. }
  split.
  { split; [exact Hm|]. split; [exact Hd|].
    exact (proj1 (proj2 (proj2 (proj2 (proj2 (proj2 (absorbed_failures
                                         (Reference.dos_image Samples.base)
                                         Reference.der_sequence yara_scan
                                         (Samples.image 172)
                                         (Samples.sample_dos_header
                                            ++ Samples.sample_plain_key_empty) []))))))
             Samples.sample_plain_key_empty IndexError eq_refl Hm Hd). }
  split; [exact Hk|].
  apply (proj2 (proj2 (proj2 (proj2 (proj2 (proj2 (absorbed_failures
                                       (Reference.flat_image Samples.base)
                                       Reference.der_sequence yara_scan (Samples.image 48)
                                       Samples.sample_ref_rsa_empty []))))))
           40 0x1234 0x1234 Hk); vm_compute; reflexivity.
Defined.

(** * Further properties of the code *)

(** ** [xor_data] with any key *)

Lemma xor_data_from_round_trip (key : bytes) :
  key <> [] ->
  forall (data : bytes) (i : nat),
    exists out,
      xor_data_from i data key = Ok out
      /\ length out = length data
      /\ xor_data_from i out key = Ok data.
Proof.
  intros Hkey. destruct key as [|k0 key']; [contradiction|].
  induction data as [|d rest IH]; intros i.
  - exists []. repeat split.
  - destruct (IH (S i)) as [out [Hout [Hlen Hback]]].
    assert (Hi : (i mod length (k0 :: key') < length (k0 :: key'))%nat)
      by (apply Nat.mod_upper_bound; discriminate).
    destruct (nth_error (k0 :: key') (i mod length (k0 :: key'))) as [k|] eqn:Ek;
      [|apply nth_error_None in Ek; lia].
    exists (byte_of_Z (Z.lxor (ord d) (ord k)) :: out).
    assert (Hd : byte_of_Z (Z.lxor (ord (byte_of_Z (Z.lxor (ord d) (ord k)))) (ord k)) = d).
    { rewrite ord_byte_of_Z.
      rewrite Z.mod_small by (apply lxor_byte_range; apply ord_range).
      rewrite Z.lxor_assoc, Z.lxor_nilpotent, Z.lxor_0_r. apply byte_of_Z_ord. }
    split; [|split].
    + cbn [xor_data_from]. change (length (k0 :: key')) with (S (length key')) in *.
      unfold getitem. rewrite Ek. cbn [obind]. rewrite chr_lxor. cbn [obind].
      rewrite Hout. reflexivity.
    + cbn [length]. now rewrite Hlen.
    + cbn [xor_data_from]. change (length (k0 :: key')) with (S (length key')) in *.
      unfold getitem. rewrite Ek. cbn [obind]. rewrite chr_lxor. cbn [obind].
      rewrite Hback, Hd. reflexivity.
Qed.

(** X1.  With a key that is not empty, [xor_data] never raises, keeps the
    length of the data, and undoes itself: applied to its own output with
    the same key it gives the data back. *)
Theorem xor_data_round_trip (data key : bytes) :
  key <> [] ->
  exists out,
    xor_data data key = Ok out
    /\ length out = length data
    /\ xor_data out key = Ok data.
Proof.
  intros Hkey. unfold xor_data. now apply xor_data_from_round_trip.
Qed.

Lemma xor_data_round_trip_witness :
  [x6b; x65; x79] <> []
  /\ exists out,
       xor_data Samples.sample_der [x6b; x65; x79] = Ok out
       /\ length out = length Samples.sample_der
       /\ xor_data out [x6b; x65; x79] = Ok Samples.sample_der.
Proof.
  split; [discriminate|].
  apply (xor_data_round_trip Samples.sample_der [x6b; x65; x79]). discriminate.
Defined.

(** ** [yara_scan] *)

(** The offsets [match_offsets] lists, from [i] on: exactly the places where
    the hex string matches, in ascending order. *)
Lemma match_offsets_spec (p : hex_string) (s : bytes) :
  forall (i off : Z),
    In off (match_offsets p s i)
    <-> exists k : nat,
          off = i + Z.of_nat k /\ (k < length s)%nat
          /\ match_here p (skipn k s) = true.
Proof.
  induction s as [|c s IH]; intros i off.
  - cbn [match_offsets In length]. split; [contradiction|].
    intros [k [_ [Hk _]]]. lia.
  - cbn [match_offsets]. rewrite in_app_iff, IH. split.
    + intros [H | [k [-> [Hk Hm]]]].
      * destruct (match_here p (c :: s)) eqn:E; [|contradiction].
        destruct H as [<- | []]. exists 0%nat. cbn [skipn length].
        split; [lia|]. split; [lia | exact E].
      * exists (S k). cbn [skipn length]. split; [lia|]. split; [lia | exact Hm].
    + intros [[|k] [-> [Hk Hm]]].
      * left. cbn [skipn] in Hm. rewrite Hm. left. lia.
      * right. exists k. cbn [skipn length] in Hm, Hk.
        split; [lia|]. split; [lia | exact Hm].
Qed.

Lemma match_offsets_head (p : hex_string) (s : bytes) :
  forall (i off : Z) (rest : list Z),
    match_offsets p s i = off :: rest ->
    exists k : nat,
      off = i + Z.of_nat k /\ (k < length s)%nat
      /\ match_here p (skipn k s) = true
      /\ forall j : nat, (j < k)%nat -> match_here p (skipn j s) = false.
Proof.
  induction s as [|c s IH]; intros i off rest H; [discriminate|].
  cbn [match_offsets] in H.
  destruct (match_here p (c :: s)) eqn:E.
  - cbn [app] in H. injection H as <- _. exists 0%nat. cbn [skipn length].
    split; [lia|]. split; [lia|]. split; [exact E|]. intros j Hj. lia.
  - cbn [app] in H. destruct (IH _ _ _ H) as [k [-> [Hk [Hm Hmin]]]].
    exists (S k). cbn [skipn length]. split; [lia|]. split; [lia|].
    split; [exact Hm|]. intros [|j] Hj; [exact E|].
    cbn [skipn]. apply Hmin. lia.
Qed.

(** The first item of [match.strings] with a given identifier is the
    lowest match of a string of that identifier. *)
Lemma find_match_item (offs : hex_string -> list Z) (name : string)
  (rules : list (string * hex_string)) (item : Z * string) :
  find (fun it => String.eqb (snd it) name)
       (flat_map (fun '(id, p) => map (fun o => (o, id)) (offs p)) rules)
  = Some item ->
  exists p rest, In (name, p) rules /\ offs p = fst item :: rest.
Proof.
  induction rules as [|[id p] rules IH]; [discriminate|].
  cbn [flat_map]. intros H.
  assert (Hcases :
            (exists rest, id = name /\ offs p = fst item :: rest)
            \/ find (fun it => String.eqb (snd it) name)
                 (flat_map (fun '(id, p) => map (fun o => (o, id)) (offs p)) rules)
               = Some item).
  { revert H. generalize (offs p) as l. intros l.
    destruct (String.eqb id name) eqn:E.
    - destruct l as [|o l]; cbn [map app find snd]; [intros H; now right|].
      rewrite E. intros H. injection H as <-. left. exists l.
      apply String.eqb_eq in E. split; [exact E | reflexivity].
    - intros H. right. revert H.
      induction l as [|o l IHl]; cbn [map app find snd]; [trivial|].
      rewrite E. exact IHl. }
  destruct Hcases as [[rest [-> Hp]] | Hrest].
  - exists p, rest. split; [now left | exact Hp].
  - destruct (IH Hrest) as [p' [rest [Hin Hp]]].
    exists p', rest. split; [now right | exact Hp].
Qed.

Lemma yara_scan_first (data : bytes) (name : string) (off : Z) :
  yara_scan data name = Some off ->
  exists p,
    In (name, p) rule_strings
    /\ 0 <= off < len data
    /\ match_here p (skipn (Z.to_nat off) data) = true
    /\ forall j : nat, (j < Z.to_nat off)%nat -> match_here p (skipn j data) = false.
Proof.
  unfold yara_scan, yara_match.
  destruct (rule_condition data); [|discriminate].
  destruct (find (fun item => String.eqb (snd item) name) (match_strings data))
    as [item|] eqn:E; [|discriminate].
  intros H. injection H as <-.
  apply (find_match_item (fun p => match_offsets p data 0)) in E.
  destruct E as [p [rest [Hin Hoffs]]].
  apply match_offsets_head in Hoffs. destruct Hoffs as [k [Hk [Hlt [Hm Hmin]]]].
  exists p. split; [exact Hin|]. rewrite Hk. cbn [Z.add].
  rewrite Nat2Z.id. unfold len. split; [lia|]. split; [exact Hm | exact Hmin].
Qed.

(** X3.  When [yara_scan] answers, the offset it returns lies inside the
    buffer, a string of the rule with the asked identifier matches there,
    and it matches at no lower offset. *)
Theorem yara_scan_lowest_match (data : bytes) (name : string) (off : Z) :
  yara_scan data name = Some off ->
  exists p,
    In (name, p) rule_strings
    /\ 0 <= off < len data
    /\ match_here p (skipn (Z.to_nat off) data) = true
    /\ forall j : nat, (j < Z.to_nat off)%nat -> match_here p (skipn j data) = false.
Proof. exact (yara_scan_first data name off). Qed.

Lemma yara_scan_lowest_match_witness :
  yara_scan Samples.sample_snippet3_unmapped "$snippet4" = Some 42
  /\ exists p,
       In ("$snippet4", p) rule_strings
       /\ 0 <= 42 < len Samples.sample_snippet3_unmapped
       /\ match_here p (skipn (Z.to_nat 42) Samples.sample_snippet3_unmapped) = true
       /\ forall j : nat, (j < Z.to_nat 42)%nat ->
            match_here p (skipn j Samples.sample_snippet3_unmapped) = false.
Proof.
  assert (H : yara_scan Samples.sample_snippet3_unmapped "$snippet4" = Some 42)
    by (vm_compute; reflexivity).
  split; [exact H|].
  exact (yara_scan_lowest_match Samples.sample_snippet3_unmapped "$snippet4" 42 H).
Defined.

(** The signatures the parser asks [yara_scan] for, with their strings. *)
Lemma asked_strings (name : string) (p : hex_string) :
  In name ["$snippet3"; "$snippet4"; "$snippet5"; "$snippet6"; "$snippet7"; "$ref_rsa"] ->
  In (name, p) rule_strings ->
  In (name, p) [("$snippet3", snippet3); ("$snippet4", snippet4); ("$snippet5", snippet5);
                ("$snippet6", snippet6); ("$snippet7", snippet7); ("$ref_rsa", ref_rsa)]
  /\ (39 <= min_length p)%nat.
Proof.
  intros Hname Hin. cbn [rule_strings In] in Hin. cbn [In] in Hname.
  repeat (destruct Hin as [Hin | Hin];
          [injection Hin as <- <-;
           repeat (destruct Hname as [Hname | Hname]; try discriminate Hname);
           try contradiction;
           (split; [cbn [In]; tauto | vm_compute; repeat constructor]) |]).
  contradiction.
Qed.

(** X4.  A signature the parser asks for is found whenever its string
    matches somewhere in the buffer: the MZ test of the rule's condition
    guards only the pair [$snippet1], [$snippet2]. *)
Theorem asked_signature_found (data : bytes) (name : string) (p : hex_string) :
  In (name, p) [("$snippet3", snippet3); ("$snippet4", snippet4); ("$snippet5", snippet5);
                ("$snippet6", snippet6); ("$snippet7", snippet7); ("$ref_rsa", ref_rsa)] ->
  present p data = true ->
  exists off, yara_scan data name = Some off.
Proof.
  intros Hin Hp.
  assert (Hcond : rule_condition data = true).
  { unfold rule_condition. cbn [In] in Hin.
    repeat (destruct Hin as [Hin | Hin];
            [injection Hin as <- <-; rewrite Hp;
             rewrite ?orb_true_r, ?orb_true_l; reflexivity |]).
    contradiction. }
  assert (Hrule : In (name, p) rule_strings).
  { cbn [In] in Hin. cbn [rule_strings In]. tauto. }
  unfold present in Hp.
  destruct (match_offsets p data 0) as [|o rest] eqn:Eo; [discriminate|].
  unfold yara_scan, yara_match. rewrite Hcond.
  destruct (find (fun item => String.eqb (snd item) name) (match_strings data))
    as [item|] eqn:E; [now exists (fst item)|].
  exfalso.
  assert (Hitem : In (o, name) (match_strings data)).
  { unfold match_strings. apply in_flat_map. exists (name, p).
    split; [exact Hrule|]. rewrite Eo. now left. }
  pose proof (find_none _ _ E _ Hitem) as Hn. cbn [snd] in Hn.
  rewrite String.eqb_refl in Hn. discriminate.
Qed.

Lemma asked_signature_found_witness :
  present ref_rsa Samples.sample_ref_rsa_key = true
  /\ exists off, yara_scan Samples.sample_ref_rsa_key "$ref_rsa" = Some off.
Proof.
  assert (H : present ref_rsa Samples.sample_ref_rsa_key = true)
    by (vm_compute; reflexivity).
  split; [exact H|].
  apply (asked_signature_found _ "$ref_rsa" ref_rsa); [cbn [In]; tauto | exact H].
Defined.

Lemma struct_unpack_inside (f : struct_fmt) (data : bytes) (lo : Z) :
  0 <= lo -> lo + Z.of_nat (calcsize f) <= len data ->
  exists v, struct_unpack f (py_slice data lo (lo + Z.of_nat (calcsize f))) = Ok v.
Proof.
  intros Hlo Hhi.
  assert (L : length (py_slice data lo (lo + Z.of_nat (calcsize f))) = calcsize f).
  { rewrite py_slice_inside by lia.
    rewrite length_firstn, length_skipn. unfold len in Hhi. lia. }
  unfold struct_unpack. rewrite L, Nat.eqb_refl. eexists. reflexivity.
Qed.

(** X5.  After a signature is found, the reads at the variant's fixed
    distances from the match lie inside the matched bytes: the pointer of
    each list variant and of [$ref_rsa] is read without struct.error, and
    so is the byte at distance 29 that selects the [$snippet7] delta. *)
Theorem pointer_read_in_bounds (data : bytes) (name : string) (d a : Z) :
  In (name, d) [("$snippet3", 2); ("$snippet4", 8); ("$snippet5", 5); ("$snippet6", 15);
                ("$snippet7", 26); ("$snippet7", 27); ("$ref_rsa", 28)] ->
  yara_scan data name = Some a ->
  (exists va, struct_unpack fmt_i (py_slice data (a + d) (a + d + 4)) = Ok va)
  /\ (exists hb, struct_unpack fmt_b (py_slice data (a + 29) (a + 30)) = Ok hb).
Proof.
  intros Hd Hscan.
  destruct (yara_scan_first data name a Hscan) as [p [Hin [Ha [Hm _]]]].
  assert (Hname : In name ["$snippet3"; "$snippet4"; "$snippet5"; "$snippet6";
                           "$snippet7"; "$ref_rsa"]).
  { cbn [In] in Hd. cbn [In].
    repeat (destruct Hd as [Hd | Hd]; [injection Hd as <- _; tauto|]).
    contradiction. }
  destruct (asked_strings name p Hname Hin) as [_ Hmin].
  apply match_here_min_length in Hm. rewrite length_skipn in Hm.
  assert (Hlen : a + 39 <= len data) by (unfold len; lia).
  assert (Hd' : 0 <= d <= 28).
  { cbn [In] in Hd.
    repeat (destruct Hd as [Hd | Hd]; [injection Hd as _ <-; lia|]).
    contradiction. }
  split.
  - apply (struct_unpack_inside fmt_i data (a + d)); cbn [calcsize]; lia.
  - replace (a + 30) with (a + 29 + Z.of_nat (calcsize fmt_b)) by (cbn [calcsize]; lia).
    apply struct_unpack_inside; cbn [calcsize]; lia.
Qed.

Lemma pointer_read_in_bounds_witness :
  yara_scan Samples.sample_snippet3_unmapped "$snippet4" = Some 42
  /\ (exists va, struct_unpack fmt_i
                   (py_slice Samples.sample_snippet3_unmapped (42 + 8) (42 + 8 + 4)) = Ok va)
  /\ (exists hb, struct_unpack fmt_b
                   (py_slice Samples.sample_snippet3_unmapped (42 + 29) (42 + 30)) = Ok hb).
Proof.
  assert (H : yara_scan Samples.sample_snippet3_unmapped "$snippet4" = Some 42)
    by (vm_compute; reflexivity).
  split; [exact H|].
  apply (pointer_read_in_bounds Samples.sample_snippet3_unmapped "$snippet4" 8 42);
    [cbn [In]; tauto | exact H].
Defined.

(** ** The record loops at the end of the buffer *)

(** An address read by ['<I'] is rendered without failure, and the text is
    not empty. *)
Lemma render_address (s : bytes) (ip : Z) :
  struct_unpack fmt_ltI s = Ok ip ->
  exists c2_address,
    (let? packed := struct_pack_netL ip in inet_ntoa packed) = Ok c2_address
    /\ truthy c2_address = true.
Proof.
  intros H. pose proof (struct_unpack_Ok _ _ _ H) as L.
  change (calcsize fmt_ltI) with 4%nat in L.
  rewrite struct_unpack_unsigned in H by (reflexivity || assumption).
  injection H as <-.
  unfold struct_pack_netL. rewrite (le_decode_uint32 s L). cbn [obind inet_ntoa].
  eexists. split; [reflexivity|]. apply truthy_append, truthy_str.
Qed.

(** X6.  In a fall-back loop, a record whose address field is read and is
    not zero, and whose port field is read, is always reported, and the
    loop goes on 8 bytes further: the [else: break] arm of the loop is
    never taken. *)
Theorem fallback_loop_never_breaks_on_text (data : bytes) (off ip port : Z)
  (fuel : nat) (r : reporter) :
  struct_unpack fmt_ltI (py_slice data off (off + 4)) = Ok ip ->
  ip <> 0 ->
  struct_unpack fmt_H (py_slice data (off + 4) (off + 6)) = Ok port ->
  exists c2_address,
    (let? packed := struct_pack_netL ip in inet_ntoa packed) = Ok c2_address
    /\ snippet_loop (S fuel) data (Some off) r
       = snippet_loop fuel data (Some (off + 8))
           (r ++ [address (c2_address ++ ":" ++ str port)]).
Proof.
  intros Hip Hnz Hport.
  destruct (render_address _ _ Hip) as [c2_address [Hr Ht]].
  exists c2_address. split; [exact Hr|].
  cbn [snippet_loop load_fast obind]. rewrite Hip. cbn [obind].
  destruct (ip =? 0) eqn:E; [apply Z.eqb_eq in E; contradiction|].
  unfold render_record.
  destruct (struct_pack_netL ip) as [packed| |]; try discriminate.
  cbn [obind] in Hr |- *. unfold bind at 1. unfold lift at 1.
  rewrite Hr, Hport. cbn [obind]. rewrite Ht, truthy_str. reflexivity.
Qed.

Lemma fallback_loop_never_breaks_on_text_witness :
  struct_unpack fmt_ltI (py_slice Samples.sample_snippet4 80 (80 + 4)) = Ok 0x04030201
  /\ 0x04030201 <> 0
  /\ struct_unpack fmt_H (py_slice Samples.sample_snippet4 (80 + 4) (80 + 6)) = Ok 8080
  /\ exists c2_address,
       (let? packed := struct_pack_netL 0x04030201 in inet_ntoa packed) = Ok c2_address
       /\ snippet_loop 3 Samples.sample_snippet4 (Some 80) []
          = snippet_loop 2 Samples.sample_snippet4 (Some (80 + 8))
              ([] ++ [address (c2_address ++ ":" ++ str 8080)]).
Proof.
  assert (H1 : struct_unpack fmt_ltI (py_slice Samples.sample_snippet4 80 (80 + 4))
               = Ok 0x04030201) by (vm_compute; reflexivity).
  assert (H2 : struct_unpack fmt_H (py_slice Samples.sample_snippet4 (80 + 4) (80 + 6))
               = Ok 8080) by (vm_compute; reflexivity).
  split; [exact H1|]. split; [discriminate|]. split; [exact H2|].
  apply (fallback_loop_never_breaks_on_text Samples.sample_snippet4 80 0x04030201 8080
           2%nat [] H1); [discriminate | exact H2].
Defined.

(** The fall-back loop on a list cut between the address and the port of a
    record. *)
Lemma snippet_loop_cut (records : list c2_record) :
  Forall well_formed records ->
  forall (pre addr rest : bytes) (r : reporter) (fuel : nat),
    length addr = 4%nat -> le_decode addr <> 0 -> (length rest < 2)%nat ->
    (length records < fuel)%nat ->
    snippet_loop fuel (pre ++ flat_map record_bytes records ++ addr ++ rest)
      (Some (len pre)) r
    = (r ++ map (endpoint false) records, Raise struct_error).
Proof.
  induction 1 as [|rc records Hwf _ IH]; intros pre addr rest r fuel La Hnz Lr Hfuel.
  - destruct fuel as [|fuel]; [cbn in Hfuel; lia|].
    cbn [flat_map app map snippet_loop load_fast obind]. rewrite app_nil_r.
    rewrite (py_slice_app pre addr rest)
      by (try reflexivity; unfold len; rewrite La; reflexivity).
    rewrite struct_unpack_unsigned by (reflexivity || assumption). cbn [obind].
    destruct (le_decode addr =? 0) eqn:E; [apply Z.eqb_eq in E; contradiction|].
    unfold render_record, struct_pack_netL. rewrite (le_decode_uint32 addr La).
    cbn [obind inet_ntoa].
    rewrite struct_unpack_short; [reflexivity|].
    rewrite py_slice_truncated.
    + replace (len pre + 4) with (len (pre ++ addr))
        by (rewrite len_app; unfold len; rewrite La; reflexivity).
      rewrite app_assoc. unfold len.
      rewrite Nat2Z.id, skipn_app, skipn_all, Nat.sub_diag.
      cbn [skipn app calcsize]. lia.
    + pose proof (len_nonneg pre). lia.
    + rewrite !len_app. unfold len. rewrite La. lia.
  - destruct fuel as [|fuel]; [cbn in Hfuel; lia|].
    cbn [flat_map map snippet_loop load_fast obind].
    rewrite <- app_assoc.
    destruct (record_fields pre (flat_map record_bytes records ++ addr ++ rest) rc)
      as [Ha _].
    rewrite Ha.
    rewrite struct_unpack_unsigned by reflexivity. cbn [obind].
    fold (address_value rc).
    destruct (address_value rc =? 0) eqn:E; [apply Z.eqb_eq in E; contradiction|].
    mstep. rewrite render_record_at by reflexivity.
    cbn [fmt_signed]. rewrite endpoint_truthy.
    replace (len pre + 8) with (len (pre ++ record_bytes rc))
      by (rewrite len_app; reflexivity).
    rewrite (app_assoc pre (record_bytes rc)).
    rewrite IH by (auto; cbn in Hfuel; lia).
    rewrite <- app_assoc. reflexivity.
Qed.

(** X7.  The port read of a fall-back loop is outside the [try]: when the
    buffer ends inside a record, after its non-zero address field and
    before the end of its port field, the records before it are reported
    and struct.error leaves the loop. *)
Theorem fallback_list_cut_in_record (pe : PE) (records : list c2_record)
  (pre addr rest : bytes) (rva : Z) (r : reporter) :
  Forall well_formed records ->
  get_offset_from_rva pe rva = Some (len pre) ->
  length addr = 4%nat -> le_decode addr <> 0 -> (length rest < 2)%nat ->
  decode_c2_list pe (pre ++ flat_map record_bytes records ++ addr ++ rest) (Some rva) r
  = (r ++ map (endpoint false) records, Raise struct_error).
Proof.
  intros Hwf Hoff La Hnz Lr.
  rewrite (decode_c2_list_mapped pe _ rva (len pre) r Hoff).
  apply snippet_loop_cut; try assumption. apply loop_fuel_enough.
Qed.

Lemma fallback_list_cut_in_record_witness :
  Forall well_formed [Samples.record1]
  /\ get_offset_from_rva (Samples.image 93) 80 = Some 80
  /\ decode_c2_list (Samples.image 93) (firstn 93 Samples.sample_snippet4) (Some 80) []
     = ([address "4.3.2.1:8080"], Raise struct_error).
Proof.
  assert (Hwf : Forall well_formed [Samples.record1]).
  { constructor; [vm_compute; discriminate | constructor]. }
  split; [exact Hwf|]. split; [reflexivity|].
  exact (fallback_list_cut_in_record (Samples.image 93) [Samples.record1]
           (firstn 80 Samples.sample_snippet4) [x0a; x00; x00; x01] [x50] 80 []
           Hwf eq_refl eq_refl ltac:(vm_compute; discriminate) ltac:(cbn; lia)).
Defined.

(** X8.  The address read of the [$c2list] loop is not guarded: a list
    that runs to the end of the buffer, with fewer than four bytes after
    its last record, has its records reported and then ends the branch
    with struct.error, where a fall-back loop would end normally. *)
Theorem c2list_unterminated (records : list c2_record) (pre tail : bytes)
  (r : reporter) :
  Forall well_formed records ->
  (length tail < 4)%nat ->
  c2list_branch (pre ++ flat_map record_bytes records ++ tail) (len pre) r
  = (r ++ map (endpoint true) records, Raise struct_error).
Proof.
  intros Hwf Hshort. unfold c2list_branch.
  pose proof (c2list_loop_records records Hwf pre tail r
                (loop_fuel (pre ++ flat_map record_bytes records ++ tail) (len pre))
                (or_introl Hshort) (loop_fuel_enough pre tail records)) as H.
  cbv zeta in H. rewrite H.
  apply Nat.ltb_lt in Hshort. rewrite Hshort. reflexivity.
Qed.

Lemma c2list_unterminated_witness :
  Forall well_formed [Samples.record1; Samples.record2]
  /\ (length [x00; x00] < 4)%nat
  /\ c2list_branch (firstn 98 Samples.sample_snippet4) 80 []
     = ([address "4.3.2.1:8080"; address "1.0.0.10:-15536"], Raise struct_error).
Proof.
  assert (Hwf : Forall well_formed [Samples.record1; Samples.record2]).
  { repeat constructor; vm_compute; discriminate. }
  split; [exact Hwf|]. split; [cbn; lia|].
  exact (c2list_unterminated [Samples.record1; Samples.record2]
           (firstn 80 Samples.sample_snippet4) [x00; x00] [] Hwf ltac:(cbn; lia)).
Defined.

(** ** What the run adds to the reporter *)

Lemma keys_app (a b : reporter) : keys (a ++ b) = keys a ++ keys b.
Proof. unfold keys. apply flat_map_app. Qed.

Lemma endpoints_app (a b : reporter) : endpoints (a ++ b) = endpoints a ++ endpoints b.
Proof. unfold endpoints. apply flat_map_app. Qed.

Lemma appends_ret {A : Type} (P : reporter -> Prop) (a : A) :
  P [] -> appends P (ret a).
Proof. intros H r. exists []. cbn [ret fst]. now rewrite app_nil_r. Qed.

Lemma appends_lift {A : Type} (P : reporter -> Prop) (c : outcome A) :
  P [] -> appends P (lift c).
Proof. intros H r. exists []. cbn [lift fst]. now rewrite app_nil_r. Qed.

Lemma appends_add_metadata (P : reporter -> Prop) (m : metadata) :
  P [m] -> appends P (add_metadata m).
Proof. intros H r. exists [m]. split; [reflexivity | exact H]. Qed.

Lemma appends_bind {A B : Type} (P Q R : reporter -> Prop) (c : M A) (k : A -> M B) :
  appends P c -> (forall x, appends Q (k x)) ->
  (forall a, P a -> R a) -> (forall a b, P a -> Q b -> R (a ++ b)) ->
  appends R (bind c k).
Proof.
  intros Hc Hk Hw Happ r. unfold bind.
  destruct (Hc r) as [a [Ea Pa]].
  destruct (c r) as [r1 [x|e|]]; cbn [fst] in Ea; subst r1.
  - destruct (Hk x (r ++ a)) as [b [Eb Qb]].
    exists (a ++ b). rewrite Eb, app_assoc. split; [reflexivity | now apply Happ].
  - exists a. split; [reflexivity | now apply Hw].
  - exists a. split; [reflexivity | now apply Hw].
Qed.

Lemma appends_seq {A B : Type} (P : reporter -> Prop) (c : M A) (k : A -> M B) :
  (forall a b, P a -> P b -> P (a ++ b)) ->
  appends P c -> (forall x, appends P (k x)) -> appends P (bind c k).
Proof.
  intros Happ Hc Hk. apply (appends_bind P P P); auto.
Qed.

Lemma only_endpoints_app (a b : reporter) :
  only_endpoints a -> only_endpoints b -> only_endpoints (a ++ b).
Proof. unfold only_endpoints. intros Ha Hb. now rewrite keys_app, Ha, Hb. Qed.

Lemma snippet_loop_appends (data : bytes) :
  forall (fuel : nat) (off : option Z),
    appends only_endpoints (snippet_loop fuel data off).
Proof.
  induction fuel as [|fuel IH]; intros off; [now apply appends_lift|].
  cbn [snippet_loop].
  destruct (let? o := load_fast "c2_list_offset" off in
            let? ip := struct_unpack fmt_ltI (py_slice data o (o + 4)) in
            Ok (o, ip)) as [[o ip]| e |];
    [|now apply appends_ret | now apply appends_lift].
  destruct (ip =? 0); [now apply appends_ret|].
  apply appends_seq; [apply only_endpoints_app | now apply appends_lift|].
  intros [c2_address port].
  destruct (truthy c2_address && truthy port); [|now apply appends_ret].
  apply appends_seq; [apply only_endpoints_app | now apply appends_add_metadata|].
  intros _. apply IH.
Qed.

Lemma c2list_loop_appends (data : bytes) :
  forall (fuel : nat) (off ip : Z),
    appends only_endpoints (c2list_loop fuel data off ip).
Proof.
  induction fuel as [|fuel IH]; intros off ip; [now apply appends_lift|].
  cbn [c2list_loop].
  destruct (ip =? 0); [now apply appends_ret|].
  apply appends_seq; [apply only_endpoints_app | now apply appends_lift|].
  intros [c2_address port].
  apply appends_seq; [apply only_endpoints_app | |].
  { destruct (truthy c2_address && truthy port);
      [now apply appends_add_metadata | now apply appends_ret]. }
  intros _.
  apply appends_seq; [apply only_endpoints_app | now apply appends_lift|].
  intros ip'. apply IH.
Qed.

Lemma c2list_branch_appends (data : bytes) (off : Z) :
  appends only_endpoints (c2list_branch data off).
Proof.
  unfold c2list_branch.
  apply appends_seq; [apply only_endpoints_app | now apply appends_lift|].
  intros ip. apply c2list_loop_appends.
Qed.

Lemma decode_c2_list_appends (pe : PE) (data : bytes) (c2_list_rva : option Z) :
  appends only_endpoints (decode_c2_list pe data c2_list_rva).
Proof.
  intros r.
  assert (Hraise : exists added,
             fst (r, @Raise unit (NameError "PEFormatError")) = r ++ added
             /\ only_endpoints added).
  { exists []. cbn [fst]. now rewrite app_nil_r. }
  destruct c2_list_rva as [rva|].
  - destruct (get_offset_from_rva pe rva) as [off|] eqn:E.
    + rewrite (decode_c2_list_mapped pe data rva off r E).
      apply snippet_loop_appends.
    + rewrite decode_c2_list_unmapped by exact E. exact Hraise.
  - rewrite decode_c2_list_unmapped by exact I. exact Hraise.
Qed.

Lemma snippet_branch_appends (d : Z) (pe : PE) (data : bytes) (a : Z) :
  appends only_endpoints (snippet_branch d pe data a).
Proof.
  apply appends_seq; [apply only_endpoints_app | now apply appends_lift|].
  intros va. apply decode_c2_list_appends.
Qed.

Lemma fallback_lists_appends (scan : bytes -> string -> option Z) (pe : PE)
  (data : bytes) : appends only_endpoints (fallback_lists scan pe data).
Proof.
  unfold fallback_lists.
  destruct (scan data "$snippet3").
  { apply appends_seq; [apply only_endpoints_app | now apply appends_lift|].
    intros va. apply decode_c2_list_appends. }
  destruct (scan data "$snippet4"); [apply snippet_branch_appends|].
  destruct (scan data "$snippet5"); [apply snippet_branch_appends|].
  destruct (scan data "$snippet6"); [apply snippet_branch_appends|].
  destruct (scan data "$snippet7"); [|now apply appends_ret].
  apply appends_seq; [apply only_endpoints_app | now apply appends_lift|].
  intros hb. apply snippet_branch_appends.
Qed.

Lemma at_most_one_key_nil : at_most_one_key [].
Proof. split; [reflexivity | cbn; lia]. Qed.

Lemma report_der_key_appends (der : bytes -> option (list Z)) (blob : bytes) :
  appends at_most_one_key (report_der_key der blob).
Proof.
  unfold report_der_key.
  apply (appends_bind (fun a => a = []) at_most_one_key at_most_one_key).
  - now apply appends_lift.
  - intros k. apply appends_add_metadata. split; [reflexivity | cbn; lia].
  - intros a ->. apply at_most_one_key_nil.
  - intros a b -> Hb. exact Hb.
Qed.

Lemma obfuscated_key_appends (der : bytes -> option (list Z))
  (scan : bytes -> string -> option Z) (pe : PE) (data : bytes) :
  appends at_most_one_key (obfuscated_key der scan pe data).
Proof.
  assert (Hstep : forall (A : Type) (c : outcome A) (k : A -> M unit),
             (forall x, appends at_most_one_key (k x)) ->
             appends at_most_one_key (bind (lift c) k)).
  { intros A c k Hk.
    apply (appends_bind (fun a => a = []) at_most_one_key at_most_one_key).
    - now apply appends_lift.
    - exact Hk.
    - intros a ->. apply at_most_one_key_nil.
    - intros a b -> Hb. exact Hb. }
  unfold obfuscated_key.
  destruct (scan data "$ref_rsa") as [a|];
    [|apply appends_ret, at_most_one_key_nil].
  apply Hstep. intros va.
  destruct (pe_offset pe (va - ImageBase pe)) as [off| |];
    try (apply appends_ret, at_most_one_key_nil).
  unfold ref_rsa_at.
  apply Hstep. intros key. apply Hstep. intros v.
  apply Hstep. intros packed. apply Hstep. intros rsa_key.
  apply report_der_key_appends.
Qed.

(** X9.  List discovery adds nothing but endpoints to the reporter, and the
    obfuscated-key attempt adds no endpoint and at most one key; both only
    append, whatever their outcome. *)
Theorem discovery_and_key_attempt_append
  (der : bytes -> option (list Z)) (scan : bytes -> string -> option Z)
  (pe : PE) (data : bytes) :
  appends only_endpoints (fallback_lists scan pe data)
  /\ (forall off, appends only_endpoints (c2list_branch data off))
  /\ appends at_most_one_key (obfuscated_key der scan pe data).
Proof.
  split; [apply fallback_lists_appends|].
  split; [intros off; apply c2list_branch_appends | apply obfuscated_key_appends].
Qed.

(** X10.  Whatever the buffer and however the run ends, [run] only appends
    to the reporter, and what it appends holds at most one RSA key. *)
Theorem run_reports_at_most_one_key
  (pefile_PE : bytes -> option PE) (der : bytes -> option (list Z))
  (scan : bytes -> string -> option Z) (data : bytes) :
  appends (fun added => (length (keys added) <= 1)%nat)
    (run_with pefile_PE der scan data).
Proof.
  set (P0 := fun a : reporter => a = []).
  set (P1 := fun a : reporter => (length (keys a) <= 1)%nat).
  assert (H0 : forall (A : Type) (c : outcome A) (k : A -> M unit),
             (forall x, appends P1 (k x)) -> appends P1 (bind (lift c) k)).
  { intros A c k Hk. apply (appends_bind P0 P1 P1).
    - now apply appends_lift.
    - exact Hk.
    - intros a ->. unfold P1. cbn. lia.
    - intros a b -> Hb. exact Hb. }
  assert (Hlists : forall pe, appends only_endpoints (fallback_lists scan pe data))
    by (intros pe; apply fallback_lists_appends).
  unfold run_with. apply H0. intros pe. apply H0. intros [k|].
  - apply (appends_bind (fun a => keys a = [k]) only_endpoints P1).
    + apply appends_add_metadata. reflexivity.
    + intros _. destruct (scan data "$c2list") as [off|];
        [apply c2list_branch_appends|].
      unfold run_fallbacks.
      apply appends_seq; [apply only_endpoints_app | apply Hlists|].
      intros _. now apply appends_ret.
    + intros a Ha. unfold P1. rewrite Ha. cbn. lia.
    + intros a b Ha Hb. unfold P1. rewrite keys_app, Ha, Hb. cbn. lia.
  - apply (appends_bind P0 P1 P1).
    + now apply appends_ret.
    + intros _. destruct (scan data "$c2list") as [off|].
      { intros r. destruct (c2list_branch_appends data off r) as [a [Ea Ha]].
        exists a. split; [exact Ea|]. unfold P1. rewrite Ha. cbn. lia. }
      unfold run_fallbacks.
      apply (appends_bind only_endpoints at_most_one_key P1).
      * apply Hlists.
      * intros _. apply obfuscated_key_appends.
      * intros a Ha. unfold P1. rewrite Ha. cbn. lia.
      * intros a b Ha [_ Hb]. unfold P1. rewrite keys_app, Ha. cbn [app].
        unfold keys. destruct b as [|m [|m' b]]; cbn in Hb |- *; try lia.
        destruct m; cbn; lia.
    + intros a ->. unfold P1. cbn. lia.
    + intros a b -> Hb. exact Hb.
Qed.

(** ** The plain key *)

Lemma yara_scan_c2list (data : bytes) : yara_scan data "$c2list" = None.
Proof.
  destruct (yara_scan data "$c2list") as [off|] eqn:E; [|reflexivity].
  exfalso. apply yara_scan_found in E. destruct E as [p [Hin _]].
  apply rule_identifiers in Hin. cbn [In] in Hin.
  repeat destruct Hin as [Hin|Hin]; try discriminate. exact Hin.
Qed.

(** X11.  When the key pattern is found and decoded, the key is reported
    first and the run is the list discovery after it: the obfuscated-key
    attempt is skipped, whether or not [$ref_rsa] is found. *)
Theorem plain_key_first (pefile_PE : bytes -> option PE)
  (der : bytes -> option (list Z)) (data : bytes) (pe : PE) (k : RSAKey)
  (r : reporter) :
  pefile_PE data = Some pe ->
  extract_emotet_rsakey der data = Ok (Some k) ->
  run pefile_PE der data r
  = fallback_lists yara_scan pe data (r ++ [other_RSA_public_key k]).
Proof.
  intros Hpe Hkey. unfold run, run_with.
  unfold bind at 1. unfold lift at 1. rewrite Hpe.
  unfold bind at 1. unfold lift at 1. rewrite Hkey.
  unfold bind at 1. unfold add_metadata at 1.
  rewrite yara_scan_c2list. unfold run_fallbacks, bind, ret.
  destruct (fallback_lists yara_scan pe data (r ++ [other_RSA_public_key k]))
    as [r' [[]|e|]]; reflexivity.
Qed.

Lemma plain_key_first_witness :
  extract_emotet_rsakey Reference.der_sequence Samples.sample_plain_key
  = Ok (Some {| modulus := Samples.sample_modulus; exponent := 65537 |})
  /\ yara_scan Samples.sample_plain_key "$ref_rsa" = Some 108
  /\ run (Reference.flat_image Samples.base) Reference.der_sequence
       Samples.sample_plain_key []
     = ([other_RSA_public_key
           {| modulus := Samples.sample_modulus; exponent := 65537 |}], Ok tt).
Proof.
  assert (Hk : extract_emotet_rsakey Reference.der_sequence Samples.sample_plain_key
               = Ok (Some {| modulus := Samples.sample_modulus; exponent := 65537 |}))
    by (vm_compute; reflexivity).
  split; [exact Hk|]. split; [vm_compute; reflexivity|].
  rewrite (plain_key_first (Reference.flat_image Samples.base) Reference.der_sequence
             Samples.sample_plain_key (Samples.image 167) _ [] eq_refl Hk).
  vm_compute. reflexivity.
Defined.

(** X12.  The decoding of the plain key is not guarded: when the key
    pattern is found and its first 106 bytes do not decode to a sequence
    with two items, the exception leaves [run] before any list discovery,
    with nothing reported. *)
Theorem plain_key_failure (pefile_PE : bytes -> option PE)
  (der : bytes -> option (list Z)) (scan : bytes -> string -> option Z)
  (data m : bytes) (pe : PE) (e : exn) (r : reporter) :
  pefile_PE data = Some pe ->
  pub_first_match data = Some m ->
  der_key der (py_slice m 0 106) = Raise e ->
  run_with pefile_PE der scan data r = (r, Raise e).
Proof.
  intros Hpe Hm He. unfold run_with.
  unfold bind at 1. unfold lift at 1. rewrite Hpe.
  unfold bind at 1. unfold lift at 1.
  unfold extract_emotet_rsakey. rewrite Hm, He. reflexivity.
Qed.

Lemma plain_key_failure_witness :
  pub_first_match Samples.sample_plain_key_empty = Some Samples.sample_plain_key_empty
  /\ der_key Reference.der_sequence (py_slice Samples.sample_plain_key_empty 0 106)
     = Raise IndexError
  /\ run (Reference.flat_image Samples.base) Reference.der_sequence
       Samples.sample_plain_key_empty []
     = ([], Raise IndexError).
Proof.
  assert (Hm : pub_first_match Samples.sample_plain_key_empty
               = Some Samples.sample_plain_key_empty) by (vm_compute; reflexivity).
  assert (He : der_key Reference.der_sequence
                 (py_slice Samples.sample_plain_key_empty 0 106) = Raise IndexError)
    by (vm_compute; reflexivity).
  split; [exact Hm|]. split; [exact He|].
  exact (plain_key_failure (Reference.flat_image Samples.base) Reference.der_sequence
           yara_scan Samples.sample_plain_key_empty Samples.sample_plain_key_empty
           (Samples.image 108) IndexError [] eq_refl Hm He).
Defined.

(** ** Pointers and RVAs *)

Lemma land_low16 (v : Z) : 0 <= Z.land v 0xffff <= 0xffff.
Proof.
  change 0xffff with (Z.ones 16). rewrite Z.land_ones by lia.
  pose proof (Z.mod_pos_bound v (2 ^ 16) ltac:(lia)) as H.
  change (Z.ones 16) with (2 ^ 16 - 1). lia.
Qed.

(** X13.  The RVA a [$snippet4] .. [$snippet7] branch passes to the
    translator never exceeds 0x20000: it is the difference to the image
    base when that is at most 0x20000, and otherwise it lies between 0 and
    0xffff. *)
Theorem list_rva_bound (va image_base : Z) :
  list_rva va image_base <= 0x20000
  /\ (0x20000 < va - image_base -> 0 <= list_rva va image_base <= 0xffff).
Proof.
  unfold list_rva. pose proof (land_low16 va) as Hl.
  destruct (va - image_base >? 0x20000) eqn:E.
  - split; [lia | intros _; exact Hl].
  - rewrite Z.gtb_ltb in E. apply Z.ltb_ge in E. split; [exact E | lia].
Qed.

Lemma list_rva_bound_witness :
  0x20000 < 0x430050 - Samples.base
  /\ 0 <= list_rva 0x430050 Samples.base <= 0xffff.
Proof.
  assert (H : 0x20000 < 0x430050 - Samples.base) by (vm_compute; reflexivity).
  split; [exact H|].
  exact (proj2 (list_rva_bound 0x430050 Samples.base) H).
Defined.

(** X14.  The pointer is read with ['i'], as a signed integer: a pointer
    field with the top bit set is read as a negative number, so that with
    an image base that is not negative the large-difference arm is not
    taken and the RVA passed to the translator is negative. *)
Theorem high_pointer_negative_rva (d : Z) (pe : PE) (data s : bytes) (a : Z)
  (r : reporter) :
  py_slice data (a + d) (a + d + 4) = s ->
  length s = 4%nat ->
  2 ^ 31 <= le_decode s ->
  0 <= ImageBase pe ->
  struct_unpack fmt_i s = Ok (le_decode s - 2 ^ 32)
  /\ le_decode s - 2 ^ 32 - ImageBase pe < 0
  /\ snippet_branch d pe data a r
     = decode_c2_list pe data (Some (le_decode s - 2 ^ 32 - ImageBase pe)) r.
Proof.
  intros Hs L Hhigh Hbase.
  pose proof (le_decode_bound s) as Hb. rewrite L in Hb.
  change (256 ^ Z.of_nat 4) with (2 ^ 32) in Hb.
  assert (Hu : struct_unpack fmt_i s = Ok (le_decode s - 2 ^ 32)).
  { unfold struct_unpack. rewrite L. cbn [calcsize Nat.eqb fmt_signed].
    unfold to_signed. change (8 * Z.of_nat 4 - 1) with 31.
    change (8 * Z.of_nat 4) with 32.
    destruct (le_decode s <? 2 ^ 31) eqn:E; [apply Z.ltb_lt in E; lia | reflexivity]. }
  split; [exact Hu|]. split; [lia|].
  unfold snippet_branch, bind, lift. rewrite Hs, Hu. unfold list_rva.
  destruct (le_decode s - 2 ^ 32 - ImageBase pe >? 0x20000) eqn:E; [|reflexivity].
  apply Z.gtb_lt in E. lia.
Qed.

Lemma high_pointer_negative_rva_witness :
  let data := repeat x90 8 ++ [x00; x10; x00; x80] in
  py_slice data (0 + 8) (0 + 8 + 4) = [x00; x10; x00; x80]
  /\ 2 ^ 31 <= le_decode [x00; x10; x00; x80]
  /\ struct_unpack fmt_i [x00; x10; x00; x80] = Ok (le_decode [x00; x10; x00; x80] - 2 ^ 32)
  /\ snippet_branch 8 (Samples.image 12) data 0 []
     = decode_c2_list (Samples.image 12) data
         (Some (le_decode [x00; x10; x00; x80] - 2 ^ 32 - Samples.base)) [].
Proof.
  intros data.
  assert (H1 : py_slice data (0 + 8) (0 + 8 + 4) = [x00; x10; x00; x80])
    by reflexivity.
  assert (H2 : 2 ^ 31 <= le_decode [x00; x10; x00; x80]) by (vm_compute; discriminate).
  split; [exact H1|]. split; [exact H2|].
  destruct (high_pointer_negative_rva 8 (Samples.image 12) data
              [x00; x10; x00; x80] 0 [] H1 eq_refl H2 ltac:(vm_compute; discriminate))
    as [Hu [_ Hb]].
  split; [exact Hu | exact Hb].
Defined.

(** ** A list and a key in one buffer *)

(** X15.  A whole run: no plain key pattern, the [$snippet4] signature as
    the first list signature, its pointer resolving to a list of
    well-formed records that ends with a zero address or with the buffer,
    and a [$ref_rsa] signature whose pointer resolves to an obfuscated key
    that decodes.  The run reports the endpoints in file order, then the
    key, and returns normally. *)
Theorem list_then_key (pefile_PE : bytes -> option PE)
  (der : bytes -> option (list Z)) (scan : bytes -> string -> option Z)
  (pe : PE) (data pre tail : bytes) (records : list c2_record)
  (a va b kva koff key v n e : Z) (r : reporter) :
  pefile_PE data = Some pe ->
  pub_first_match data = None ->
  scan data "$c2list" = None ->
  scan data "$snippet3" = None ->
  scan data "$snippet4" = Some a ->
  struct_unpack fmt_i (py_slice data (a + 8) (a + 8 + 4)) = Ok va ->
  get_offset_from_rva pe (list_rva va (ImageBase pe)) = Some (len pre) ->
  data = pre ++ flat_map record_bytes records ++ tail ->
  Forall well_formed records ->
  list_end tail ->
  scan data "$ref_rsa" = Some b ->
  struct_unpack fmt_i (py_slice data (b + 28) (b + 32)) = Ok kva ->
  get_offset_from_rva pe (kva - ImageBase pe) = Some koff ->
  struct_unpack fmt_ltI (py_slice data koff (koff + 4)) = Ok key ->
  struct_unpack fmt_ltI (py_slice data (koff + 4) (koff + 8)) = Ok v ->
  der (xor_mask (py_slice data (koff + 8) (koff + 8 + Z.lxor key v))
         (py_slice data koff (koff + 4))) = Some [n; e] ->
  run_with pefile_PE der scan data r
  = (r ++ map (endpoint false) records
       ++ [other_RSA_public_key {| modulus := n; exponent := e |}], Ok tt).
Proof.
  intros Hpe Hpub Hc2 Hs3 Hs4 Hva Hoff Hdata Hwf Hend Hrsa Hkva Hkoff Hkey Hv Hder.
  assert (Hlist : fallback_lists scan pe data r
                  = (r ++ map (endpoint false) records, Ok tt)).
  { unfold fallback_lists. rewrite Hs3, Hs4.
    unfold snippet_branch, bind, lift. rewrite Hva.
    rewrite (decode_c2_list_mapped pe data _ (len pre) r Hoff).
    rewrite Hdata.
    apply snippet_loop_records; [exact Hwf | exact Hend | apply loop_fuel_enough]. }
  assert (Hobf : forall r0, obfuscated_key der scan pe data r0
                 = (r0 ++ [other_RSA_public_key {| modulus := n; exponent := e |}],
                    Ok tt)).
  { intros r0. unfold obfuscated_key. rewrite Hrsa.
    unfold bind at 1. unfold lift at 1. rewrite Hkva.
    unfold pe_offset. rewrite Hkoff.
    pose proof (struct_unpack_Ok _ _ _ Hkey) as Lk.
    pose proof (struct_unpack_Ok _ _ _ Hv) as Lv.
    change (calcsize fmt_ltI) with 4%nat in Lk, Lv.
    rewrite struct_unpack_unsigned in Hkey by (reflexivity || assumption).
    rewrite struct_unpack_unsigned in Hv by (reflexivity || assumption).
    injection Hkey as Hkey. injection Hv as Hv.
    rewrite ref_rsa_at_eq by assumption. rewrite Hkey, Hv.
    exact (report_der_key_pair der _ n e [] r0 Hder). }
  unfold run_with.
  unfold bind at 1. unfold lift at 1. rewrite Hpe.
  unfold bind at 1. unfold lift at 1.
  unfold extract_emotet_rsakey. rewrite Hpub.
  unfold bind at 1. unfold ret at 1.
  rewrite Hc2. unfold run_fallbacks. unfold bind at 1. rewrite Hlist.
  rewrite Hobf, <- app_assoc. reflexivity.
Qed.

Lemma list_then_key_witness :
  run (Reference.flat_image Samples.base) Reference.der_sequence
    Samples.sample_list_and_key []
  = ([address "4.3.2.1:8080"; address "1.0.0.10:50000";
      other_RSA_public_key {| modulus := 3233; exponent := 65537 |}], Ok tt).
Proof.
  assert (Hwf : Forall well_formed [Samples.record1; Samples.record2]).
  { repeat constructor; vm_compute; discriminate. }
  apply (list_then_key (Reference.flat_image Samples.base) Reference.der_sequence
           yara_scan (Samples.image 159) Samples.sample_list_and_key
           (firstn 80 Samples.sample_list_and_key)
           (skipn 96 Samples.sample_list_and_key)
           [Samples.record1; Samples.record2]
           0 0x400050 100 0x40008c 140 0x1234 0x123f 3233 65537 []);
    try exact Hwf; try (vm_compute; reflexivity).
  right. exists (skipn 100 Samples.sample_list_and_key). vm_compute. reflexivity.
Defined.

(** ** How many endpoints a list can hold *)

Lemma read_fits (f : struct_fmt) (data : bytes) (lo v : Z) :
  0 <= lo ->
  struct_unpack f (py_slice data lo (lo + Z.of_nat (calcsize f))) = Ok v ->
  lo + Z.of_nat (calcsize f) <= len data.
Proof.
  intros Hlo H. apply struct_unpack_Ok in H.
  assert (L : len (py_slice data lo (lo + Z.of_nat (calcsize f)))
              = Z.of_nat (calcsize f)) by (unfold len; now rewrite H).
  rewrite py_slice_len in L. pose proof (len_nonneg data) as Hn.
  assert (Hpos : 0 < Z.of_nat (calcsize f)) by (destruct f; cbn; lia).
  revert L. unfold slice_index.
  destruct (lo <? 0) eqn:E1; [apply Z.ltb_lt in E1; lia|].
  destruct (lo + Z.of_nat (calcsize f) <? 0) eqn:E2; [apply Z.ltb_lt in E2; lia|].
  lia.
Qed.

Lemma snippet_loop_count (data : bytes) :
  forall (fuel : nat) (off : Z) (r : reporter),
    0 <= off ->
    exists added,
      fst (snippet_loop fuel data (Some off) r) = r ++ added
      /\ 8 * len added <= Z.max 0 (len data - off + 2).
Proof.
  assert (Hnil : forall (r : reporter) (off : Z),
             exists added, r = r ++ added
                           /\ 8 * len added <= Z.max 0 (len data - off + 2)).
  { intros r off. exists []. rewrite app_nil_r. split; [reflexivity|]. cbn. lia. }
  induction fuel as [|fuel IH]; intros off r Hoff; [apply Hnil|].
  cbn [snippet_loop load_fast obind].
  destruct (struct_unpack fmt_ltI (py_slice data off (off + 4))) as [ip| e |] eqn:Eip;
    cbn [obind]; try apply Hnil.
  destruct (ip =? 0); [apply Hnil|].
  unfold bind at 1. unfold lift at 1. unfold render_record.
  destruct (struct_pack_netL ip) as [packed| e |]; cbn [obind fst]; try apply Hnil.
  destruct (inet_ntoa packed) as [c2_address| e |]; cbn [obind fst]; try apply Hnil.
  destruct (struct_unpack fmt_H (py_slice data (off + 4) (off + 6)))
    as [port| e |] eqn:Eport; cbn [obind fst]; try apply Hnil.
  destruct (truthy c2_address && truthy (str port)); [|apply Hnil].
  unfold bind at 1. unfold add_metadata at 1.
  destruct (IH (off + 8) (r ++ [address (c2_address ++ ":" ++ str port)])
              ltac:(lia)) as [added [Ea Hb]].
  exists (address (c2_address ++ ":" ++ str port) :: added).
  rewrite Ea, <- app_assoc. split; [reflexivity|].
  pose proof (read_fits fmt_H data (off + 4) port ltac:(lia)) as Hfit.
  cbn [calcsize] in Hfit.
  replace (off + 4 + Z.of_nat 2) with (off + 6) in Hfit by lia.
  specialize (Hfit Eport).
  unfold len in *. cbn [length]. lia.
Qed.

(** X16.  A fall-back loop started at a file offset that is not negative
    reports at most one endpoint for every 8 bytes between that offset and
    the end of the buffer (the last record may lack its two bytes of
    padding), whatever the bytes are. *)
Theorem fallback_list_size (pe : PE) (data : bytes) (rva off : Z) (r : reporter) :
  get_offset_from_rva pe rva = Some off ->
  0 <= off ->
  exists added,
    fst (decode_c2_list pe data (Some rva) r) = r ++ added
    /\ 8 * len added <= Z.max 0 (len data - off + 2).
Proof.
  intros Hoff Hpos.
  rewrite (decode_c2_list_mapped pe data rva off r Hoff).
  now apply snippet_loop_count.
Qed.

Lemma fallback_list_size_witness :
  get_offset_from_rva (Samples.image 100) 80 = Some 80
  /\ 0 <= 80
  /\ exists added,
       fst (decode_c2_list (Samples.image 100) Samples.sample_snippet4 (Some 80) [])
       = [] ++ added
       /\ 8 * len added <= Z.max 0 (len Samples.sample_snippet4 - 80 + 2).
Proof.
  split; [reflexivity|]. split; [lia|].
  apply (fallback_list_size (Samples.image 100) Samples.sample_snippet4 80 80 []);
    [reflexivity | lia].
Defined.

(** ** An untranslatable list pointer and the key *)

(** X17.  When the first list signature found is [$snippet4] and its
    pointer does not translate, the exception raised at the handler ends
    the whole run: nothing is reported, and the obfuscated key is not
    attempted, whatever [$ref_rsa] would give. *)
Theorem unmapped_list_pointer_ends_run (pefile_PE : bytes -> option PE)
  (der : bytes -> option (list Z)) (scan : bytes -> string -> option Z)
  (pe : PE) (data : bytes) (a va : Z) (r : reporter) :
  pefile_PE data = Some pe ->
  pub_first_match data = None ->
  scan data "$c2list" = None ->
  scan data "$snippet3" = None ->
  scan data "$snippet4" = Some a ->
  struct_unpack fmt_i (py_slice data (a + 8) (a + 8 + 4)) = Ok va ->
  get_offset_from_rva pe (list_rva va (ImageBase pe)) = None ->
  run_with pefile_PE der scan data r = (r, Raise (NameError "PEFormatError")).
Proof.
  intros Hpe Hpub Hc2 Hs3 Hs4 Hva Hoff.
  unfold run_with.
  unfold bind at 1. unfold lift at 1. rewrite Hpe.
  unfold bind at 1. unfold lift at 1.
  unfold extract_emotet_rsakey. rewrite Hpub.
  unfold bind at 1. unfold ret at 1.
  rewrite Hc2. unfold run_fallbacks. unfold bind at 1.
  unfold fallback_lists. rewrite Hs3, Hs4.
  unfold snippet_branch. unfold bind at 1. unfold lift at 1. rewrite Hva.
  rewrite (decode_c2_list_unmapped pe data (Some (list_rva va (ImageBase pe))) r Hoff).
  reflexivity.
Qed.

Lemma unmapped_list_pointer_ends_run_witness :
  yara_scan Samples.sample_unmapped_list_and_key "$snippet4" = Some 0
  /\ get_offset_from_rva (Samples.image 159) (list_rva 0x401000 Samples.base) = None
  /\ obfuscated_key Reference.der_sequence yara_scan (Samples.image 159)
       Samples.sample_unmapped_list_and_key []
     = ([other_RSA_public_key {| modulus := 3233; exponent := 65537 |}], Ok tt)
  /\ run (Reference.flat_image Samples.base) Reference.der_sequence
       Samples.sample_unmapped_list_and_key []
     = ([], Raise (NameError "PEFormatError")).
Proof.
  split; [vm_compute; reflexivity|]. split; [vm_compute; reflexivity|].
  split; [vm_compute; reflexivity|].
  apply (unmapped_list_pointer_ends_run (Reference.flat_image Samples.base)
           Reference.der_sequence yara_scan (Samples.image 159)
           Samples.sample_unmapped_list_and_key 0 0x401000 []);
    vm_compute; reflexivity.
Defined.
